(** * DEFI-DNA: the real-time ranking update pipeline

    A shallow embedding of the leaderboard broadcaster
    (the TypeScript websocket module and [websocket-leaderboard-FIXED.js])
    and of the indexer's swap pipeline ([indexer-processSwap-FIXED.js]),
    followed by the properties of the specification that concern them.

    Conventions.
    - JavaScript numbers that hold counts, ranks, scores and timestamps are
      integers of [Z]; the prices and the USD amounts that [processSwap]
      computes are doubles, as [Number] has them.
    - A JavaScript object literal is an association list of its own
      properties in insertion order ([JObj]); the text produced by
      [JSON.stringify] is represented by the value it denotes.
    - Code that can throw returns a [Result]; code with side effects passes
      its state explicitly.
    - A JavaScript [Set] or [Map] that is only iterated is the list of its
      members in insertion order, the order in which [forEach] visits them.
    - The process has one clock, read by [Date.now()] and by SQL's [NOW()];
      it stands still during a call.
    - An [async] method runs from its call to its return or throw; what
      other calls do while it awaits is not part of the model. *)

From Stdlib Require Import List ZArith QArith Qabs Bool String Ascii Lia
  Sorted Permutation SpecFloat.
Import ListNotations.

Local Open Scope string_scope.
Local Open Scope list_scope.
Local Open Scope Z_scope.

(** ** Values shared by both programs *)

#[local] Set Warnings "-register-all".

Inductive Json : Type :=
| JNull
| JBool (b : bool)
| JNum (z : Z)
| JReal (q : Q)
| JStr (s : string)
| JArr (items : list Json)
| JObj (fields : list (string * Json)).

(** Errors that travel as JavaScript exceptions. *)
Inductive Exn : Type :=
| DbError (statement : nat)
| TransportError (reason : string)
| ServiceError (reason : string).

Inductive Result (A : Type) : Type :=
| Ok (a : A)
| Throw (e : Exn).
Arguments Ok {A} a.
Arguments Throw {A} e.

(** Property lookup [o.k] on an object; the last binding of a key wins, as
    in an object literal that repeats a key after a spread. *)
Fixpoint lookup_field (k : string) (fields : list (string * Json)) : option Json :=
  match fields with
  | [] => None
  | (k', v) :: rest =>
      match lookup_field k rest with
      | Some v' => Some v'
      | None => if String.eqb k k' then Some v else None
      end
  end.

Definition field (k : string) (o : Json) : option Json :=
  match o with
  | JObj fields => lookup_field k fields
  | _ => None
  end.

(** An optional property: [JSON.stringify] leaves out a property whose value
    is [undefined]. *)
Definition opt_field (k : string) (v : option Json) : list (string * Json) :=
  match v with
  | Some x => [(k, x)]
  | None => []
  end.

(** *** Numbers

    A JavaScript number is an IEEE 754 double: 53 bits of precision,
    round to nearest, ties to even. *)
Definition Number : Type := spec_float.

(** [Number(n)] for an integer [n], a bigint or the decimal text of one. *)
Definition Number_of (n : Z) : Number := binary_normalize 53 1024 n 0 false.

(** [x / y], [x * y] and [Math.abs(x)] *)
Definition Number_div (x y : Number) : Number := SFdiv 53 1024 x y.
Definition Number_mul (x y : Number) : Number := SFmul 53 1024 x y.
Definition Math_abs (x : Number) : Number := SFabs x.

(** [if (x)]: a number is falsy when it is zero or NaN. *)
Definition Number_truthy (x : Number) : bool :=
  match x with
  | S754_zero _ | S754_nan => false
  | S754_infinity _ | S754_finite _ _ _ => true
  end.

(** The rational that a finite number is. *)
Definition Number_value (x : Number) : option Q :=
  match x with
  | S754_zero _ => Some 0%Q
  | S754_finite s m e =>
      let n := if s then Z.neg m else Z.pos m in
      Some (match e with
            | Z.neg k => Qmake n (Pos.pow 2 k)
            | _ => inject_Z (n * 2 ^ e)
            end)
  | S754_infinity _ | S754_nan => None
  end.

(** A number in the text of [JSON.stringify]: NaN and the infinities are
    written as null. *)
Definition Number_json (x : Number) : Json :=
  match Number_value x with
  | Some q => JReal q
  | None => JNull
  end.

(** [number | null] *)
Definition nullable {A : Type} (f : A -> Json) (v : option A) : Json :=
  match v with
  | Some q => f q
  | None => JNull
  end.

(** ** The sockets of the [ws] transport

    A socket has a [readyState] (1 is OPEN) and a [send] method that either
    returns or throws; which of the two is the transport's business, so it
    is a field of the socket. *)

Record WebSocket : Type := {
  ws_id : nat;
  readyState : Z;
  send : Json -> Result unit
}.

Definition WebSocket_OPEN : Z := 1.

(** One call of [send], as seen on the wire. *)
Record Attempt : Type := {
  att_to : nat;
  att_payload : Json;
  att_ok : bool
}.

Definition delivered_to (id : nat) (log : list Attempt) : list Json :=
  map att_payload (filter (fun a => Nat.eqb (att_to a) id && att_ok a) log).

Definition attempts_to (id : nat) (log : list Attempt) : list Json :=
  map att_payload (filter (fun a => Nat.eqb (att_to a) id) log).

Definition is_open (c : WebSocket) : bool := readyState c =? 1.

Definition send_ok (message : Json) (c : WebSocket) : bool :=
  match send c message with
  | Ok _ => true
  | Throw _ => false
  end.

(** Typed arguments of the broadcast functions. *)

Record RankingChange : Type := {
  rc_address : string;
  rc_oldRank : Z;
  rc_newRank : Z;
  rc_dnaScore : Z;
  rc_tier : string
}.

Record Leader : Type := {
  ld_address : string;
  ld_ens_name : option string;
  ld_dna_score : Z;
  ld_tier : string;
  ld_total_positions : Z;
  ld_total_volume_usd : Q
}.

Record UserUpdate : Type := {
  uu_address : string;
  uu_dnaScore : Z;
  uu_tier : string;
  uu_timestamp : Z
}.

Record UserAction : Type := {
  ua_address : string;
  ua_actionType : string;
  ua_poolId : option string;
  ua_amountUsd : option (option Number);
  ua_timestamp : Z
}.

Record Counts : Type := {
  sentCount : Z;
  errorCount : Z
}.

(** ** The websocket module (TypeScript) *)

Module Broadcaster.

Record WebSocketServer : Type := {
  clients : list WebSocket
}.

(** Module state: the [wssInstance] variable, the clock read by
    [Date.now()], and the wire, on which every [send] is recorded. *)
Record State : Type := {
  wssInstance : option WebSocketServer;
  clock : Z;
  wire : list Attempt
}.

Definition initial (now : Z) : State :=
  {| wssInstance := None; clock := now; wire := [] |}.

Definition setWebSocketServer (wss : WebSocketServer) (st : State) : State :=
  {| wssInstance := Some wss; clock := clock st; wire := wire st |}.

(** The body of the [forEach] callback: the counters and the wire after
    one client. *)
Definition visit (message : Json) (acc : Counts * list Attempt) (client : WebSocket)
  : Counts * list Attempt :=
  let (n, log) := acc in
  if readyState client =? 1 then
    match send client message with
    | Ok _ =>
        ({| sentCount := sentCount n + 1; errorCount := errorCount n |},
         log ++ [{| att_to := ws_id client; att_payload := message; att_ok := true |}])
    | Throw _ =>
        ({| sentCount := sentCount n; errorCount := errorCount n + 1 |},
         log ++ [{| att_to := ws_id client; att_payload := message; att_ok := false |}])
    end
  else acc.

Definition broadcastToAll (message : Json) (st : State) : Counts * State :=
  let zero := {| sentCount := 0; errorCount := 0 |} in
  match wssInstance st with
  | None => (zero, st)
  | Some wss =>
      let (n, log) := fold_left (visit message) (clients wss) (zero, wire st) in
      (n, {| wssInstance := wssInstance st; clock := clock st; wire := log |})
  end.

Definition leaderboard_update (type : string) (data : Json) (now : Z) : Json :=
  JObj [("type", JStr "leaderboard_update"); ("updateType", JStr type);
        ("data", data); ("timestamp", JNum now)].

Definition broadcastLeaderboardUpdate (type : string) (data : Json) (st : State)
  : Counts * State :=
  broadcastToAll (leaderboard_update type data (clock st)) st.

(** [{ ...c, rankChange: c.oldRank - c.newRank }] *)
Definition change_entry (c : RankingChange) : Json :=
  JObj [("address", JStr (rc_address c)); ("oldRank", JNum (rc_oldRank c));
        ("newRank", JNum (rc_newRank c)); ("dnaScore", JNum (rc_dnaScore c));
        ("tier", JStr (rc_tier c));
        ("rankChange", JNum (rc_oldRank c - rc_newRank c))].

Definition ranking_changes (changes : list RankingChange) (now : Z) : Json :=
  JObj [("type", JStr "ranking_changes");
        ("changes", JArr (map change_entry changes));
        ("timestamp", JNum now)].

Definition broadcastRankingChanges (changes : list RankingChange) (st : State)
  : Counts * State :=
  broadcastToAll (ranking_changes changes (clock st)) st.

Definition new_leader (leader : Leader) (now : Z) : Json :=
  JObj [("type", JStr "new_leader");
        ("leader",
          JObj ([("address", JStr (ld_address leader))]
                ++ opt_field "ensName" (option_map JStr (ld_ens_name leader))
                ++ [("dnaScore", JNum (ld_dna_score leader));
                    ("tier", JStr (ld_tier leader));
                    ("totalPositions", JNum (ld_total_positions leader));
                    ("totalVolumeUsd", JReal (ld_total_volume_usd leader))]));
        ("timestamp", JNum now)].

Definition broadcastNewLeader (leader : Leader) (st : State) : Counts * State :=
  broadcastToAll (new_leader leader (clock st)) st.

(** [{ type: 'user_update', ...payload }] *)
Definition user_update (payload : UserUpdate) : Json :=
  JObj [("type", JStr "user_update"); ("address", JStr (uu_address payload));
        ("dnaScore", JNum (uu_dnaScore payload)); ("tier", JStr (uu_tier payload));
        ("timestamp", JNum (uu_timestamp payload))].

Definition broadcastUserUpdate (payload : UserUpdate) (st : State) : Counts * State :=
  broadcastToAll (user_update payload) st.

(** [{ type: 'user_action', ...payload }] *)
Definition user_action (payload : UserAction) : Json :=
  JObj ([("type", JStr "user_action"); ("address", JStr (ua_address payload));
         ("actionType", JStr (ua_actionType payload))]
        ++ opt_field "poolId" (option_map JStr (ua_poolId payload))
        ++ opt_field "amountUsd" (option_map (nullable Number_json) (ua_amountUsd payload))
        ++ [("timestamp", JNum (ua_timestamp payload))]).

Definition broadcastUserAction (payload : UserAction) (st : State) : Counts * State :=
  broadcastToAll (user_action payload) st.

End Broadcaster.

(** ** The logger

    A log line is the level, the text of the template at the call site and
    the values interpolated into it. *)

Inductive LogLevel : Type := Info | Warn | Error.

Record LogLine : Type := {
  log_level : LogLevel;
  log_text : string;
  log_args : list Json
}.

Definition exn_value (e : Exn) : Json :=
  match e with
  | DbError n => JObj [("db", JNum (Z.of_nat n))]
  | TransportError r => JObj [("transport", JStr r)]
  | ServiceError r => JObj [("service", JStr r)]
  end.

(** ** The broadcast functions of [websocket-leaderboard-FIXED.js] *)

Module WebsocketFixed.

(** An entry of the module's [clients] collection. *)
Record ClientEntry : Type := {
  id : nat;
  ws : WebSocket
}.

Record State : Type := {
  clients : list ClientEntry;
  clock : Z;
  wire : list Attempt;
  logged : list LogLine
}.

Record Acc : Type := {
  acc_counts : Counts;
  acc_wire : list Attempt;
  acc_logged : list LogLine
}.

Definition visit (what : string) (message : Json) (acc : Acc) (client : ClientEntry) : Acc :=
  let n := acc_counts acc in
  if readyState (ws client) =? WebSocket_OPEN then
    match send (ws client) message with
    | Ok _ =>
        {| acc_counts := {| sentCount := sentCount n + 1; errorCount := errorCount n |};
           acc_wire := acc_wire acc ++
             [{| att_to := ws_id (ws client); att_payload := message; att_ok := true |}];
           acc_logged := acc_logged acc |}
    | Throw error =>
        {| acc_counts := {| sentCount := sentCount n; errorCount := errorCount n + 1 |};
           acc_wire := acc_wire acc ++
             [{| att_to := ws_id (ws client); att_payload := message; att_ok := false |}];
           acc_logged := acc_logged acc ++
             [{| log_level := Error;
                 log_text := String.append "Error broadcasting " what;
                 log_args := [JNum (Z.of_nat (id client)); exn_value error] |}] |}
    end
  else acc.

Definition for_each_client (what : string) (message : Json) (st : State) : Acc :=
  fold_left (visit what message) (clients st)
    {| acc_counts := {| sentCount := 0; errorCount := 0 |};
       acc_wire := wire st; acc_logged := logged st |}.

Definition leaderboard_update (type : string) (data : Json) (now : Z) : Json :=
  JObj [("type", JStr "leaderboard_update"); ("updateType", JStr type);
        ("data", data); ("timestamp", JNum now)].

Definition broadcastLeaderboardUpdate (type : string) (data : Json) (st : State)
  : Counts * State :=
  let message := leaderboard_update type data (clock st) in
  let acc := for_each_client "leaderboard update" message st in
  let n := acc_counts acc in
  let logged' :=
    if 0 <? sentCount n then
      acc_logged acc ++
        [{| log_level := Info; log_text := "Broadcast leaderboard update";
            log_args := [JStr type; JNum (sentCount n)]
                        ++ (if 0 <? errorCount n then [JNum (errorCount n)] else []) |}]
    else acc_logged acc in
  (n, {| clients := clients st; clock := clock st;
         wire := acc_wire acc; logged := logged' |}).

Definition change_entry (change : RankingChange) : Json :=
  JObj [("address", JStr (rc_address change)); ("oldRank", JNum (rc_oldRank change));
        ("newRank", JNum (rc_newRank change)); ("dnaScore", JNum (rc_dnaScore change));
        ("tier", JStr (rc_tier change));
        ("rankChange", JNum (rc_oldRank change - rc_newRank change))].

Definition ranking_changes (changes : list RankingChange) (now : Z) : Json :=
  JObj [("type", JStr "ranking_changes");
        ("changes", JArr (map change_entry changes));
        ("timestamp", JNum now)].

(** Returns nothing; only [sentCount] is kept, for the log line. *)
Definition broadcastRankingChanges (changes : list RankingChange) (st : State) : State :=
  let message := ranking_changes changes (clock st) in
  let acc := for_each_client "ranking changes" message st in
  {| clients := clients st; clock := clock st; wire := acc_wire acc;
     logged := acc_logged acc ++
       [{| log_level := Info; log_text := "Broadcast ranking changes";
           log_args := [JNum (Z.of_nat (List.length changes));
                        JNum (sentCount (acc_counts acc))] |}] |}.

(** [ensName: leader.ens_name] is left out of the text when it is undefined. *)
Definition new_leader (leader : Leader) (now : Z) : Json :=
  JObj [("type", JStr "new_leader");
        ("leader",
          JObj ([("address", JStr (ld_address leader))]
                ++ opt_field "ensName" (option_map JStr (ld_ens_name leader))
                ++ [("dnaScore", JNum (ld_dna_score leader));
                    ("tier", JStr (ld_tier leader));
                    ("totalPositions", JNum (ld_total_positions leader));
                    ("totalVolumeUsd", JReal (ld_total_volume_usd leader))]));
        ("timestamp", JNum now)].

(** Returns nothing; only [sentCount] is kept, for the log line. *)
Definition broadcastNewLeader (leader : Leader) (st : State) : State :=
  let message := new_leader leader (clock st) in
  let acc := for_each_client "new leader" message st in
  {| clients := clients st; clock := clock st; wire := acc_wire acc;
     logged := acc_logged acc ++
       [{| log_level := Info; log_text := "Broadcast new leader";
           log_args := [JStr (ld_address leader);
                        JNum (sentCount (acc_counts acc))] |}] |}.

End WebsocketFixed.

(** ** The indexer ([indexer-processSwap-FIXED.js]) *)

Module Indexer.

(** *** The tables the code reads and writes *)

Record PoolRow : Type := {
  pool_id : string;
  token0 : string;
  token1 : string;
  fee : Z;
  tick_spacing : Z
}.

Record ActionRow : Type := {
  act_address : string;
  act_protocol_version : string;
  act_action_type : string;
  act_pool_id : string;
  act_amount0 : Z;
  act_amount1 : Z;
  act_amount_usd : option Number;
  act_tx_hash : string;
  act_block_number : Z;
  act_timestamp : Z
}.

(** A row of [user_stats]: the columns this code writes, and the rest of
    the row, which it only hands to the score service. *)
Record StatsRow : Type := {
  address : string;
  total_swaps : Z;
  total_volume_usd : Q;
  last_action : option Z;
  updated_at : option Z;
  dna_score : Z;
  tier : string;
  other_columns : list (string * Json)
}.

Record Database : Type := {
  users : list string;
  user_stats : list StatsRow;
  user_actions : list ActionRow;
  pools : list PoolRow
}.

(** What the migration (not among the sources) fixes: the defaults of a
    new [user_stats] row, the uniqueness rule of [user_actions] that
    [ON CONFLICT DO NOTHING] refers to, and the sum [total_volume_usd + $2]
    of the column and a number, in the type of the column. *)
Record Schema : Type := {
  default_stats : string -> StatsRow;
  action_conflict : ActionRow -> list ActionRow -> bool;
  add_usd : Q -> Number -> Q
}.

(** The SQL statements of the source, with their parameters. *)
Inductive Stmt : Type :=
| Begin
| Commit
| Rollback
| SelectPool (poolId : string)
| InsertUser (a : string)
| InsertUserStats (a : string)
| InsertUserAction (row : ActionRow)
| UpdateUserStats (a : string) (amountUsd : option Number)
| SelectActiveDays (a : string)
| SelectFirstAction (a : string)
| SelectUserStats (a : string)
| UpdateScore (a : string) (dnaScore : Z) (tier : string)
| SelectRanks.

(** *** What the statements compute *)

Definition ms_per_day : Z := 1000 * 60 * 60 * 24.

(** [DATE(timestamp)], as a day number. *)
Definition DATE (timestamp : Z) : Z := timestamp / ms_per_day.

Definition actions_of (a : string) (db : Database) : list ActionRow :=
  filter (fun r => String.eqb (act_address r) a) (user_actions db).

(** [SELECT COUNT(DISTINCT DATE(timestamp)) ... WHERE address = $1] *)
Definition select_active_days (a : string) (db : Database) : Z :=
  Z.of_nat (List.length (nodup Z.eq_dec (map (fun r => DATE (act_timestamp r)) (actions_of a db)))).

(** [SELECT MIN(timestamp) ... WHERE address = $1]: NULL without rows. *)
Definition select_first_action (a : string) (db : Database) : option Z :=
  match map act_timestamp (actions_of a db) with
  | [] => None
  | t :: ts => Some (fold_left Z.min ts t)
  end.

(** [SELECT * FROM user_stats WHERE address = $1] *)
Definition select_user_stats (a : string) (db : Database) : list StatsRow :=
  filter (fun r => String.eqb (address r) a) (user_stats db).

(** [SELECT token0, token1, fee, tick_spacing FROM pools WHERE pool_id = $1] *)
Definition select_pool (poolId : string) (db : Database) : list PoolRow :=
  filter (fun r => String.eqb (pool_id r) poolId) (pools db).

Definition set_user_stats (rows : list StatsRow) (db : Database) : Database :=
  {| users := users db; user_stats := rows;
     user_actions := user_actions db; pools := pools db |}.

(** [INSERT INTO users (address) VALUES ($1) ON CONFLICT (address) DO NOTHING] *)
Definition insert_user (a : string) (db : Database) : Database :=
  if existsb (String.eqb a) (users db) then db
  else {| users := users db ++ [a]; user_stats := user_stats db;
          user_actions := user_actions db; pools := pools db |}.

(** [INSERT INTO user_stats (address) VALUES ($1) ON CONFLICT (address) DO NOTHING] *)
Definition insert_user_stats (schema : Schema) (a : string) (db : Database) : Database :=
  if existsb (fun r => String.eqb (address r) a) (user_stats db) then db
  else set_user_stats (user_stats db ++ [default_stats schema a]) db.

(** [INSERT INTO user_actions (...) VALUES (...) ON CONFLICT DO NOTHING] *)
Definition insert_user_action (schema : Schema) (row : ActionRow) (db : Database) : Database :=
  if action_conflict schema row (user_actions db) then db
  else {| users := users db; user_stats := user_stats db;
          user_actions := user_actions db ++ [row]; pools := pools db |}.

(** The two forms of [UPDATE user_stats SET total_swaps = total_swaps + 1, ...]. *)
Definition update_user_stats (schema : Schema) (a : string) (amountUsd : option Number)
           (now : Z) (db : Database) : Database :=
  set_user_stats
    (map (fun r =>
            if String.eqb (address r) a then
              {| address := address r;
                 total_swaps := total_swaps r + 1;
                 total_volume_usd :=
                   match amountUsd with
                   | Some usd => add_usd schema (total_volume_usd r) usd
                   | None => total_volume_usd r
                   end;
                 last_action := Some now;
                 updated_at := Some now;
                 dna_score := dna_score r;
                 tier := tier r;
                 other_columns := other_columns r |}
            else r)
         (user_stats db))
    db.

(** [UPDATE user_stats SET dna_score = $2, tier = $3, updated_at = NOW()
    WHERE address = $1] *)
Definition update_score (a : string) (dnaScore : Z) (t : string) (now : Z) (db : Database)
  : Database :=
  set_user_stats
    (map (fun r =>
            if String.eqb (address r) a then
              {| address := address r;
                 total_swaps := total_swaps r;
                 total_volume_usd := total_volume_usd r;
                 last_action := last_action r;
                 updated_at := Some now;
                 dna_score := dnaScore;
                 tier := t;
                 other_columns := other_columns r |}
            else r)
         (user_stats db))
    db.

(** *** The ranking query

    [SELECT ROW_NUMBER() OVER (ORDER BY dna_score DESC) as rank, address
     FROM user_stats WHERE dna_score > 0].

    The window orders by [dna_score] alone. SQL leaves the order of rows
    with equal keys to the database; [ordered_by_dna_score_desc] is what
    every answer satisfies, and [order_by_dna_score_desc] is the answer of
    a database that keeps such rows in the order it stores them. *)

Record RankRow : Type := {
  rank : Z;
  rr_address : string
}.

Definition score_desc (r1 r2 : StatsRow) : Prop := dna_score r2 <= dna_score r1.

Definition ordered_by_dna_score_desc (table answer : list StatsRow) : Prop :=
  Permutation table answer /\ StronglySorted score_desc answer.

Fixpoint insert_by_score (r : StatsRow) (sorted : list StatsRow) : list StatsRow :=
  match sorted with
  | [] => [r]
  | h :: rest =>
      if dna_score r <? dna_score h then h :: insert_by_score r rest
      else r :: h :: rest
  end.

Definition order_by_dna_score_desc (table : list StatsRow) : list StatsRow :=
  fold_right insert_by_score [] table.

(** [ROW_NUMBER()], counting from [k]. *)
Fixpoint row_number (k : Z) (rows : list StatsRow) : list RankRow :=
  match rows with
  | [] => []
  | r :: rest => {| rank := k; rr_address := address r |} :: row_number (k + 1) rest
  end.

Definition positive_scores (table : list StatsRow) : list StatsRow :=
  filter (fun r => 0 <? dna_score r) table.

Definition select_ranks (db : Database) : list RankRow :=
  row_number 1 (order_by_dna_score_desc (positive_scores (user_stats db))).

(** [rows.find(r => r.address === address)?.rank] *)
Definition find_rank (a : string) (rows : list RankRow) : option Z :=
  option_map rank (find (fun r => String.eqb (rr_address r) a) rows).

(** *** The world the indexer runs in *)

(** A call made on [this.websocketServer]. *)
Inductive WsCall : Type :=
| CallUserUpdate (payload : UserUpdate)
| CallUserAction (payload : UserAction)
| CallLeaderboardUpdate (type : string) (data : Json).

(** The database with the statements sent to it so far (and whether each
    succeeded), the statements it is going to reject ([faults], by
    position in the journal), the log, the calls made on the websocket
    module and that module's own state. *)
Record World : Type := {
  db : Database;
  faults : nat -> bool;
  journal : list (Stmt * bool);
  logged : list LogLine;
  calls : list WsCall;
  net : Broadcaster.State
}.

Definition set_db (d : Database) (w : World) : World :=
  {| db := d; faults := faults w; journal := journal w;
     logged := logged w; calls := calls w; net := net w |}.

Definition record_stmt (s : Stmt) (ok : bool) (w : World) : World :=
  {| db := db w; faults := faults w; journal := journal w ++ [(s, ok)];
     logged := logged w; calls := calls w; net := net w |}.

Definition record_log (l : LogLine) (w : World) : World :=
  {| db := db w; faults := faults w; journal := journal w;
     logged := logged w ++ [l]; calls := calls w; net := net w |}.

Definition record_call (c : WsCall) (n : Broadcaster.State) (w : World) : World :=
  {| db := db w; faults := faults w; journal := journal w;
     logged := logged w; calls := calls w ++ [c]; net := n |}.

(** *** Computations that change the world and may throw *)

Definition M (A : Type) : Type := World -> Result A * World.

Definition ret {A : Type} (a : A) : M A := fun w => (Ok a, w).

Definition bind {A B : Type} (m : M A) (k : A -> M B) : M B :=
  fun w =>
    match m w with
    | (Ok a, w') => k a w'
    | (Throw e, w') => (Throw e, w')
    end.

Definition throw {A : Type} (e : Exn) : M A := fun w => (Throw e, w).

(** [try { m } catch (error) { handler(error) }] *)
Definition try_catch {A : Type} (m : M A) (handler : Exn -> M A) : M A :=
  fun w =>
    match m w with
    | (Ok a, w') => (Ok a, w')
    | (Throw e, w') => handler e w'
    end.

Definition lift {A : Type} (r : Result A) : M A := fun w => (r, w).

Declare Scope indexer_scope.
Delimit Scope indexer_scope with indexer.
Notation "x <- m ;; k" := (bind m (fun x => k))
  (at level 61, m at next level, right associativity) : indexer_scope.
Notation "m ;; k" := (bind m (fun _ => k))
  (at level 61, right associativity) : indexer_scope.
Local Open Scope indexer_scope.

(** [client.query(...)]: the statement is rejected or it runs. A rejected
    statement changes nothing here; what it does to a transaction around it
    is the database's business and is not part of the model, so after a run
    that has swallowed a rejection, [db] holds the effect of the accepted
    statements and not what a later COMMIT keeps of it. *)
Definition query {A : Type} (s : Stmt) (run : Database -> A * Database) : M A :=
  fun w =>
    let n := List.length (journal w) in
    if faults w n then (Throw (DbError n), record_stmt s false w)
    else
      let (a, d) := run (db w) in
      (Ok a, record_stmt s true (set_db d w)).

Definition reading {A : Type} (f : Database -> A) (d : Database) : A * Database := (f d, d).
Definition writing (f : Database -> Database) (d : Database) : unit * Database := (tt, f d).

Definition logger (level : LogLevel) (text : string) (args : list Json) : M unit :=
  fun w => (Ok tt, record_log {| log_level := level; log_text := text; log_args := args |} w).

(** [Date.now()]: the clock of the process, kept with the state of the
    websocket module. *)
Definition Date_now : M Z := fun w => (Ok (Broadcaster.clock (net w)), w).

(** *** The indexer object and its collaborators *)

Record PoolInfo : Type := {
  pi_token0 : string;
  pi_token1 : string;
  pi_fee : Z;
  pi_tick_spacing : Z
}.

(** A pool as TheGraph describes it. *)
Record PoolData : Type := {
  pd_token0_id : string;
  pd_token1_id : string;
  pd_fee : Z;
  pd_tickSpacing : Z
}.

Record SwapEvent : Type := {
  transactionHash : string;
  blockNumber : Z
}.

(** The fields of [this] that the code uses. The services are not among
    the sources and are taken as they come: [graphService] is optional,
    [symbol] is the ERC20 call behind [getTokenSymbol], and
    [websocketServer] says whether a websocket module is attached (its
    methods are those of [Broadcaster]). *)
Record Indexer : Type := {
  graphService : option (string -> Result (option PoolData));
  symbol : string -> Result string;
  priceFeedService_getPrice : string -> string -> Result (option Number);
  dnaScoreService_calculateScore : StatsRow -> Z -> Z -> Result Z;
  dnaScoreService_getTier : Z -> string;
  websocketServer : bool
}.

(** [{ newRank, oldRank }], what [checkLeaderboardChange] would report. *)
Record RankChange : Type := {
  newRank : Z;
  oldRank : Z
}.

(** [sender.toLowerCase()] on the ASCII text of an address: the letters A
    to Z are the ones it changes. *)
Definition lower_char (c : ascii) : ascii :=
  let n := nat_of_ascii c in
  if (Nat.leb 65 n && Nat.leb n 90)%bool then ascii_of_nat (n + 32) else c.

Fixpoint toLowerCase (s : string) : string :=
  match s with
  | EmptyString => EmptyString
  | String c rest => String (lower_char c) (toLowerCase rest)
  end.

(** [if (price)]: a price is usable when it is neither null nor zero nor
    NaN. *)
Definition truthy (price : option Number) : bool :=
  match price with
  | Some x => Number_truthy x
  | None => false
  end.

(** [Math.abs(Number(amount) / 1e18) * price], in doubles; [1e18] is a
    double. *)
Definition usd_value (amount : Z) (price : Number) : Number :=
  Number_mul (Math_abs (Number_div (Number_of amount) (Number_of (10 ^ 18)))) price.

(** The number that a usable price is. *)
Definition price_or_zero (price : option Number) : Number :=
  match price with
  | Some x => x
  | None => S754_zero false
  end.

Section Methods.

Variable schema : Schema.
Variable this : Indexer.

Definition websocketServer_broadcastUserUpdate (payload : UserUpdate) : M unit :=
  fun w =>
    (Ok tt, record_call (CallUserUpdate payload)
              (snd (Broadcaster.broadcastUserUpdate payload (net w))) w).

Definition websocketServer_broadcastUserAction (payload : UserAction) : M unit :=
  fun w =>
    (Ok tt, record_call (CallUserAction payload)
              (snd (Broadcaster.broadcastUserAction payload (net w))) w).

Definition websocketServer_broadcastLeaderboardUpdate (type : string) (data : Json)
  : M unit :=
  fun w =>
    (Ok tt, record_call (CallLeaderboardUpdate type data)
              (snd (Broadcaster.broadcastLeaderboardUpdate type data (net w))) w).

Definition getPoolInfo (poolId : string) : M (option PoolInfo) :=
  try_catch
    (rows <- query (SelectPool poolId) (reading (select_pool poolId)) ;;
     match rows with
     | row :: _ =>
         ret (Some {| pi_token0 := token0 row; pi_token1 := token1 row;
                      pi_fee := fee row; pi_tick_spacing := tick_spacing row |})
     | [] =>
         found <-
           match graphService this with
           | Some getPoolById =>
               poolData <- lift (getPoolById poolId) ;;
               ret (option_map
                      (fun d => {| pi_token0 := pd_token0_id d;
                                   pi_token1 := pd_token1_id d;
                                   pi_fee := pd_fee d;
                                   pi_tick_spacing := pd_tickSpacing d |})
                      poolData)
           | None => ret None
           end ;;
         match found with
         | Some info => ret (Some info)
         | None =>
             logger Warn "Pool info not found for poolId" [JStr poolId] ;;
             ret None
         end
     end)
    (fun error =>
       logger Error "Error getting pool info for" [JStr poolId; exn_value error] ;;
       ret None).

Definition getTokenSymbol (tokenAddress : string) : M string :=
  try_catch
    (lift (symbol this tokenAddress))
    (fun error =>
       logger Warn "Could not get symbol for token" [JStr tokenAddress; exn_value error] ;;
       ret tokenAddress).

Definition checkLeaderboardChange (a : string) : M (option RankChange) :=
  try_catch
    (currentRankResult <- query SelectRanks (reading select_ranks) ;;
     let currentRank := find_rank a currentRankResult in
     ret None)
    (fun error =>
       logger Error "Error checking leaderboard change:" [exn_value error] ;;
       ret None).

Definition updateDNAScore (a : string) : M unit :=
  try_catch
    (activeDays <- query (SelectActiveDays a) (reading (select_active_days a)) ;;
     firstAction <- query (SelectFirstAction a) (reading (select_first_action a)) ;;
     now <- Date_now ;;
     let totalDaysSinceFirstAction :=
       match firstAction with
       | Some first => (now - first) / ms_per_day
       | None => 0
       end in
     statsResult <- query (SelectUserStats a) (reading (select_user_stats a)) ;;
     match statsResult with
     | [] => logger Warn "No stats found for" [JStr a]
     | userStats :: _ =>
         dnaScore <- lift (dnaScoreService_calculateScore this userStats
                             activeDays totalDaysSinceFirstAction) ;;
         let t := dnaScoreService_getTier this dnaScore in
         query (UpdateScore a dnaScore t) (writing (update_score a dnaScore t now)) ;;
         logger Info "Updated DNA score for" [JStr a; JNum dnaScore; JStr t] ;;
         (if websocketServer this then
            timestamp <- Date_now ;;
            websocketServer_broadcastUserUpdate
              {| uu_address := a; uu_dnaScore := dnaScore; uu_tier := t;
                 uu_timestamp := timestamp |}
          else ret tt) ;;
         rankChange <- checkLeaderboardChange a ;;
         match rankChange with
         | Some change =>
             if websocketServer this then
               websocketServer_broadcastLeaderboardUpdate "incremental"
                 (JObj [("address", JStr a); ("newRank", JNum (newRank change));
                        ("oldRank", JNum (oldRank change));
                        ("dnaScore", JNum dnaScore); ("tier", JStr t)])
             else ret tt
         | None => ret tt
         end
     end)
    (fun error =>
       logger Error "Error updating DNA score for" [JStr a; exn_value error] ;;
       throw error).

(** Modelled from the spec: [withTransaction] is imported by the
    indexer and is not among the sources. The spec calls this step the
    persisted update, a transactional write that fails fast and whose
    failure aborts the pipeline of the event. Here the callback runs
    between BEGIN and COMMIT; when either of them or the callback
    throws, the changes are rolled back and the exception is thrown
    again. *)
Definition withTransaction {A : Type} (callback : M A) : M A :=
  fun w =>
    let before := db w in
    try_catch
      (query Begin (reading (fun _ => tt)) ;;
       result <- callback ;;
       query Commit (reading (fun _ => tt)) ;;
       ret result)
      (fun error w' => (Throw error, record_stmt Rollback true (set_db before w')))
      w.

Definition processSwap (event : SwapEvent) (poolId sender : string) (amount0 amount1 : Z)
  : M unit :=
  let a := toLowerCase sender in
  try_catch
    (poolInfo <- getPoolInfo poolId ;;
     match poolInfo with
     | None => logger Warn "Could not get pool info for poolId" [JStr poolId]
     | Some info =>
         token0Symbol <- getTokenSymbol (pi_token0 info) ;;
         token1Symbol <- getTokenSymbol (pi_token1 info) ;;
         price0 <- lift (priceFeedService_getPrice this (pi_token0 info) token0Symbol) ;;
         price1 <- lift (priceFeedService_getPrice this (pi_token1 info) token1Symbol) ;;
         amountUsd <-
           (if truthy price0 then ret (Some (usd_value amount0 (price_or_zero price0)))
            else if truthy price1 then ret (Some (usd_value amount1 (price_or_zero price1)))
            else
              logger Warn "Could not get price for either token in pool" [JStr poolId] ;;
              ret None) ;;
         withTransaction
           (query (InsertUser a) (writing (insert_user a)) ;;
            query (InsertUserStats a) (writing (insert_user_stats schema a)) ;;
            now <- Date_now ;;
            let row := {| act_address := a; act_protocol_version := "v4";
                          act_action_type := "swap"; act_pool_id := poolId;
                          act_amount0 := amount0; act_amount1 := amount1;
                          act_amount_usd := amountUsd;
                          act_tx_hash := transactionHash event;
                          act_block_number := blockNumber event;
                          act_timestamp := now |} in
            query (InsertUserAction row) (writing (insert_user_action schema row)) ;;
            query (UpdateUserStats a amountUsd)
                  (writing (update_user_stats schema a amountUsd now)) ;;
            updateDNAScore a) ;;
         (if websocketServer this then
            timestamp <- Date_now ;;
            websocketServer_broadcastUserAction
              {| ua_address := a; ua_actionType := "swap"; ua_poolId := Some poolId;
                 ua_amountUsd := Some amountUsd; ua_timestamp := timestamp |}
          else ret tt) ;;
         logger Info "Processed swap for" [JStr a; nullable Number_json amountUsd]
     end)
    (fun error =>
       logger Error "Error processing swap for" [JStr a; exn_value error] ;;
       throw error).

End Methods.

End Indexer.

(** ** The leaderboard page (React component)

    The state kept with [useState], the handlers that change it, and the
    handler of websocket messages. A handler runs on the state of the
    render it was created in and its updates are in force at the next
    render, so each is a function from state to state. [refetch()] and
    [console.log] are counted and recorded; the texts are without the
    pictograph they start with. *)

Module LeaderboardPage.

(** The options of the "Results" select, the only values [setLimit] gets. *)
Inductive LimitOption : Type := Limit25 | Limit50 | Limit100.

(** [Number(e.target.value)] *)
Definition Number_of (o : LimitOption) : Z :=
  match o with
  | Limit25 => 25
  | Limit50 => 50
  | Limit100 => 100
  end.

Record ConsoleLine : Type := {
  line_text : string;
  line_args : list (option Json)
}.

Record Page : Type := {
  metric : string;
  tier : option string;
  timeframe : string;
  limit : Z;
  offset : Z;
  wsConnected : bool;
  lastUpdate : option Z;
  refetches : nat;
  console : list ConsoleLine
}.

Definition initial : Page :=
  {| metric := "dna_score"; tier := None; timeframe := "all"; limit := 100; offset := 0;
     wsConnected := false; lastUpdate := None; refetches := 0; console := [] |}.

Definition setOffset (n : Z) (p : Page) : Page :=
  {| metric := metric p; tier := tier p; timeframe := timeframe p; limit := limit p;
     offset := n; wsConnected := wsConnected p; lastUpdate := lastUpdate p;
     refetches := refetches p; console := console p |}.

Definition setMetric (m : string) (p : Page) : Page :=
  {| metric := m; tier := tier p; timeframe := timeframe p; limit := limit p;
     offset := offset p; wsConnected := wsConnected p; lastUpdate := lastUpdate p;
     refetches := refetches p; console := console p |}.

Definition setTier (t : option string) (p : Page) : Page :=
  {| metric := metric p; tier := t; timeframe := timeframe p; limit := limit p;
     offset := offset p; wsConnected := wsConnected p; lastUpdate := lastUpdate p;
     refetches := refetches p; console := console p |}.

Definition setTimeframe (f : string) (p : Page) : Page :=
  {| metric := metric p; tier := tier p; timeframe := f; limit := limit p;
     offset := offset p; wsConnected := wsConnected p; lastUpdate := lastUpdate p;
     refetches := refetches p; console := console p |}.

Definition setLimit (n : Z) (p : Page) : Page :=
  {| metric := metric p; tier := tier p; timeframe := timeframe p; limit := n;
     offset := offset p; wsConnected := wsConnected p; lastUpdate := lastUpdate p;
     refetches := refetches p; console := console p |}.

Definition setWsConnected (b : bool) (p : Page) : Page :=
  {| metric := metric p; tier := tier p; timeframe := timeframe p; limit := limit p;
     offset := offset p; wsConnected := b; lastUpdate := lastUpdate p;
     refetches := refetches p; console := console p |}.

Definition setLastUpdate (now : Z) (p : Page) : Page :=
  {| metric := metric p; tier := tier p; timeframe := timeframe p; limit := limit p;
     offset := offset p; wsConnected := wsConnected p; lastUpdate := Some now;
     refetches := refetches p; console := console p |}.

Definition refetch (p : Page) : Page :=
  {| metric := metric p; tier := tier p; timeframe := timeframe p; limit := limit p;
     offset := offset p; wsConnected := wsConnected p; lastUpdate := lastUpdate p;
     refetches := S (refetches p); console := console p |}.

Definition console_log (text : string) (args : list (option Json)) (p : Page) : Page :=
  {| metric := metric p; tier := tier p; timeframe := timeframe p; limit := limit p;
     offset := offset p; wsConnected := wsConnected p; lastUpdate := lastUpdate p;
     refetches := refetches p;
     console := console p ++ [{| line_text := text; line_args := args |}] |}.

(** *** Pagination and filters *)

Definition goToNextPage (p : Page) : Page := setOffset (offset p + limit p) p.

Definition goToPrevPage (p : Page) : Page := setOffset (Z.max 0 (offset p - limit p)) p.

(** [Math.floor(offset / limit) + 1] *)
Definition currentPage (p : Page) : Z := offset p / limit p + 1.

(** The [onChange] handlers of the four selects. *)
Definition onMetricChange (value : string) (p : Page) : Page :=
  setOffset 0 (setMetric value p).

Definition onTierChange (value : string) (p : Page) : Page :=
  setOffset 0 (setTier (if String.eqb value "" then None else Some value) p).

Definition onTimeframeChange (value : string) (p : Page) : Page :=
  setOffset 0 (setTimeframe value p).

Definition onLimitChange (value : LimitOption) (p : Page) : Page :=
  setOffset 0 (setLimit (Number_of value) p).

(** What the user can do with the controls of the page. *)
Inductive Action : Type :=
| Next
| Prev
| ChooseMetric (value : string)
| ChooseTier (value : string)
| ChooseTimeframe (value : string)
| ChooseLimit (value : LimitOption).

Definition handle (p : Page) (a : Action) : Page :=
  match a with
  | Next => goToNextPage p
  | Prev => goToPrevPage p
  | ChooseMetric v => onMetricChange v p
  | ChooseTier v => onTierChange v p
  | ChooseTimeframe v => onTimeframeChange v p
  | ChooseLimit v => onLimitChange v p
  end.

Definition session (actions : list Action) : Page := fold_left handle actions initial.

(** *** Websocket messages *)

(** [v?.k] *)
Definition get (k : string) (v : option Json) : option Json :=
  match v with
  | Some o => field k o
  | None => None
  end.

(** [v?.length] *)
Definition length_of (v : option Json) : option Json :=
  match v with
  | Some (JArr items) => Some (JNum (Z.of_nat (List.length items)))
  | Some (JStr s) => Some (JNum (Z.of_nat (String.length s)))
  | _ => None
  end.

(** [v || 0] for a length. *)
Definition or_zero (v : option Json) : option Json :=
  match v with
  | Some (JNum n) => Some (JNum n)
  | _ => Some (JNum 0)
  end.

(** [message.type === kind] *)
Definition type_is (kind : string) (message : Json) : bool :=
  match field "type" message with
  | Some (JStr s) => String.eqb s kind
  | _ => false
  end.

Definition onConnect (p : Page) : Page :=
  console_log "WebSocket connected to leaderboard updates" [] (setWsConnected true p).

Definition onDisconnect (p : Page) : Page :=
  console_log "WebSocket disconnected" [] (setWsConnected false p).

(** [new Date()] is [now]. *)
Definition onMessage (now : Z) (message : Json) (p : Page) : Page :=
  let p0 := console_log "WebSocket message received:" [Some message] p in
  let p1 :=
    if type_is "leaderboard_update" message then
      refetch (setLastUpdate now
                 (console_log "Leaderboard update triggered, refetching data..." [] p0))
    else p0 in
  let p2 :=
    if type_is "ranking_changes" message then
      refetch (setLastUpdate now
                 (console_log "Ranking changes:"
                    [or_zero (length_of (get "changes" (get "data" (Some message))));
                     Some (JStr "users")] p1))
    else p1 in
  if type_is "new_leader" message then
    refetch (setLastUpdate now
               (console_log "New leader:"
                  [get "address" (get "leader" (get "data" (Some message)))] p2))
  else p2.

End LeaderboardPage.

(** ** The migration script ([migrate.ts])

    The environment, the file system and the database are what the script
    is run in; a run ends in [process.exit], and what it has printed, sent
    to the database and closed by then is its result. Creating the [Pool]
    connects to nothing and is left out. *)

Module Migrate.

Record Env : Type := {
  DATABASE_URL : option string;
  DB_HOST : option string;
  DB_NAME : option string;
  DB_USER : option string
}.

(** A variable of the environment counts when it is set and not empty. *)
Definition given (v : option string) : bool :=
  match v with
  | Some s => negb (String.eqb s "")
  | None => false
  end.

Record JsError : Type := {
  message : string;
  code : option string
}.

Inductive Outcome (A : Type) : Type :=
| Returned (a : A)
| Raised (e : JsError).
Arguments Returned {A} a.
Arguments Raised {A} e.

(** What the database and the file system answer: to [SELECT NOW()], to
    [fs.existsSync] and [fs.readFileSync] of the migration file, to the
    text of the migration, to the query that lists the tables, and to the
    first and the second [pool.end()]. *)
Record System : Type := {
  select_now : Outcome unit;
  existsSync : bool;
  readFileSync : Outcome string;
  run_sql : string -> Outcome unit;
  list_tables : Outcome (list string);
  pool_end : nat -> Outcome unit
}.

Inductive Query : Type :=
| SelectNow
| Migration (sql : string)
| ListTables.

Record Run : Type := {
  exit_code : Z;
  queries : list Query;
  printed : list (string * list string);
  pool_ends : nat
}.

Definition migrationFile : string := "../../migrations/001_initial_schema.sql".

(** The [catch] block of [migrate], and [migrate().catch] behind it when
    [pool.end()] throws in it: both end in [process.exit(1)]. [ended] is the
    number of [pool.end()] calls made so far. *)
Definition failed (sys : System) (error : JsError) (sent : list Query)
           (out : list (string * list string)) (ended : nat) : Run :=
  let out1 := out ++ [("Migration failed:", [message error])] in
  let out2 :=
    if given (code error)
    then out1 ++ [("Error code:", match code error with Some c => [c] | None => [] end)]
    else out1 in
  match pool_end sys ended with
  | Returned _ =>
      {| exit_code := 1; queries := sent; printed := out2; pool_ends := S ended |}
  | Raised unhandled =>
      {| exit_code := 1; queries := sent;
         printed := out2 ++ [("Unhandled error:", [message unhandled])];
         pool_ends := S ended |}
  end.

Definition migrate (env : Env) (sys : System) : Run :=
  if negb (given (DATABASE_URL env))
     && (negb (given (DB_HOST env)) || negb (given (DB_NAME env)) || given (DB_USER env))
  then
    {| exit_code := 1; queries := [];
       printed := [("Missing required database environment variables:", []);
                   ("Use DATABASE_URL or DB_HOST, DB_NAME, DB_USER, DB_PASSWORD", [])];
       pool_ends := 0 |}
  else
    match select_now sys with
    | Raised error => failed sys error [SelectNow] [] 0
    | Returned _ =>
        let out1 := [("Database connection successful", [])] in
        if negb (existsSync sys) then
          failed sys
            {| message := String.append "Migration file not found: " migrationFile;
               code := None |}
            [SelectNow] out1 0
        else
          let out2 := out1 ++ [("Reading migration file:", [migrationFile])] in
          match readFileSync sys with
          | Raised error => failed sys error [SelectNow] out2 0
          | Returned sql =>
              let out3 := out2 ++ [("Running migration...", [])] in
              match run_sql sys sql with
              | Raised error => failed sys error [SelectNow; Migration sql] out3 0
              | Returned _ =>
                  let out4 := out3 ++ [("Migration completed successfully", [])] in
                  let sent := [SelectNow; Migration sql; ListTables] in
                  match list_tables sys with
                  | Raised error => failed sys error sent out4 0
                  | Returned tables =>
                      let out5 := out4 ++ [("Created tables:", [])]
                                       ++ map (fun t => ("-", [t])) tables in
                      match pool_end sys 0 with
                      | Raised error => failed sys error sent out5 1
                      | Returned _ =>
                          {| exit_code := 0; queries := sent; printed := out5;
                             pool_ends := 1 |}
                      end
                  end
              end
          end
    end.

End Migrate.

(** ** Notions used in the statements *)

(** What has been appended to a log since an earlier state of it. *)
Definition since {A : Type} (old new : list A) : list A :=
  skipn (List.length old) new.

(** The record of one [send] of [message] to [c]. *)
Definition attempt (message : Json) (c : WebSocket) : Attempt :=
  {| att_to := ws_id c; att_payload := message; att_ok := send_ok message c |}.

Definition send_fails (message : Json) (c : WebSocket) : bool :=
  negb (send_ok message c).

(** The clients of the registered server, none when there is no server. *)
Definition connected (st : Broadcaster.State) : list WebSocket :=
  match Broadcaster.wssInstance st with
  | Some wss => Broadcaster.clients wss
  | None => []
  end.

Definition no_counts : Counts := {| sentCount := 0; errorCount := 0 |}.

(** An element of the [changes] array that carries the change [c]. *)
Definition carries_change (c : RankingChange) (e : Json) : Prop :=
  field "address" e = Some (JStr (rc_address c))
  /\ field "oldRank" e = Some (JNum (rc_oldRank c))
  /\ field "newRank" e = Some (JNum (rc_newRank c))
  /\ field "dnaScore" e = Some (JNum (rc_dnaScore c))
  /\ field "tier" e = Some (JStr (rc_tier c))
  /\ field "rankChange" e = Some (JNum (rc_oldRank c - rc_newRank c))
  /\ (0 <? rc_oldRank c - rc_newRank c) = (rc_newRank c <? rc_oldRank c).

(** A [ranking_changes] message for [changes]. *)
Definition is_ranking_changes (changes : list RankingChange) (now : Z) (m : Json) : Prop :=
  field "type" m = Some (JStr "ranking_changes")
  /\ field "timestamp" m = Some (JNum now)
  /\ exists items, field "changes" m = Some (JArr items) /\ Forall2 carries_change changes items.

(** Invariants of a run of the indexer: [preserves I m] says that [m]
    takes every world to one related to it by [I], whether it returns or
    throws; [preserves_ok] says so for the runs that return; [returns Q m]
    says that what [m] returns satisfies [Q]. *)
Definition preserves (I : Indexer.World -> Indexer.World -> Prop) {A : Type}
           (m : Indexer.M A) : Prop :=
  forall w, I w (snd (m w)).

Definition preserves_ok (I : Indexer.World -> Indexer.World -> Prop) {A : Type}
           (m : Indexer.M A) : Prop :=
  forall w a, fst (m w) = Ok a -> I w (snd (m w)).

Definition returns {A : Type} (Q : A -> Prop) (m : Indexer.M A) : Prop :=
  forall w a, fst (m w) = Ok a -> Q a.

Definition is_rollback (entry : Indexer.Stmt * bool) : bool :=
  match fst entry with
  | Indexer.Rollback => true
  | _ => false
  end.

Definition is_leaderboard_update (c : Indexer.WsCall) : bool :=
  match c with
  | Indexer.CallLeaderboardUpdate _ _ => true
  | _ => false
  end.

(** The transactional write of a run threw: its rollback is in the part of
    the journal written by the run. *)
Definition rolled_back (before after : Indexer.World) : bool :=
  existsb is_rollback (since (Indexer.journal before) (Indexer.journal after)).

(** The journal has grown by statements none of which is a rollback. *)
Definition no_rollback (w w' : Indexer.World) : Prop :=
  exists d, Indexer.journal w' = Indexer.journal w ++ d /\ existsb is_rollback d = false.

(** The calls on the websocket module have grown by calls none of which is
    [broadcastLeaderboardUpdate]. *)
Definition no_leaderboard_update (w w' : Indexer.World) : Prop :=
  exists d, Indexer.calls w' = Indexer.calls w ++ d
            /\ existsb is_leaderboard_update d = false.

(** The line that [processSwap] logs before it throws [e] again. *)
Definition swap_error_line (a : string) (e : Exn) : LogLine :=
  {| log_level := Error; log_text := "Error processing swap for";
     log_args := [JStr a; exn_value e] |}.

(** The rank the ranking query gives to [a]. *)
Definition current_rank (a : string) (w : Indexer.World) : option Z :=
  Indexer.find_rank a (Indexer.select_ranks (Indexer.db w)).

(** ** Concrete sockets, servers and worlds *)

Module Scenario.

Definition healthy (n : nat) : WebSocket :=
  {| ws_id := n; readyState := 1; send := fun _ => Ok tt |}.

Definition broken (n : nat) : WebSocket :=
  {| ws_id := n; readyState := 1; send := fun _ => Throw (TransportError "EPIPE") |}.

Definition closing (n : nat) : WebSocket :=
  {| ws_id := n; readyState := 2; send := fun _ => Ok tt |}.

Definition three_clients : Broadcaster.State :=
  Broadcaster.setWebSocketServer
    {| Broadcaster.clients := [healthy 1; broken 2; healthy 3] |}
    (Broadcaster.initial 1000).

Definition three_entries : WebsocketFixed.State :=
  {| WebsocketFixed.clients :=
       [ {| WebsocketFixed.id := 10; WebsocketFixed.ws := healthy 1 |};
         {| WebsocketFixed.id := 20; WebsocketFixed.ws := broken 2 |};
         {| WebsocketFixed.id := 30; WebsocketFixed.ws := healthy 3 |} ];
     WebsocketFixed.clock := 1000;
     WebsocketFixed.wire := [];
     WebsocketFixed.logged := [] |}.

(** An open client, one that is closing and an open one whose send throws. *)
Definition mixed_clients : Broadcaster.State :=
  Broadcaster.setWebSocketServer
    {| Broadcaster.clients := [healthy 1; closing 2; broken 3] |}
    (Broadcaster.initial 1000).

Definition ping : Json := JObj [("type", JStr "ping")].

Definition stats (a : string) (score : Z) (t : string) : Indexer.StatsRow :=
  {| Indexer.address := a; Indexer.total_swaps := 0; Indexer.total_volume_usd := 0%Q;
     Indexer.last_action := None; Indexer.updated_at := None;
     Indexer.dna_score := score; Indexer.tier := t; Indexer.other_columns := [] |}.

Definition schema : Indexer.Schema :=
  {| Indexer.default_stats := fun a => stats a 0 "Novice";
     Indexer.action_conflict :=
       fun row rows =>
         existsb (fun r => String.eqb (Indexer.act_tx_hash r) (Indexer.act_tx_hash row)) rows;
     Indexer.add_usd :=
       fun total usd =>
         match Number_value usd with
         | Some q => Qplus total q
         | None => total
         end |}.

(** An indexer whose score service gives 50 points and 25 more per swap. *)
Definition indexer (with_websocket : bool) : Indexer.Indexer :=
  {| Indexer.graphService := None;
     Indexer.symbol := fun token => Ok token;
     Indexer.priceFeedService_getPrice := fun _ _ => Ok (Some (Number_of 2));
     Indexer.dnaScoreService_calculateScore :=
       fun row _ _ => Ok (Z.min 100 (50 + 25 * Indexer.total_swaps row));
     Indexer.dnaScoreService_getTier := fun s => if 70 <=? s then "Expert" else "Beginner";
     Indexer.websocketServer := with_websocket |}.

Definition pool : Indexer.PoolRow :=
  {| Indexer.pool_id := "0xpool"; Indexer.token0 := "0xweth"; Indexer.token1 := "0xusdc";
     Indexer.fee := 3000; Indexer.tick_spacing := 60 |}.

(** Two ranked users, 0xaa ahead of 0xbb; the database rejects the
    statements picked by [faults]. *)
Definition world (faults : nat -> bool) : Indexer.World :=
  {| Indexer.db :=
       {| Indexer.users := ["0xaa"; "0xbb"];
          Indexer.user_stats := [stats "0xaa" 72 "Expert"; stats "0xbb" 60 "Beginner"];
          Indexer.user_actions := [];
          Indexer.pools := [pool] |};
     Indexer.faults := faults;
     Indexer.journal := [];
     Indexer.logged := [];
     Indexer.calls := [];
     Indexer.net := three_clients |}.

Definition never : nat -> bool := fun _ => false.
Definition only (k : nat) : nat -> bool := fun n => Nat.eqb n k.

Definition swap_event : Indexer.SwapEvent :=
  {| Indexer.transactionHash := "0xhash"; Indexer.blockNumber := 7 |}.

(** A swap by 0xBB of one token0 in the pool. *)
Definition swap (with_websocket : bool) (faults : nat -> bool)
  : Result unit * Indexer.World :=
  Indexer.processSwap schema (indexer with_websocket) swap_event
    "0xpool" "0xBB" 1000000000000000000 (-2000000) (world faults).

(** Two users with the same score, the one with the greater address stored
    first. *)
Definition tied : Indexer.Database :=
  {| Indexer.users := ["0xbb"; "0xaa"];
     Indexer.user_stats := [stats "0xbb" 72 "Expert"; stats "0xaa" 72 "Expert"];
     Indexer.user_actions := [];
     Indexer.pools := [] |}.

End Scenario.

(** ** Notions used in the further properties of the indexer *)

Section IndexerNotions.

Import Indexer.

(** The pool information that a row of [pools] is, and the one built from
    the answer of the graph service. *)
Definition info_of_row (row : PoolRow) : PoolInfo :=
  {| pi_token0 := token0 row; pi_token1 := token1 row;
     pi_fee := fee row; pi_tick_spacing := tick_spacing row |}.

Definition info_of_data (d : PoolData) : PoolInfo :=
  {| pi_token0 := pd_token0_id d; pi_token1 := pd_token1_id d;
     pi_fee := pd_fee d; pi_tick_spacing := pd_tickSpacing d |}.

(** What the graph service knows of a pool: nothing when there is no
    service, when it throws or when it answers null. *)
Definition graph_lookup (this : Indexer) (poolId : string) : option PoolInfo :=
  match graphService this with
  | Some getPoolById =>
      match getPoolById poolId with
      | Ok (Some d) => Some (info_of_data d)
      | _ => None
      end
  | None => None
  end.

(** The symbol of a token, its address when the contract call fails. *)
Definition symbol_or_address (this : Indexer) (token : string) : string :=
  match symbol this token with
  | Ok s => s
  | Throw _ => token
  end.

(** The line that [updateDNAScore] logs before it throws [e] again. *)
Definition score_update_line (a : string) (e : Exn) : LogLine :=
  {| log_level := Error; log_text := "Error updating DNA score for";
     log_args := [JStr a; exn_value e] |}.

Definition is_ranking_query (entry : Stmt * bool) : bool :=
  match fst entry with
  | SelectRanks => true
  | _ => false
  end.

Definition is_user_action (c : WsCall) : bool :=
  match c with
  | CallUserAction _ => true
  | _ => false
  end.

(** The calls and the journal have grown, by no [broadcastUserAction]. *)
Definition no_user_action (w w' : World) : Prop :=
  exists dc dj, calls w' = calls w ++ dc /\ journal w' = journal w ++ dj
                /\ existsb is_user_action dc = false.

(** The user_action [p] announces the action [row] of an INSERT, a swap of
    [a] in the pool [poolId]. *)
Definition announces (a poolId : string) (row : ActionRow) (p : UserAction) : Prop :=
  act_address row = a
  /\ act_action_type row = "swap"
  /\ act_pool_id row = poolId
  /\ ua_address p = a
  /\ ua_actionType p = "swap"
  /\ ua_poolId p = Some poolId
  /\ ua_amountUsd p = Some (act_amount_usd row).

(** What a run of [processSwap] does about user_action: none is broadcast,
    or the run returns and its last call announces the action of an INSERT
    that the database has accepted, as it has the COMMIT. *)
Definition swap_outcome (a poolId : string) {A : Type}
           (w : World) (r : Result A) (w' : World) : Prop :=
  exists dc dj,
    calls w' = calls w ++ dc /\ journal w' = journal w ++ dj
    /\ (existsb is_user_action dc = false
        \/ exists x earlier p row,
             r = Ok x /\ dc = earlier ++ [CallUserAction p]
             /\ existsb is_user_action earlier = false
             /\ In (InsertUserAction row, true) dj
             /\ In (Commit, true) dj
             /\ announces a poolId row p).

Definition outcome (a poolId : string) {A : Type} (m : M A) : Prop :=
  forall w, swap_outcome a poolId w (fst (m w)) (snd (m w)).

(** The text [s] is ASCII; on such a text [toLowerCase] is the method of
    the source. *)
Definition ascii_only (s : string) : bool :=
  forallb (fun c => Nat.ltb (nat_of_ascii c) 128) (list_ascii_of_string s).

(** [amountUsd], from the two prices: the value in token0 when its price is
    usable, else the value in token1, else null. *)
Definition priced (amount0 amount1 : Z) (price0 price1 : option Number) : option Number :=
  if truthy price0 then Some (usd_value amount0 (price_or_zero price0))
  else if truthy price1 then Some (usd_value amount1 (price_or_zero price1))
  else None.

(** [keeps P m]: a property of the database that holds before [m] holds
    after it, whether [m] returns or throws. *)
Definition keeps (P : Database -> Prop) {A : Type} (m : M A) : Prop :=
  forall w, P (db w) -> P (db (snd (m w))).

(** The primary keys: one [users] row and one [user_stats] row per address. *)
Definition unique_keys (d : Database) : Prop :=
  NoDup (users d) /\ NoDup (map address (user_stats d)).

(** What is stored about the user [b]: the stats rows and the actions. *)
Definition same_for (b : string) (d0 d : Database) : Prop :=
  select_user_stats b d = select_user_stats b d0
  /\ actions_of b d = actions_of b d0
  /\ pools d = pools d0.

(** A new [user_stats] row is a row of the address it is inserted for. *)
Definition default_row_is_keyed (schema : Schema) : Prop :=
  forall a, address (default_stats schema a) = a.

(** A row of [a] that the ranking query selects. *)
Definition has_positive_score (a : string) (r : StatsRow) : bool :=
  String.eqb (address r) a && (0 <? dna_score r).

End IndexerNotions.

(** ** Notions used in the further properties of the broadcasters *)

(** Broadcasting [messages] one after the other. *)
Definition broadcast_all (messages : list Json) (st : Broadcaster.State) : Broadcaster.State :=
  fold_left (fun s m => snd (Broadcaster.broadcastToAll m s)) messages st.

(** The error lines of [websocket-leaderboard-FIXED.js] for the sends of
    [message] that fail. *)
Definition fixed_error_lines (what : string) (message : Json)
           (cs : list WebsocketFixed.ClientEntry) : list LogLine :=
  flat_map
    (fun c =>
       if is_open (WebsocketFixed.ws c) then
         match send (WebsocketFixed.ws c) message with
         | Ok _ => []
         | Throw error =>
             [{| log_level := Error;
                 log_text := String.append "Error broadcasting " what;
                 log_args := [JNum (Z.of_nat (WebsocketFixed.id c)); exn_value error] |}]
         end
       else [])
    cs.

(** ** Notions used in the properties of the page and of the migration *)

(** The page shows a whole number of pages before the current one. *)
Definition on_page_boundary (p : LeaderboardPage.Page) : Prop :=
  0 < LeaderboardPage.limit p
  /\ exists k, 0 <= k /\ LeaderboardPage.offset p = k * LeaderboardPage.limit p.

(** The environment lets the script through to the database. *)
Definition env_accepted (env : Migrate.Env) : bool :=
  Migrate.given (Migrate.DATABASE_URL env)
  || (Migrate.given (Migrate.DB_HOST env) && Migrate.given (Migrate.DB_NAME env)
      && negb (Migrate.given (Migrate.DB_USER env))).

Definition reached_database (r : Migrate.Run) : bool :=
  match Migrate.queries r with
  | [] => false
  | _ :: _ => true
  end.

(** Every step of the script succeeds: the file is read as [sql] and the
    tables listed are [tables]. *)
Definition all_succeeded (sys : Migrate.System) (sql : string) (tables : list string) : Prop :=
  Migrate.select_now sys = Migrate.Returned tt
  /\ Migrate.existsSync sys = true
  /\ Migrate.readFileSync sys = Migrate.Returned sql
  /\ Migrate.run_sql sys sql = Migrate.Returned tt
  /\ Migrate.list_tables sys = Migrate.Returned tables
  /\ Migrate.pool_end sys 0%nat = Migrate.Returned tt.

(** ** Further concrete cases *)

Module Cases.

(** An indexer whose score service is down. *)
Definition no_score_service : Indexer.Indexer :=
  {| Indexer.graphService := None;
     Indexer.symbol := fun token => Ok token;
     Indexer.priceFeedService_getPrice := fun _ _ => Ok (Some (Number_of 2));
     Indexer.dnaScoreService_calculateScore := fun _ _ _ => Throw (ServiceError "score");
     Indexer.dnaScoreService_getTier := fun _ => "Novice";
     Indexer.websocketServer := true |}.

(** An indexer whose price feed is down. *)
Definition no_price_feed : Indexer.Indexer :=
  {| Indexer.graphService := None;
     Indexer.symbol := fun token => Ok token;
     Indexer.priceFeedService_getPrice := fun _ _ => Throw (ServiceError "feed");
     Indexer.dnaScoreService_calculateScore := fun _ _ _ => Ok 50;
     Indexer.dnaScoreService_getTier := fun _ => "Beginner";
     Indexer.websocketServer := true |}.

(** An indexer whose price feed answers 3 for every token. *)
Definition priced_at_three : Indexer.Indexer :=
  {| Indexer.graphService := None;
     Indexer.symbol := fun token => Ok token;
     Indexer.priceFeedService_getPrice := fun _ _ => Ok (Some (Number_of 3));
     Indexer.dnaScoreService_calculateScore := fun _ _ _ => Ok 50;
     Indexer.dnaScoreService_getTier := fun _ => "Beginner";
     Indexer.websocketServer := true |}.

(** The row of a swap of a tenth of a token0 at that price: its USD value
    is the double 0.30000000000000004, which is 5404319552844596 / 2^54. *)
Definition tenth_swap : Indexer.ActionRow :=
  {| Indexer.act_address := "0xbb"; Indexer.act_protocol_version := "v4";
     Indexer.act_action_type := "swap"; Indexer.act_pool_id := "0xpool";
     Indexer.act_amount0 := 100000000000000000; Indexer.act_amount1 := -2000000;
     Indexer.act_amount_usd := Some (S754_finite false 5404319552844596 (-54));
     Indexer.act_tx_hash := "0xhash"; Indexer.act_block_number := 7;
     Indexer.act_timestamp := 1000 |}.

(** The user_action of the swap of [Scenario.swap]. *)
Definition announced_swap : UserAction :=
  {| ua_address := "0xbb"; ua_actionType := "swap"; ua_poolId := Some "0xpool";
     ua_amountUsd := Some (Some (Indexer.usd_value 1000000000000000000 (Number_of 2)));
     ua_timestamp := 1000 |}.

(** An environment with the database URL, one with the three separate
    variables, and a system in which every step succeeds. *)
Definition with_url : Migrate.Env :=
  {| Migrate.DATABASE_URL := Some "postgres://db"; Migrate.DB_HOST := None;
     Migrate.DB_NAME := None; Migrate.DB_USER := None |}.

Definition with_user : Migrate.Env :=
  {| Migrate.DATABASE_URL := None; Migrate.DB_HOST := Some "localhost";
     Migrate.DB_NAME := Some "dna"; Migrate.DB_USER := Some "postgres" |}.

Definition working : Migrate.System :=
  {| Migrate.select_now := Migrate.Returned tt;
     Migrate.existsSync := true;
     Migrate.readFileSync := Migrate.Returned "CREATE TABLE users ();";
     Migrate.run_sql := fun _ => Migrate.Returned tt;
     Migrate.list_tables := Migrate.Returned ["users"];
     Migrate.pool_end := fun _ => Migrate.Returned tt |}.

End Cases.

(** ** Properties of the broadcaster *)

Section BroadcastLoop.

Variable message : Json.

Lemma since_app {A : Type} (old delta : list A) : since old (old ++ delta) = delta.
Proof.
  unfold since. rewrite skipn_app, skipn_all, Nat.sub_diag. reflexivity.
Qed.

Lemma since_same {A : Type} (l : list A) : since l l = [].
Proof. unfold since. apply skipn_all. Qed.

Lemma visit_eq (n : Counts) (log : list Attempt) (c : WebSocket) :
  Broadcaster.visit message (n, log) c =
  if is_open c then
    (if send_ok message c
     then {| sentCount := sentCount n + 1; errorCount := errorCount n |}
     else {| sentCount := sentCount n; errorCount := errorCount n + 1 |},
     log ++ [attempt message c])
  else (n, log).
Proof.
  unfold Broadcaster.visit, is_open, attempt, send_ok.
  destruct (readyState c =? 1); [| reflexivity].
  destruct (send c message) as [[] | e]; reflexivity.
Qed.

Lemma send_fails_eq (c : WebSocket) (b : bool) :
  send_ok message c = b -> send_fails message c = negb b.
Proof. intros <-. reflexivity. Qed.

(** The [forEach] loop of [broadcastToAll], in closed form. *)
Lemma visit_all (cs : list WebSocket) (n : Counts) (log : list Attempt) :
  fold_left (Broadcaster.visit message) cs (n, log) =
  ({| sentCount :=
        sentCount n + Z.of_nat (List.length (filter (send_ok message) (filter is_open cs)));
      errorCount :=
        errorCount n + Z.of_nat (List.length (filter (send_fails message) (filter is_open cs))) |},
   log ++ map (attempt message) (filter is_open cs)).
Proof.
  revert n log. induction cs as [| c cs IH]; intros n log.
  - cbn. rewrite app_nil_r, !Z.add_0_r. destruct n; reflexivity.
  - cbn [fold_left filter]. rewrite visit_eq.
    destruct (is_open c); [| apply IH].
    cbn [filter map].
    destruct (send_ok message c) eqn:Hsend;
      rewrite (send_fails_eq c _ Hsend), IH;
      cbn [negb List.length sentCount errorCount];
      rewrite <- app_assoc; cbn [app]; f_equal; f_equal; lia.
Qed.

Lemma partition_length (cs : list WebSocket) :
  (List.length (filter (send_ok message) cs)
   + List.length (filter (send_fails message) cs))%nat = List.length cs.
Proof.
  induction cs as [| c cs IH]; [reflexivity |].
  cbn. unfold send_fails at 1. destruct (send_ok message c); cbn; lia.
Qed.

Lemma broadcastToAll_eq (st : Broadcaster.State) :
  Broadcaster.broadcastToAll message st =
  ({| sentCount := Z.of_nat (List.length (filter (send_ok message) (filter is_open (connected st))));
      errorCount := Z.of_nat (List.length (filter (send_fails message) (filter is_open (connected st)))) |},
   {| Broadcaster.wssInstance := Broadcaster.wssInstance st;
      Broadcaster.clock := Broadcaster.clock st;
      Broadcaster.wire :=
        Broadcaster.wire st ++ map (attempt message) (filter is_open (connected st)) |}).
Proof.
  unfold Broadcaster.broadcastToAll, connected.
  destruct (Broadcaster.wssInstance st) as [wss |] eqn:Hwss.
  - rewrite visit_all. cbn [sentCount errorCount]. reflexivity.
  - cbn. rewrite app_nil_r. destruct st; cbn in *. subst. reflexivity.
Qed.

(** The loop of [websocket-leaderboard-FIXED.js]: counters and wire. *)
Lemma fixed_visit_eq (what : string) (acc : WebsocketFixed.Acc)
      (c : WebsocketFixed.ClientEntry) :
  let out := WebsocketFixed.visit what message acc c in
  let n := WebsocketFixed.acc_counts acc in
  WebsocketFixed.acc_counts out =
    (if is_open (WebsocketFixed.ws c) then
       if send_ok message (WebsocketFixed.ws c)
       then {| sentCount := sentCount n + 1; errorCount := errorCount n |}
       else {| sentCount := sentCount n; errorCount := errorCount n + 1 |}
     else n)
  /\ WebsocketFixed.acc_wire out =
       (if is_open (WebsocketFixed.ws c)
        then WebsocketFixed.acc_wire acc ++ [attempt message (WebsocketFixed.ws c)]
        else WebsocketFixed.acc_wire acc).
Proof.
  unfold WebsocketFixed.visit, WebSocket_OPEN, is_open, attempt, send_ok.
  destruct (readyState (WebsocketFixed.ws c) =? 1); [| split; reflexivity].
  destruct (send (WebsocketFixed.ws c) message) as [[] | e]; split; reflexivity.
Qed.

Lemma fixed_visit_all (what : string) (cs : list WebsocketFixed.ClientEntry)
      (acc : WebsocketFixed.Acc) :
  let sockets := filter is_open (map WebsocketFixed.ws cs) in
  let out := fold_left (WebsocketFixed.visit what message) cs acc in
  WebsocketFixed.acc_counts out =
    {| sentCount := sentCount (WebsocketFixed.acc_counts acc)
                    + Z.of_nat (List.length (filter (send_ok message) sockets));
       errorCount := errorCount (WebsocketFixed.acc_counts acc)
                     + Z.of_nat (List.length (filter (send_fails message) sockets)) |}
  /\ WebsocketFixed.acc_wire out =
       WebsocketFixed.acc_wire acc ++ map (attempt message) sockets.
Proof.
  cbv zeta. revert acc. induction cs as [| c cs IH]; intros acc.
  - cbn. rewrite app_nil_r, !Z.add_0_r.
    destruct (WebsocketFixed.acc_counts acc). split; reflexivity.
  - cbn [fold_left map filter].
    destruct (IH (WebsocketFixed.visit what message acc c)) as [-> ->].
    destruct (fixed_visit_eq what acc c) as [-> ->].
    destruct (is_open (WebsocketFixed.ws c)); [| split; reflexivity].
    cbn [filter map].
    destruct (send_ok message (WebsocketFixed.ws c)) eqn:Hsend;
      rewrite (send_fails_eq _ _ Hsend);
      cbn [negb List.length sentCount errorCount];
      rewrite <- app_assoc; cbn [app]; split; f_equal; lia.
Qed.

End BroadcastLoop.


Lemma broadcastToAll_keeps_server (message : Json) (st : Broadcaster.State) :
  Broadcaster.wssInstance (snd (Broadcaster.broadcastToAll message st))
  = Broadcaster.wssInstance st.
Proof. rewrite broadcastToAll_eq. reflexivity. Qed.

Lemma broadcastToAll_wire (message : Json) (st : Broadcaster.State) :
  since (Broadcaster.wire st) (Broadcaster.wire (snd (Broadcaster.broadcastToAll message st)))
  = map (attempt message) (filter is_open (connected st)).
Proof. rewrite broadcastToAll_eq. cbn [snd Broadcaster.wire]. apply since_app. Qed.

Lemma fixed_broadcastLeaderboardUpdate_eq (type : string) (data : Json)
      (st : WebsocketFixed.State) :
  let message := WebsocketFixed.leaderboard_update type data (WebsocketFixed.clock st) in
  let sockets := filter is_open (map WebsocketFixed.ws (WebsocketFixed.clients st)) in
  let result := WebsocketFixed.broadcastLeaderboardUpdate type data st in
  fst result =
    {| sentCount := Z.of_nat (List.length (filter (send_ok message) sockets));
       errorCount := Z.of_nat (List.length (filter (send_fails message) sockets)) |}
  /\ since (WebsocketFixed.wire st) (WebsocketFixed.wire (snd result))
     = map (attempt message) sockets
  /\ WebsocketFixed.clients (snd result) = WebsocketFixed.clients st.
Proof.
  cbv zeta. unfold WebsocketFixed.broadcastLeaderboardUpdate, WebsocketFixed.for_each_client.
  cbn [fst snd WebsocketFixed.wire WebsocketFixed.clients].
  match goal with
  | |- context [fold_left (WebsocketFixed.visit ?what ?m) ?cs ?acc] =>
      destruct (fixed_visit_all m what cs acc) as [-> ->]
  end.
  cbn [WebsocketFixed.acc_counts WebsocketFixed.acc_wire sentCount errorCount].
  rewrite since_app. repeat split.
Qed.

Lemma fixed_broadcastRankingChanges_wire (changes : list RankingChange)
      (st : WebsocketFixed.State) :
  since (WebsocketFixed.wire st)
        (WebsocketFixed.wire (WebsocketFixed.broadcastRankingChanges changes st))
  = map (attempt (WebsocketFixed.ranking_changes changes (WebsocketFixed.clock st)))
        (filter is_open (map WebsocketFixed.ws (WebsocketFixed.clients st))).
Proof.
  unfold WebsocketFixed.broadcastRankingChanges, WebsocketFixed.for_each_client.
  cbn [WebsocketFixed.wire].
  match goal with
  | |- context [fold_left (WebsocketFixed.visit ?what ?m) ?cs ?acc] =>
      destruct (fixed_visit_all m what cs acc) as [_ ->]
  end.
  apply since_app.
Qed.

Lemma exactly_one_failure (message : Json) (cs : list WebSocket) :
  List.length (filter (send_fails message) cs) = 1%nat ->
  Z.of_nat (List.length (filter (send_ok message) cs)) = Z.of_nat (List.length cs) - 1.
Proof. intros H. pose proof (partition_length message cs). lia. Qed.

Lemma all_open (cs : list WebSocket) :
  forallb is_open cs = true -> filter is_open cs = cs.
Proof.
  induction cs as [| c cs IH]; [reflexivity |].
  cbn. destruct (is_open c); [| discriminate]. cbn. intros H. now rewrite IH.
Qed.

Lemma delivered_count (message : Json) (cs : list WebSocket) :
  List.length (filter att_ok (map (attempt message) cs))
  = List.length (filter (send_ok message) cs).
Proof.
  induction cs as [| c cs IH]; [reflexivity |].
  cbn [map filter attempt att_ok]. destruct (send_ok message c); cbn [List.length]; now rewrite IH.
Qed.

Lemma three_clients_one_failure (message : Json) (c1 c2 c3 : WebSocket) :
  forallb is_open [c1; c2; c3] = true ->
  List.length (filter (send_fails message) [c1; c2; c3]) = 1%nat ->
  filter is_open [c1; c2; c3] = [c1; c2; c3]
  /\ Z.of_nat (List.length (filter (send_ok message) [c1; c2; c3])) = 2
  /\ List.length (filter att_ok (map (attempt message) [c1; c2; c3])) = 2%nat.
Proof.
  intros Hopen Hone.
  pose proof (exactly_one_failure message _ Hone) as Hsent.
  split; [now apply all_open |]. split; [exact Hsent |].
  rewrite delivered_count. cbn [List.length] in Hsent. lia.
Qed.

(** C3. A send that throws on one connection prevents the attempt on no
    other. In every broadcast of [broadcastToAll], whatever the message (so
    in each of the five exported broadcasts) and whatever the clients, each
    open client gets its attempt, and is delivered the message when its own
    [send] does not throw; so it is in [broadcastLeaderboardUpdate] of the
    FIXED file. Over three open connections exactly one of which throws, the
    broadcast makes the three attempts in order, delivers to the other two
    and returns [sentCount = 2], [errorCount = 1]. *)
Theorem broadcast_isolation
        (message : Json) (st : Broadcaster.State)
        (type : string) (data : Json) (fx : WebsocketFixed.State) :
  let sent :=
    since (Broadcaster.wire st)
          (Broadcaster.wire (snd (Broadcaster.broadcastToAll message st))) in
  let fixed_message :=
    WebsocketFixed.leaderboard_update type data (WebsocketFixed.clock fx) in
  let fixed_sent :=
    since (WebsocketFixed.wire fx)
          (WebsocketFixed.wire (snd (WebsocketFixed.broadcastLeaderboardUpdate type data fx))) in
  (forall c, In c (connected st) -> is_open c = true ->
     In (attempt message c) sent
     /\ (send_ok message c = true ->
         In {| att_to := ws_id c; att_payload := message; att_ok := true |} sent))
  /\ (forall e, In e (WebsocketFixed.clients fx) -> is_open (WebsocketFixed.ws e) = true ->
        In (attempt fixed_message (WebsocketFixed.ws e)) fixed_sent
        /\ (send_ok fixed_message (WebsocketFixed.ws e) = true ->
            In {| att_to := ws_id (WebsocketFixed.ws e); att_payload := fixed_message;
                  att_ok := true |} fixed_sent))
  /\ (forall c1 c2 c3,
        forallb is_open [c1; c2; c3] = true ->
        List.length (filter (send_fails message) [c1; c2; c3]) = 1%nat ->
        connected st = [c1; c2; c3] ->
        fst (Broadcaster.broadcastToAll message st) = {| sentCount := 2; errorCount := 1 |}
        /\ sent = [attempt message c1; attempt message c2; attempt message c3]
        /\ List.length (filter att_ok sent) = 2%nat)
  /\ (forall c1 c2 c3 i1 i2 i3,
        forallb is_open [c1; c2; c3] = true ->
        List.length (filter (send_fails fixed_message) [c1; c2; c3]) = 1%nat ->
        WebsocketFixed.clients fx =
          [ {| WebsocketFixed.id := i1; WebsocketFixed.ws := c1 |};
            {| WebsocketFixed.id := i2; WebsocketFixed.ws := c2 |};
            {| WebsocketFixed.id := i3; WebsocketFixed.ws := c3 |} ] ->
        fst (WebsocketFixed.broadcastLeaderboardUpdate type data fx)
        = {| sentCount := 2; errorCount := 1 |}
        /\ fixed_sent
           = [attempt fixed_message c1; attempt fixed_message c2; attempt fixed_message c3]
        /\ List.length (filter att_ok fixed_sent) = 2%nat).
Proof.
  cbv zeta.
  destruct (fixed_broadcastLeaderboardUpdate_eq type data fx) as (Hn & Hw & _).
  rewrite broadcastToAll_wire, Hw.
  split; [| split; [| split]].
  - intros c Hin Hopen.
    assert (H : In (attempt message c) (map (attempt message) (filter is_open (connected st)))).
    { apply in_map. apply filter_In. now split. }
    split; [exact H |]. intros Hok. unfold attempt in H. now rewrite Hok in H.
  - intros e Hin Hopen.
    set (m := WebsocketFixed.leaderboard_update type data (WebsocketFixed.clock fx)) in *.
    assert (H : In (attempt m (WebsocketFixed.ws e))
                   (map (attempt m)
                        (filter is_open (map WebsocketFixed.ws (WebsocketFixed.clients fx))))).
    { apply in_map. apply filter_In. split; [now apply in_map | exact Hopen]. }
    split; [exact H |]. intros Hok. unfold attempt in H. now rewrite Hok in H.
  - intros c1 c2 c3 Hopen Hone Hst.
    destruct (three_clients_one_failure message c1 c2 c3 Hopen Hone) as (Hall & Hsent & Hdel).
    rewrite broadcastToAll_eq, Hst, Hall, Hsent, Hone, Hdel. cbn [fst].
    repeat split.
  - intros c1 c2 c3 i1 i2 i3 Hopen Hone Hfx.
    set (m := WebsocketFixed.leaderboard_update type data (WebsocketFixed.clock fx)) in *.
    destruct (three_clients_one_failure m c1 c2 c3 Hopen Hone) as (Hall & Hsent & Hdel).
    rewrite Hn, Hfx. cbn [map WebsocketFixed.ws].
    rewrite Hall, Hsent, Hone, Hdel. repeat split.
Qed.

Lemma broadcast_isolation_witness :
  fst (Broadcaster.broadcastToAll Scenario.ping Scenario.three_clients)
    = {| sentCount := 2; errorCount := 1 |}
  /\ fst (WebsocketFixed.broadcastLeaderboardUpdate "incremental" JNull Scenario.three_entries)
    = {| sentCount := 2; errorCount := 1 |}
  /\ In (attempt Scenario.ping (Scenario.healthy 3))
        (since (Broadcaster.wire Scenario.three_clients)
               (Broadcaster.wire
                  (snd (Broadcaster.broadcastToAll Scenario.ping Scenario.three_clients)))).
Proof.
  destruct (broadcast_isolation Scenario.ping Scenario.three_clients
              "incremental" JNull Scenario.three_entries) as (Hany & _ & Hts & Hfixed).
  destruct (Hts (Scenario.healthy 1) (Scenario.broken 2) (Scenario.healthy 3)
              eq_refl eq_refl eq_refl) as (H1 & _).
  destruct (Hfixed (Scenario.healthy 1) (Scenario.broken 2) (Scenario.healthy 3)
              10%nat 20%nat 30%nat eq_refl eq_refl eq_refl) as (H2 & _).
  split; [exact H1 |]. split; [exact H2 |].
  exact (proj1 (Hany (Scenario.healthy 3) (or_intror (or_intror (or_introl eq_refl))) eq_refl)).
Defined.

(** Every open client gets one attempt per broadcast, regardless of the
    outcome on the other connections. *)
Lemma every_open_client_is_attempted (message : Json) (st : Broadcaster.State) (c : WebSocket) :
  In c (connected st) -> is_open c = true ->
  In (attempt message c)
     (since (Broadcaster.wire st) (Broadcaster.wire (snd (Broadcaster.broadcastToAll message st)))).
Proof.
  intros Hin Hopen. rewrite broadcastToAll_wire. apply in_map.
  apply filter_In. split; assumption.
Qed.

Lemma attempts_to_map (message : Json) (id : nat) (cs : list WebSocket) :
  attempts_to id (map (attempt message) cs)
  = map (fun _ => message) (filter (fun c => Nat.eqb (ws_id c) id) cs).
Proof.
  unfold attempts_to. induction cs as [| c cs IH]; [reflexivity |].
  cbn [map filter attempt att_to]. destruct (Nat.eqb (ws_id c) id); cbn [map att_payload]; now rewrite IH.
Qed.

Lemma filter_none {A : Type} (f : A -> bool) (l : list A) :
  (forall x, In x l -> f x = false) -> filter f l = [].
Proof.
  induction l as [| x l IH]; intros H; [reflexivity |].
  cbn. rewrite (H x (or_introl eq_refl)). apply IH. intros y Hy. apply H. now right.
Qed.

Lemma filter_own_id (cs : list WebSocket) (c : WebSocket) :
  NoDup (map ws_id cs) -> In c cs ->
  filter (fun c' => Nat.eqb (ws_id c') (ws_id c)) (filter is_open cs)
  = if is_open c then [c] else [].
Proof.
  induction cs as [| x cs IH]; intros Hnd Hin; [contradiction |].
  cbn [map] in Hnd. apply NoDup_cons_iff in Hnd as [Hx Hnd].
  assert (Hrest : forall y, In y (filter is_open cs) -> Nat.eqb (ws_id y) (ws_id x) = false).
  { intros y Hy. apply filter_In in Hy as [Hy _]. apply Nat.eqb_neq. intros E.
    apply Hx. rewrite <- E. now apply in_map. }
  destruct Hin as [-> | Hin].
  - cbn [filter]. destruct (is_open c); [| now apply filter_none].
    cbn [filter]. rewrite Nat.eqb_refl. f_equal. now apply filter_none.
  - assert (Hne : Nat.eqb (ws_id x) (ws_id c) = false).
    { apply Nat.eqb_neq. intros E. apply Hx. rewrite E. now apply in_map. }
    cbn [filter]. destruct (is_open x); [cbn [filter]; rewrite Hne |]; now apply IH.
Qed.

(** C10. The counters returned by a broadcast add up to the number of
    connected clients whose [readyState] is 1: [sentCount] counts those whose
    [send] returned, [errorCount] those whose [send] threw, and the sends
    made are one per open client, in the order of the set. The members of
    the set being distinct, an open client is sent the message once and a
    client in another state is sent nothing and counted nowhere. *)
Theorem broadcast_counts_open_clients (message : Json) (st : Broadcaster.State) :
  let result := Broadcaster.broadcastToAll message st in
  let open := filter is_open (connected st) in
  let sent := since (Broadcaster.wire st) (Broadcaster.wire (snd result)) in
  sentCount (fst result) + errorCount (fst result) = Z.of_nat (List.length open)
  /\ sentCount (fst result) = Z.of_nat (List.length (filter (send_ok message) open))
  /\ errorCount (fst result) = Z.of_nat (List.length (filter (send_fails message) open))
  /\ sent = map (attempt message) open
  /\ (NoDup (map ws_id (connected st)) ->
      forall c, In c (connected st) ->
        attempts_to (ws_id c) sent = if is_open c then [message] else []).
Proof.
  cbv zeta. rewrite broadcastToAll_wire, broadcastToAll_eq.
  cbn [fst sentCount errorCount].
  pose proof (partition_length message (filter is_open (connected st))).
  repeat split; [lia |].
  intros Hnd c Hin. rewrite attempts_to_map, (filter_own_id _ _ Hnd Hin).
  now destruct (is_open c).
Qed.

Lemma broadcast_counts_open_clients_witness :
  let result := Broadcaster.broadcastToAll Scenario.ping Scenario.mixed_clients in
  fst result = {| sentCount := 1; errorCount := 1 |}
  /\ attempts_to 1 (Broadcaster.wire (snd result)) = [Scenario.ping]
  /\ attempts_to 2 (Broadcaster.wire (snd result)) = []
  /\ attempts_to 3 (Broadcaster.wire (snd result)) = [Scenario.ping].
Proof.
  cbv zeta.
  destruct (broadcast_counts_open_clients Scenario.ping Scenario.mixed_clients)
    as (_ & Hsent & Herr & _ & Heach).
  assert (Hnd : NoDup (map ws_id (connected Scenario.mixed_clients))).
  { cbn. repeat constructor; cbn; intuition discriminate. }
  split.
  - destruct (fst (Broadcaster.broadcastToAll Scenario.ping Scenario.mixed_clients)).
    cbn in Hsent, Herr. now subst.
  - split; [| split].
    + exact (Heach Hnd (Scenario.healthy 1) (or_introl eq_refl)).
    + exact (Heach Hnd (Scenario.closing 2) (or_intror (or_introl eq_refl))).
    + exact (Heach Hnd (Scenario.broken 3) (or_intror (or_intror (or_introl eq_refl)))).
Defined.

(** C9. As long as no server has been registered ([wssInstance] is null),
    each of the five broadcast functions returns zero counts and leaves the
    state, the wire included, as it was. *)
Theorem no_server_no_broadcast (st : Broadcaster.State) :
  Broadcaster.wssInstance st = None ->
  forall (type : string) (data : Json) (changes : list RankingChange) (leader : Leader)
         (update : UserUpdate) (action : UserAction),
    Broadcaster.broadcastLeaderboardUpdate type data st = (no_counts, st)
    /\ Broadcaster.broadcastRankingChanges changes st = (no_counts, st)
    /\ Broadcaster.broadcastNewLeader leader st = (no_counts, st)
    /\ Broadcaster.broadcastUserUpdate update st = (no_counts, st)
    /\ Broadcaster.broadcastUserAction action st = (no_counts, st).
Proof.
  intros Hnone type data changes leader update action.
  unfold Broadcaster.broadcastLeaderboardUpdate, Broadcaster.broadcastRankingChanges,
    Broadcaster.broadcastNewLeader, Broadcaster.broadcastUserUpdate,
    Broadcaster.broadcastUserAction, Broadcaster.broadcastToAll.
  rewrite Hnone. repeat split.
Qed.

Lemma no_server_no_broadcast_witness :
  Broadcaster.wssInstance (Broadcaster.initial 0) = None
  /\ Broadcaster.broadcastUserUpdate
       {| uu_address := "0xaa"; uu_dnaScore := 72; uu_tier := "Expert"; uu_timestamp := 5 |}
       (Broadcaster.initial 0)
     = (no_counts, Broadcaster.initial 0).
Proof.
  split; [reflexivity |].
  apply (no_server_no_broadcast (Broadcaster.initial 0) eq_refl
           "incremental" JNull []
           {| ld_address := "0xaa"; ld_ens_name := None; ld_dna_score := 72;
              ld_tier := "Expert"; ld_total_positions := 1; ld_total_volume_usd := 0%Q |}
           {| uu_address := "0xaa"; uu_dnaScore := 72; uu_tier := "Expert"; uu_timestamp := 5 |}
           {| ua_address := "0xaa"; ua_actionType := "swap"; ua_poolId := None;
              ua_amountUsd := None; ua_timestamp := 5 |}).
Defined.

Lemma change_entry_carries (c : RankingChange) :
  carries_change c (Broadcaster.change_entry c)
  /\ carries_change c (WebsocketFixed.change_entry c).
Proof.
  assert (H : (0 <? rc_oldRank c - rc_newRank c) = (rc_newRank c <? rc_oldRank c)).
  { destruct (Z.ltb_spec 0 (rc_oldRank c - rc_newRank c));
      destruct (Z.ltb_spec (rc_newRank c) (rc_oldRank c)); try reflexivity; lia. }
  split; repeat split; try reflexivity; exact H.
Qed.

Lemma change_entries_carry (changes : list RankingChange) :
  Forall2 carries_change changes (map Broadcaster.change_entry changes)
  /\ Forall2 carries_change changes (map WebsocketFixed.change_entry changes).
Proof.
  induction changes as [| c cs [IH1 IH2]]; cbn [map].
  - split; constructor.
  - destruct (change_entry_carries c). split; constructor; assumption.
Qed.

(** C6. The message built by [broadcastRankingChanges], in both files, is a
    [ranking_changes] message whose [changes] array has one element per
    change supplied, in order, carrying its address, oldRank, newRank,
    dnaScore and tier unchanged and [rankChange = oldRank - newRank]
    (positive exactly when the new rank number is the smaller one); and that
    message is what the function sends to every open client. *)
Theorem rank_change_is_old_minus_new (changes : list RankingChange) :
  (forall now, is_ranking_changes changes now (Broadcaster.ranking_changes changes now))
  /\ (forall now, is_ranking_changes changes now (WebsocketFixed.ranking_changes changes now))
  /\ (forall st,
        since (Broadcaster.wire st)
              (Broadcaster.wire (snd (Broadcaster.broadcastRankingChanges changes st)))
        = map (attempt (Broadcaster.ranking_changes changes (Broadcaster.clock st)))
              (filter is_open (connected st)))
  /\ (forall fx,
        since (WebsocketFixed.wire fx)
              (WebsocketFixed.wire (WebsocketFixed.broadcastRankingChanges changes fx))
        = map (attempt (WebsocketFixed.ranking_changes changes (WebsocketFixed.clock fx)))
              (filter is_open (map WebsocketFixed.ws (WebsocketFixed.clients fx)))).
Proof.
  destruct (change_entries_carry changes) as [H1 H2].
  split; [| split; [| split]].
  - intros now. repeat split. eexists. split; [reflexivity | exact H1].
  - intros now. repeat split. eexists. split; [reflexivity | exact H2].
  - intros st. apply broadcastToAll_wire.
  - intros fx. apply fixed_broadcastRankingChanges_wire.
Qed.

(** C4, as the code has it. A broadcast leaves the set of subscribers as it
    was: a client whose [send] threw is counted in [errorCount], is not
    retried within that broadcast, and stays in the set, so the next
    broadcast makes an attempt on every client that is still open, the
    failed ones included. *)
Theorem failed_send_keeps_subscriber (message next : Json) (st : Broadcaster.State)
        (type : string) (data : Json) (changes : list RankingChange)
        (fx : WebsocketFixed.State) :
  let after := snd (Broadcaster.broadcastToAll message st) in
  connected after = connected st
  /\ errorCount (fst (Broadcaster.broadcastToAll message st))
     = Z.of_nat (List.length (filter (send_fails message) (filter is_open (connected st))))
  /\ since (Broadcaster.wire st) (Broadcaster.wire after)
     = map (attempt message) (filter is_open (connected st))
  /\ since (Broadcaster.wire after) (Broadcaster.wire (snd (Broadcaster.broadcastToAll next after)))
     = map (attempt next) (filter is_open (connected st))
  /\ WebsocketFixed.clients (snd (WebsocketFixed.broadcastLeaderboardUpdate type data fx))
     = WebsocketFixed.clients fx
  /\ WebsocketFixed.clients (WebsocketFixed.broadcastRankingChanges changes fx)
     = WebsocketFixed.clients fx.
Proof.
  cbv zeta.
  assert (Hsame : connected (snd (Broadcaster.broadcastToAll message st)) = connected st).
  { unfold connected. now rewrite broadcastToAll_keeps_server. }
  split; [exact Hsame |].
  split; [rewrite broadcastToAll_eq; reflexivity |].
  split; [apply broadcastToAll_wire |].
  split; [rewrite broadcastToAll_wire, Hsame; reflexivity |].
  split; [apply fixed_broadcastLeaderboardUpdate_eq | reflexivity].
Qed.

(** C4, as stated, fails: after a broadcast in which the send to client 2
    threw, client 2 is still a subscriber, and the next broadcast makes an
    attempt on it again. *)
Lemma failed_client_is_not_pruned :
  let st := Scenario.three_clients in
  let after := snd (Broadcaster.broadcastToAll Scenario.ping st) in
  In (Scenario.broken 2) (connected st)
  /\ is_open (Scenario.broken 2) = true
  /\ send_ok Scenario.ping (Scenario.broken 2) = false
  /\ errorCount (fst (Broadcaster.broadcastToAll Scenario.ping st)) = 1
  /\ In (Scenario.broken 2) (connected after)
  /\ attempts_to 2 (Broadcaster.wire (snd (Broadcaster.broadcastToAll Scenario.ping after)))
     = [Scenario.ping; Scenario.ping].
Proof.
  cbv zeta. repeat split; try reflexivity; cbn; auto.
Qed.

(** ** Properties of the indexer *)

Create HintDb preserves.

Import Indexer.

Lemma set_db_same (w : World) : set_db (db w) w = w.
Proof. destruct w; reflexivity. Qed.

Lemma returns_any {A : Type} (m : M A) : returns (fun _ => True) m.
Proof. intros w a _. exact I. Qed.

(** [checkLeaderboardChange] returns null on both of its paths. *)
Lemma checkLeaderboardChange_null (a : string) (w : World) :
  fst (checkLeaderboardChange a w) = Ok None.
Proof.
  unfold checkLeaderboardChange, try_catch, bind, query, logger, ret.
  destruct (faults w (List.length (journal w))); reflexivity.
Qed.

Lemma returns_checkLeaderboardChange (a : string) :
  returns (fun change => change = None) (checkLeaderboardChange a).
Proof.
  intros w r H. rewrite checkLeaderboardChange_null in H. congruence.
Qed.

Section Invariant.

Variable I : World -> World -> Prop.

Hypothesis I_refl : forall w, I w w.
Hypothesis I_trans : forall w1 w2 w3, I w1 w2 -> I w2 w3 -> I w1 w3.
Hypothesis I_stmt : forall s ok d w, s <> Rollback -> I w (record_stmt s ok (set_db d w)).
Hypothesis I_log : forall l w, I w (record_log l w).
Hypothesis I_call :
  forall c n w, is_leaderboard_update c = false -> I w (record_call c n w).

Lemma preserves_ret {A : Type} (a : A) : preserves I (ret a).
Proof. intros w. apply I_refl. Qed.

Lemma preserves_throw {A : Type} (e : Exn) : preserves I (@throw A e).
Proof. intros w. apply I_refl. Qed.

Lemma preserves_lift {A : Type} (r : Result A) : preserves I (lift r).
Proof. intros w. apply I_refl. Qed.

Lemma preserves_Date_now : preserves I Date_now.
Proof. intros w. apply I_refl. Qed.

Lemma preserves_logger (level : LogLevel) (text : string) (args : list Json) :
  preserves I (logger level text args).
Proof. intros w. apply I_log. Qed.

Lemma preserves_query {A : Type} (s : Stmt) (run : Database -> A * Database) :
  s <> Rollback -> preserves I (query s run).
Proof.
  intros Hs w. unfold query.
  destruct (faults w (List.length (journal w))).
  - cbn [snd]. rewrite <- (set_db_same w) at 2. now apply I_stmt.
  - destruct (run (db w)) as [a d]. cbn [snd]. now apply I_stmt.
Qed.

Lemma preserves_bind_returning {A B : Type} (Q : A -> Prop) (m : M A) (k : A -> M B) :
  returns Q m -> preserves I m -> (forall a, Q a -> preserves I (k a)) ->
  preserves I (bind m k).
Proof.
  intros HQ Hm Hk w. unfold bind.
  specialize (Hm w). specialize (HQ w).
  destruct (m w) as [[a | e] w1]; cbn [fst snd] in *.
  - eapply I_trans; [exact Hm |]. apply Hk. now apply HQ.
  - exact Hm.
Qed.

Lemma preserves_bind {A B : Type} (m : M A) (k : A -> M B) :
  preserves I m -> (forall a, preserves I (k a)) -> preserves I (bind m k).
Proof.
  intros Hm Hk. apply (preserves_bind_returning (fun _ => True)); auto using returns_any.
Qed.

Lemma preserves_try_catch {A : Type} (m : M A) (handler : Exn -> M A) :
  preserves I m -> (forall e, preserves I (handler e)) -> preserves I (try_catch m handler).
Proof.
  intros Hm Hh w. unfold try_catch. specialize (Hm w).
  destruct (m w) as [[a | e] w1]; cbn [fst snd] in *.
  - exact Hm.
  - eapply I_trans; [exact Hm | apply Hh].
Qed.

Lemma preserves_ok_of {A : Type} (m : M A) : preserves I m -> preserves_ok I m.
Proof. intros Hm w a _. apply Hm. Qed.

Lemma preserves_ok_bind {A B : Type} (m : M A) (k : A -> M B) :
  preserves_ok I m -> (forall a, preserves_ok I (k a)) -> preserves_ok I (bind m k).
Proof.
  intros Hm Hk w b. unfold bind.
  specialize (Hm w). specialize (Hk) .
  destruct (m w) as [[a | e] w1]; cbn [fst snd] in *.
  - intros Hb. eapply I_trans; [now apply (Hm a) | now apply (Hk a w1 b)].
  - discriminate.
Qed.

(** The three methods of the websocket module that the indexer calls. *)
Lemma preserves_broadcastUserUpdate (payload : UserUpdate) :
  preserves I (websocketServer_broadcastUserUpdate payload).
Proof. intros w. now apply I_call. Qed.

Lemma preserves_broadcastUserAction (payload : UserAction) :
  preserves I (websocketServer_broadcastUserAction payload).
Proof. intros w. now apply I_call. Qed.

Lemma preserves_checkLeaderboardChange (a : string) : preserves I (checkLeaderboardChange a).
Proof.
  unfold checkLeaderboardChange. apply preserves_try_catch.
  - apply preserves_bind; [apply preserves_query; discriminate |].
    intros rows. apply preserves_ret.
  - intros e. apply preserves_bind; [apply preserves_logger |].
    intros _. apply preserves_ret.
Qed.

#[local] Hint Resolve preserves_ret preserves_throw preserves_lift preserves_Date_now
  preserves_logger preserves_broadcastUserUpdate preserves_broadcastUserAction
  preserves_checkLeaderboardChange : preserves.

(** One step of a proof that follows the text of a method. The branch of
    [updateDNAScore] that would call [broadcastLeaderboardUpdate] is dead,
    [rankChange] being always null. *)
Ltac preserves_step :=
  match goal with
  | |- preserves _ (bind (checkLeaderboardChange _) _) =>
      apply (preserves_bind_returning (fun change => change = None));
      [ apply returns_checkLeaderboardChange
      | apply preserves_checkLeaderboardChange
      | intros ? -> ]
  | |- preserves _ (bind _ _) => apply preserves_bind
  | |- preserves _ (try_catch _ _) => apply preserves_try_catch
  | |- preserves _ (query _ _) => apply preserves_query; discriminate
  | |- preserves _ (match ?x with _ => _ end) => destruct x
  | |- forall _, _ => intro
  | |- preserves _ _ => solve [auto with preserves]
  end.

Variable this : Indexer.

Lemma preserves_getPoolInfo (poolId : string) : preserves I (getPoolInfo this poolId).
Proof. unfold getPoolInfo. repeat preserves_step. Qed.

Lemma preserves_getTokenSymbol (token : string) : preserves I (getTokenSymbol this token).
Proof. unfold getTokenSymbol. repeat preserves_step. Qed.

Lemma preserves_updateDNAScore (a : string) : preserves I (updateDNAScore this a).
Proof. unfold updateDNAScore. repeat preserves_step. Qed.

#[local] Hint Resolve preserves_getPoolInfo preserves_getTokenSymbol
  preserves_updateDNAScore : preserves.

(** A transaction that returns has not rolled back: its part of the journal
    is BEGIN, the statements of the callback and COMMIT. *)
Lemma preserves_ok_withTransaction {A : Type} (callback : M A) :
  preserves I callback -> preserves_ok I (withTransaction callback).
Proof.
  intros Hcb w a. unfold withTransaction, try_catch.
  match goal with
  | |- context [match ?body w with _ => _ end] =>
      assert (Hbody : preserves I body) by repeat preserves_step;
      specialize (Hbody w); destruct (body w) as [[x | e] w1]
  end; cbn [fst snd] in *.
  - intros _. exact Hbody.
  - discriminate.
Qed.

Lemma preserves_withTransaction {A : Type} (callback : M A) :
  (forall ok d w, I w (record_stmt Rollback ok (set_db d w))) ->
  preserves I callback -> preserves I (withTransaction callback).
Proof.
  intros Hrb Hcb w. unfold withTransaction, try_catch.
  match goal with
  | |- context [match ?body w with _ => _ end] =>
      assert (Hbody : preserves I body) by repeat preserves_step;
      specialize (Hbody w); destruct (body w) as [[x | e] w1]
  end; cbn [fst snd] in *.
  - exact Hbody.
  - eapply I_trans; [exact Hbody | apply Hrb].
Qed.

(** [try { m } catch (error) { ...; throw error }] returns only if [m] does. *)
Lemma preserves_ok_rethrow {A : Type} (m : M A) (handler : Exn -> M A) :
  (forall e w, exists e', fst (handler e w) = Throw e') ->
  preserves_ok I m -> preserves_ok I (try_catch m handler).
Proof.
  intros Hh Hm w a. unfold try_catch. specialize (Hm w).
  destruct (m w) as [[x | e] w1]; cbn [fst snd] in *.
  - intros _. now apply (Hm x).
  - destruct (Hh e w1) as [e' He']. rewrite He'. discriminate.
Qed.

Ltac preserves_ok_step :=
  match goal with
  | |- preserves_ok _ (bind (withTransaction _) _) =>
      apply preserves_ok_bind;
      [ apply preserves_ok_withTransaction; repeat preserves_step | ]
  | |- preserves_ok _ (bind _ _) =>
      apply preserves_ok_bind; [ apply preserves_ok_of; repeat preserves_step | ]
  | |- preserves_ok _ (match ?x with _ => _ end) => destruct x
  | |- forall _, _ => intro
  | |- preserves_ok _ _ => apply preserves_ok_of; solve [repeat preserves_step]
  end.

Variable schema : Schema.

Lemma preserves_ok_processSwap (event : SwapEvent) (poolId sender : string)
      (amount0 amount1 : Z) :
  preserves_ok I (processSwap schema this event poolId sender amount0 amount1).
Proof.
  unfold processSwap. apply preserves_ok_rethrow.
  - intros e w. exists e. reflexivity.
  - repeat preserves_ok_step.
Qed.

Lemma preserves_processSwap (event : SwapEvent) (poolId sender : string)
      (amount0 amount1 : Z) :
  (forall ok d w, I w (record_stmt Rollback ok (set_db d w))) ->
  preserves I (processSwap schema this event poolId sender amount0 amount1).
Proof.
  intros Hrb. unfold processSwap.
  repeat first
    [ preserves_step
    | match goal with
      | |- preserves _ (withTransaction _) => apply (preserves_withTransaction _ Hrb)
      end ].
Qed.

End Invariant.

(** *** The two invariants *)

Lemma existsb_snoc {A : Type} (f : A -> bool) (l : list A) (x : A) :
  existsb f (l ++ [x]) = existsb f l || f x.
Proof. rewrite existsb_app. cbn. now rewrite orb_false_r. Qed.

Lemma no_rollback_refl (w : World) : no_rollback w w.
Proof. exists []. now rewrite app_nil_r. Qed.

Lemma no_rollback_trans (w1 w2 w3 : World) :
  no_rollback w1 w2 -> no_rollback w2 w3 -> no_rollback w1 w3.
Proof.
  intros (d1 & E1 & H1) (d2 & E2 & H2). exists (d1 ++ d2).
  rewrite E2, E1, app_assoc, existsb_app, H1, H2. now split.
Qed.

Lemma no_rollback_stmt (s : Stmt) (ok : bool) (d : Database) (w : World) :
  s <> Rollback -> no_rollback w (record_stmt s ok (set_db d w)).
Proof.
  intros Hs. exists [(s, ok)]. split; [reflexivity |].
  destruct s; try reflexivity. now elim Hs.
Qed.

Lemma no_rollback_log (l : LogLine) (w : World) : no_rollback w (record_log l w).
Proof. exists []. cbn. now rewrite app_nil_r. Qed.

Lemma no_rollback_call (c : WsCall) (n : Broadcaster.State) (w : World) :
  is_leaderboard_update c = false -> no_rollback w (record_call c n w).
Proof. intros _. exists []. cbn. now rewrite app_nil_r. Qed.

Lemma no_leaderboard_update_refl (w : World) : no_leaderboard_update w w.
Proof. exists []. now rewrite app_nil_r. Qed.

Lemma no_leaderboard_update_trans (w1 w2 w3 : World) :
  no_leaderboard_update w1 w2 -> no_leaderboard_update w2 w3 ->
  no_leaderboard_update w1 w3.
Proof.
  intros (d1 & E1 & H1) (d2 & E2 & H2). exists (d1 ++ d2).
  rewrite E2, E1, app_assoc, existsb_app, H1, H2. now split.
Qed.

Lemma no_leaderboard_update_stmt (s : Stmt) (ok : bool) (d : Database) (w : World) :
  no_leaderboard_update w (record_stmt s ok (set_db d w)).
Proof. exists []. cbn. now rewrite app_nil_r. Qed.

Lemma no_leaderboard_update_log (l : LogLine) (w : World) :
  no_leaderboard_update w (record_log l w).
Proof. exists []. cbn. now rewrite app_nil_r. Qed.

Lemma no_leaderboard_update_call (c : WsCall) (n : Broadcaster.State) (w : World) :
  is_leaderboard_update c = false -> no_leaderboard_update w (record_call c n w).
Proof. intros Hc. exists [c]. cbn. now rewrite Hc. Qed.

(** A swap that returns has not rolled its transaction back. *)
Lemma returned_swap_committed (schema : Schema) (this : Indexer) (event : SwapEvent)
      (poolId sender : string) (amount0 amount1 : Z) (w : World) (x : unit) :
  let run := processSwap schema this event poolId sender amount0 amount1 w in
  fst run = Ok x -> rolled_back w (snd run) = false.
Proof.
  cbv zeta. intros Hok.
  destruct (preserves_ok_processSwap no_rollback no_rollback_refl no_rollback_trans
              no_rollback_stmt no_rollback_log no_rollback_call
              this schema event poolId sender amount0 amount1 w x Hok) as (d & E & H).
  unfold rolled_back. now rewrite E, since_app.
Qed.

(** A swap that throws has logged the error as its last line. *)
Lemma thrown_swap_logged (schema : Schema) (this : Indexer) (event : SwapEvent)
      (poolId sender : string) (amount0 amount1 : Z) (w : World) (e : Exn) :
  let run := processSwap schema this event poolId sender amount0 amount1 w in
  fst run = Throw e ->
  exists earlier, logged (snd run) = earlier ++ [swap_error_line (toLowerCase sender) e].
Proof.
  cbv zeta. unfold processSwap, try_catch.
  match goal with
  | |- context [match ?body w with _ => _ end] => destruct (body w) as [[x | e'] w1]
  end; cbn.
  - discriminate.
  - intros [= <-]. eexists. reflexivity.
Qed.

(** C5, as the code has it. When the transactional write of a swap throws,
    [processSwap] does not return normally: it logs the error (the line
    "Error processing swap for" with the address and the error is the last
    line of the log) and throws that error to its caller. *)
Theorem processSwap_rethrows_persistence_failure
        (schema : Schema) (this : Indexer) (event : SwapEvent)
        (poolId sender : string) (amount0 amount1 : Z) (w : World) :
  let run := processSwap schema this event poolId sender amount0 amount1 w in
  rolled_back w (snd run) = true ->
  exists e,
    fst run = Throw e
    /\ exists earlier, logged (snd run) = earlier ++ [swap_error_line (toLowerCase sender) e].
Proof.
  cbv zeta. intros Hrb.
  destruct (fst (processSwap schema this event poolId sender amount0 amount1 w)) as [x | e] eqn:Hrun.
  - rewrite (returned_swap_committed _ _ _ _ _ _ _ _ _ Hrun) in Hrb. discriminate.
  - exists e. split; [reflexivity |]. now apply thrown_swap_logged.
Qed.

Lemma processSwap_rethrows_persistence_failure_witness :
  rolled_back (Scenario.world (Scenario.only 2)) (snd (Scenario.swap true (Scenario.only 2))) = true
  /\ exists e,
       fst (Scenario.swap true (Scenario.only 2)) = Throw e
       /\ exists earlier,
            logged (snd (Scenario.swap true (Scenario.only 2)))
            = earlier ++ [swap_error_line "0xbb" e].
Proof.
  split; [reflexivity |].
  exact (processSwap_rethrows_persistence_failure
           Scenario.schema (Scenario.indexer true) Scenario.swap_event
           "0xpool" "0xBB" 1000000000000000000 (-2000000)
           (Scenario.world (Scenario.only 2)) eq_refl).
Defined.

(** C5, as stated, fails: when the database rejects the first INSERT of the
    transaction, [processSwap] throws that error to its caller, after
    logging it, instead of returning. *)
Lemma processSwap_throws_to_caller :
  let run := Scenario.swap true (Scenario.only 2) in
  journal (snd run)
  = [(SelectPool "0xpool", true); (Begin, true); (InsertUser "0xbb", false); (Rollback, true)]
  /\ fst run = Throw (DbError 2)
  /\ fst run <> Ok tt
  /\ logged (snd run) = [swap_error_line "0xbb" (DbError 2)]
  /\ calls (snd run) = [].
Proof.
  cbv zeta. repeat split; try reflexivity. discriminate.
Qed.

(** C1. [checkLeaderboardChange] reports nothing, whatever the ranks are,
    so no run of [processSwap] calls [broadcastLeaderboardUpdate]; in
    particular the swap that lifts 0xbb from rank 2 to rank 1 is followed by
    a user_update and a user_action, and by no leaderboard_update. *)
Theorem rank_change_is_never_reported :
  (forall a w, fst (checkLeaderboardChange a w) = Ok None)
  /\ (forall schema this event poolId sender amount0 amount1 w,
        no_leaderboard_update w
          (snd (processSwap schema this event poolId sender amount0 amount1 w)))
  /\ (let run := Scenario.swap true Scenario.never in
      current_rank "0xbb" (Scenario.world Scenario.never) = Some 2
      /\ fst run = Ok tt
      /\ current_rank "0xbb" (snd run) = Some 1
      /\ existsb is_leaderboard_update (calls (snd run)) = false
      /\ map (fun a => field "type" (att_payload a)) (Broadcaster.wire (net (snd run)))
         = [Some (JStr "user_update"); Some (JStr "user_update"); Some (JStr "user_update");
            Some (JStr "user_action"); Some (JStr "user_action"); Some (JStr "user_action")]).
Proof.
  split; [exact checkLeaderboardChange_null |]. split.
  - intros.
    apply (preserves_processSwap no_leaderboard_update no_leaderboard_update_refl
             no_leaderboard_update_trans
             (fun s ok d w _ => no_leaderboard_update_stmt s ok d w)
             no_leaderboard_update_log no_leaderboard_update_call).
    intros. apply no_leaderboard_update_stmt.
  - cbv zeta. repeat split; vm_compute; reflexivity.
Qed.

(** *** Equations of the computations, for running a method step by step *)

Section Equations.
Context {A B : Type}.

Lemma bind_ret (a : A) (k : A -> M B) (w : World) : bind (ret a) k w = k a w.
Proof. reflexivity. Qed.

Lemma bind_bind {C : Type} (m : M A) (k1 : A -> M B) (k2 : B -> M C) (w : World) :
  bind (bind m k1) k2 w = bind m (fun a => bind (k1 a) k2) w.
Proof. unfold bind. destruct (m w) as [[a | e] w1]; reflexivity. Qed.

Lemma bind_query (s : Stmt) (run : Database -> A * Database) (k : A -> M B) (w : World) :
  bind (query s run) k w =
  if faults w (List.length (journal w))
  then (Throw (DbError (List.length (journal w))), record_stmt s false w)
  else k (fst (run (db w))) (record_stmt s true (set_db (snd (run (db w))) w)).
Proof.
  unfold bind, query. destruct (faults w (List.length (journal w))); [reflexivity |].
  destruct (run (db w)); reflexivity.
Qed.

Lemma bind_lift (r : Result A) (k : A -> M B) (w : World) :
  bind (lift r) k w = match r with Ok a => k a w | Throw e => (Throw e, w) end.
Proof. unfold bind, lift. destruct r; reflexivity. Qed.

End Equations.

Lemma bind_logger {B : Type} (level : LogLevel) (text : string) (args : list Json)
      (k : unit -> M B) (w : World) :
  bind (logger level text args) k w
  = k tt (record_log {| log_level := level; log_text := text; log_args := args |} w).
Proof. reflexivity. Qed.

Lemma bind_Date_now {B : Type} (k : Z -> M B) (w : World) :
  bind Date_now k w = k (Broadcaster.clock (net w)) w.
Proof. reflexivity. Qed.

Lemma bind_broadcastUserUpdate {B : Type} (payload : UserUpdate) (k : unit -> M B)
      (w : World) :
  bind (websocketServer_broadcastUserUpdate payload) k w
  = k tt (record_call (CallUserUpdate payload)
            (snd (Broadcaster.broadcastUserUpdate payload (net w))) w).
Proof. reflexivity. Qed.

Lemma bind_checkLeaderboardChange {B : Type} (a : string)
      (k : option RankChange -> M B) (w : World) :
  bind (checkLeaderboardChange a) k w
  = k None (snd (checkLeaderboardChange a w)).
Proof.
  unfold bind. pose proof (checkLeaderboardChange_null a w) as H.
  destruct (checkLeaderboardChange a w) as [r w1]. cbn in *. now subst.
Qed.

(** What [checkLeaderboardChange] leaves behind: one statement in the journal. *)
Lemma checkLeaderboardChange_world (a : string) (w : World) :
  calls (snd (checkLeaderboardChange a w)) = calls w
  /\ net (snd (checkLeaderboardChange a w)) = net w
  /\ exists b, journal (snd (checkLeaderboardChange a w)) = journal w ++ [(SelectRanks, b)].
Proof.
  unfold checkLeaderboardChange, try_catch. rewrite bind_query.
  destruct (faults w _); cbn; eauto.
Qed.

(** Running a method on a symbolic world: [exec1] moves one statement of the
    method into the world, [split1] splits on what the world answers. *)
Ltac simp :=
  cbv beta;
  cbn [fst snd reading writing faults journal calls db net logged
         record_stmt record_log record_call set_db].

Ltac exec1 :=
  first [ rewrite bind_bind | rewrite bind_query | rewrite bind_logger
        | rewrite bind_Date_now | rewrite bind_lift | rewrite bind_ret
        | rewrite bind_broadcastUserUpdate | rewrite bind_checkLeaderboardChange ].

Ltac split1 :=
  match goal with
  | |- context [if faults ?w ?n then _ else _] => destruct (faults w n)
  | |- context [match select_user_stats ?a ?d with _ => _ end] =>
      destruct (select_user_stats a d)
  | |- context [match dnaScoreService_calculateScore ?i ?r ?x ?y with _ => _ end] =>
      destruct (dnaScoreService_calculateScore i r x y)
  end.

Ltac go := repeat (simp; first [exec1 | split1]).

Ltac finish :=
  simp; unfold logger, throw, ret; simp;
  repeat match goal with
    | |- context [checkLeaderboardChange ?a ?w] =>
        let Hc := fresh "Hc" in let Hn := fresh "Hn" in
        let b := fresh "b" in let Hj := fresh "Hj" in
        destruct (checkLeaderboardChange_world a w) as (Hc & Hn & b & Hj);
        rewrite ?Hc, ?Hn, ?Hj; clear Hc Hn Hj
    end;
  simp; repeat rewrite <- app_assoc; cbn [app]; rewrite ?since_app, ?since_same.



(** The guard [if (this.websocketServer)]: an indexer without the module
    makes no call, whatever the recompute does. *)
Lemma no_module_no_call (this : Indexer) (a : string) (w : World) :
  let run := updateDNAScore this a w in
  websocketServer this = false ->
  calls (snd run) = calls w /\ net (snd run) = net w.
Proof.
  cbv zeta. intros Hws.
  unfold updateDNAScore, try_catch. rewrite Hws. go.
  all: finish.
  all: split; reflexivity.
Qed.

(** Without a successful score UPDATE a recompute makes no call at all. *)
Lemma no_score_write_no_call (this : Indexer) (a : string) (w : World) :
  let run := updateDNAScore this a w in
  existsb (fun entry => match entry with
                        | (UpdateScore _ _ _, true) => true
                        | _ => false
                        end)
          (since (journal w) (journal (snd run))) = false ->
  calls (snd run) = calls w.
Proof.
  cbv zeta.
  unfold updateDNAScore, try_catch.
  destruct (websocketServer this); go.
  all: finish.
  all: cbn [existsb orb]; intros H; try discriminate H; reflexivity.
Qed.

(** C8. The failing input: the database rejects the COMMIT of the swap's
    transaction (statement 11). The transactional write throws and the
    changes are rolled back, yet the ranking query has run and the
    user_update with the score that was never committed has been sent to the
    open clients; only the user_action is withheld. *)
Theorem broadcast_precedes_commit :
  let before := Scenario.world (Scenario.only 11) in
  let run := Scenario.swap true (Scenario.only 11) in
  fst run = Throw (DbError 11)
  /\ map fst (journal (snd run))
     = [SelectPool "0xpool"; Begin; InsertUser "0xbb"; InsertUserStats "0xbb";
        InsertUserAction
          {| act_address := "0xbb"; act_protocol_version := "v4"; act_action_type := "swap";
             act_pool_id := "0xpool"; act_amount0 := 1000000000000000000;
             act_amount1 := -2000000; act_amount_usd := Some (usd_value 1000000000000000000 (Number_of 2));
             act_tx_hash := "0xhash"; act_block_number := 7; act_timestamp := 1000 |};
        UpdateUserStats "0xbb" (Some (usd_value 1000000000000000000 (Number_of 2)));
        SelectActiveDays "0xbb"; SelectFirstAction "0xbb"; SelectUserStats "0xbb";
        UpdateScore "0xbb" 75 "Expert"; SelectRanks; Commit; Rollback]
  /\ map snd (journal (snd run))
     = [true; true; true; true; true; true; true; true; true; true; true; false; true]
  /\ db (snd run) = db before
  /\ calls (snd run)
     = [CallUserUpdate {| uu_address := "0xbb"; uu_dnaScore := 75; uu_tier := "Expert";
                          uu_timestamp := 1000 |}]
  /\ delivered_to 1 (Broadcaster.wire (net (snd run)))
     = [Broadcaster.user_update {| uu_address := "0xbb"; uu_dnaScore := 75;
                                   uu_tier := "Expert"; uu_timestamp := 1000 |}].
Proof.
  cbv zeta. repeat split; vm_compute; reflexivity.
Qed.

(** ** Properties of the ranking query *)

Lemma insert_by_score_perm (r : StatsRow) (l : list StatsRow) :
  Permutation (r :: l) (insert_by_score r l).
Proof.
  induction l as [| h l IH]; cbn [insert_by_score]; [reflexivity |].
  destruct (dna_score r <? dna_score h); [| reflexivity].
  rewrite perm_swap. now apply perm_skip.
Qed.

Lemma insert_by_score_sorted (r : StatsRow) (l : list StatsRow) :
  StronglySorted score_desc l -> StronglySorted score_desc (insert_by_score r l).
Proof.
  induction 1 as [| h l Hl IH Hh]; cbn [insert_by_score].
  - repeat constructor.
  - destruct (Z.ltb_spec (dna_score r) (dna_score h)) as [Hlt | Hge].
    + constructor; [exact IH |].
      rewrite <- (insert_by_score_perm r l). constructor; [unfold score_desc; lia | exact Hh].
    + constructor; [now constructor |].
      constructor; [exact Hge |].
      eapply Forall_impl; [| exact Hh]. unfold score_desc. intros x Hx. lia.
Qed.

(** The answer of the modelled database is one of the answers SQL allows. *)
Lemma order_by_dna_score_desc_ordered (table : list StatsRow) :
  ordered_by_dna_score_desc table (order_by_dna_score_desc table).
Proof.
  unfold ordered_by_dna_score_desc, order_by_dna_score_desc.
  induction table as [| r table [IHp IHs]]; cbn [fold_right].
  - split; constructor.
  - split.
    + rewrite <- insert_by_score_perm. now apply perm_skip.
    + now apply insert_by_score_sorted.
Qed.

Lemma sorted_nth (l : list StatsRow) :
  StronglySorted score_desc l ->
  forall i j ri rj,
    nth_error l i = Some ri -> nth_error l j = Some rj -> (i < j)%nat ->
    dna_score rj <= dna_score ri.
Proof.
  induction 1 as [| h l Hl IH Hh]; intros i j ri rj Hi Hj Hij.
  - destruct i; discriminate.
  - destruct j as [| j]; [lia |]. cbn in Hj.
    destruct i as [| i]; cbn in Hi.
    + injection Hi as <-. rewrite Forall_forall in Hh.
      apply (Hh rj). eapply nth_error_In; eassumption.
    + apply (IH i j); auto. lia.
Qed.

Lemma row_number_nth (l : list StatsRow) :
  forall k i,
    nth_error (row_number k l) i
    = option_map (fun r => {| rank := k + Z.of_nat i; rr_address := address r |})
                 (nth_error l i).
Proof.
  induction l as [| r l IH]; intros k i.
  - destruct i; reflexivity.
  - destruct i as [| i]; cbn [row_number nth_error option_map].
    + now rewrite Z.add_0_r.
    + rewrite IH. destruct (nth_error l i); cbn; [| reflexivity].
      do 2 f_equal. lia.
Qed.

Lemma row_number_ranks (l : list StatsRow) :
  forall k, map rank (row_number (Z.of_nat k) l) = map Z.of_nat (seq k (List.length l)).
Proof.
  induction l as [| r l IH]; intros k; [reflexivity |].
  cbn [row_number map List.length seq rank]. f_equal.
  rewrite <- IH. do 2 f_equal. lia.
Qed.




(** ** Further properties of the indexer *)

Lemma getPoolInfo_quiet (this : Indexer) (poolId : string) (w : World) :
  let run := getPoolInfo this poolId w in
  (exists found, fst run = Ok found)
  /\ db (snd run) = db w
  /\ calls (snd run) = calls w
  /\ net (snd run) = net w
  /\ exists ok, journal (snd run) = journal w ++ [(SelectPool poolId, ok)].
Proof.
  cbv zeta. unfold getPoolInfo, try_catch. rewrite bind_query.
  destruct (faults w (List.length (journal w))).
  - simp. unfold logger, ret, bind. simp. eauto 10.
  - simp. destruct (select_pool poolId (db w)) as [| row rows].
    + destruct (graphService this) as [getPoolById |].
      * rewrite bind_bind, bind_lift.
        destruct (getPoolById poolId) as [[d |] | e];
          unfold logger, ret, bind; cbn; eauto 10.
      * unfold logger, ret, bind; simp; eauto 10.
    + unfold ret. simp. eauto 10.
Qed.

(** X1. [getPoolInfo] never throws. When the query is rejected it returns
    null; otherwise the first row of [pools] for the id is the answer, and
    only without such a row is the graph service asked, whose failure, null
    or absence is null as well. The call sends that one SELECT, leaves the
    database and the websocket module as they were, and logs a line exactly
    when the answer is null. *)
Theorem getPoolInfo_never_throws (this : Indexer) (poolId : string) (w : World) :
  let run := getPoolInfo this poolId w in
  let rejected := faults w (List.length (journal w)) in
  fst run = Ok (if rejected then None
                else match select_pool poolId (db w) with
                     | row :: _ => Some (info_of_row row)
                     | [] => graph_lookup this poolId
                     end)
  /\ db (snd run) = db w
  /\ calls (snd run) = calls w
  /\ net (snd run) = net w
  /\ since (journal w) (journal (snd run)) = [(SelectPool poolId, negb rejected)]
  /\ List.length (since (logged w) (logged (snd run)))
     = match fst run with
       | Ok (Some _) => 0%nat
       | _ => 1%nat
       end.
Proof.
  cbv zeta. unfold getPoolInfo, try_catch, graph_lookup. rewrite bind_query.
  destruct (faults w (List.length (journal w))).
  - simp. unfold logger, ret, bind. simp. rewrite !since_app. repeat split.
  - simp. destruct (select_pool poolId (db w)) as [| row rows].
    + destruct (graphService this) as [getPoolById |].
      * rewrite bind_bind, bind_lift.
        destruct (getPoolById poolId) as [[d |] | e];
          unfold logger, ret, bind; cbn; rewrite ?since_app, ?since_same; repeat split.
      * unfold logger, ret, bind; simp; rewrite ?since_app, ?since_same; repeat split.
    + unfold ret. simp. rewrite ?since_app, ?since_same. repeat split.
Qed.

Lemma getTokenSymbol_eq (this : Indexer) (token : string) (w : World) :
  getTokenSymbol this token w
  = (Ok (symbol_or_address this token),
     match symbol this token with
     | Ok _ => w
     | Throw e =>
         record_log {| log_level := Warn; log_text := "Could not get symbol for token";
                       log_args := [JStr token; exn_value e] |} w
     end).
Proof.
  unfold getTokenSymbol, try_catch, lift, symbol_or_address.
  destruct (symbol this token); reflexivity.
Qed.

Lemma bind_getTokenSymbol {B : Type} (this : Indexer) (token : string)
      (k : string -> M B) (w : World) :
  bind (getTokenSymbol this token) k w
  = k (symbol_or_address this token) (snd (getTokenSymbol this token w)).
Proof. unfold bind. rewrite getTokenSymbol_eq. reflexivity. Qed.

Lemma getTokenSymbol_world (this : Indexer) (token : string) (w : World) :
  db (snd (getTokenSymbol this token w)) = db w
  /\ journal (snd (getTokenSymbol this token w)) = journal w
  /\ calls (snd (getTokenSymbol this token w)) = calls w
  /\ net (snd (getTokenSymbol this token w)) = net w
  /\ faults (snd (getTokenSymbol this token w)) = faults w.
Proof. rewrite getTokenSymbol_eq. destruct (symbol this token); repeat split. Qed.

(** X2. [getTokenSymbol] never throws: it returns the symbol the contract
    gives, and the token address itself when the contract call throws,
    after one warning with the error; nothing else changes. *)
Theorem token_symbol_falls_back_to_address (this : Indexer) (token : string) (w : World) :
  let run := getTokenSymbol this token w in
  fst run = Ok (match symbol this token with
                | Ok s => s
                | Throw _ => token
                end)
  /\ db (snd run) = db w
  /\ journal (snd run) = journal w
  /\ calls (snd run) = calls w
  /\ net (snd run) = net w
  /\ since (logged w) (logged (snd run))
     = match symbol this token with
       | Ok _ => []
       | Throw e => [{| log_level := Warn; log_text := "Could not get symbol for token";
                        log_args := [JStr token; exn_value e] |}]
       end.
Proof.
  cbv zeta. unfold getTokenSymbol, try_catch, lift.
  destruct (symbol this token); cbn; rewrite ?since_app, ?since_same; repeat split.
Qed.

Lemma checkLeaderboardChange_eq (a : string) (w : World) :
  checkLeaderboardChange a w
  = (Ok None,
     if faults w (List.length (journal w))
     then record_log {| log_level := Error; log_text := "Error checking leaderboard change:";
                        log_args := [exn_value (DbError (List.length (journal w)))] |}
            (record_stmt SelectRanks false w)
     else record_stmt SelectRanks true (set_db (db w) w)).
Proof.
  unfold checkLeaderboardChange, try_catch. rewrite bind_query.
  destruct (faults w (List.length (journal w))); reflexivity.
Qed.

(** X3. [checkLeaderboardChange] returns null whether the ranking query
    succeeds or is rejected: a rejection is logged as an error and not
    thrown. The call sends that one query and changes nothing else. *)
Theorem ranking_query_failure_is_swallowed (a : string) (w : World) :
  let run := checkLeaderboardChange a w in
  fst run = Ok None
  /\ db (snd run) = db w
  /\ calls (snd run) = calls w
  /\ net (snd run) = net w
  /\ since (journal w) (journal (snd run))
     = [(SelectRanks, negb (faults w (List.length (journal w))))]
  /\ since (logged w) (logged (snd run))
     = if faults w (List.length (journal w))
       then [{| log_level := Error; log_text := "Error checking leaderboard change:";
                log_args := [exn_value (DbError (List.length (journal w)))] |}]
       else [].
Proof.
  cbv zeta. rewrite checkLeaderboardChange_eq.
  destruct (faults w (List.length (journal w))); cbn;
    rewrite ?since_app, ?since_same; repeat split.
Qed.

Lemma bind_returned {A B : Type} (m : M A) (k : A -> M B) (w w1 : World) (a : A) :
  m w = (Ok a, w1) -> bind m k w = k a w1.
Proof. intros E. unfold bind. now rewrite E. Qed.

Lemma bind_thrown {A B : Type} (m : M A) (k : A -> M B) (w w1 : World) (e : Exn) :
  m w = (Throw e, w1) -> bind m k w = (Throw e, w1).
Proof. intros E. unfold bind. now rewrite E. Qed.

(** X4. A swap in a pool that [getPoolInfo] does not find is dropped:
    [processSwap] returns after a warning, having sent no statement but the
    pool SELECT, stored nothing and broadcast nothing. *)
Theorem unknown_pool_is_skipped (schema : Schema) (this : Indexer) (event : SwapEvent)
        (poolId sender : string) (amount0 amount1 : Z) (w : World) :
  let run := processSwap schema this event poolId sender amount0 amount1 w in
  fst (getPoolInfo this poolId w) = Ok None ->
  fst run = Ok tt
  /\ db (snd run) = db w
  /\ calls (snd run) = calls w
  /\ net (snd run) = net w
  /\ (exists ok, since (journal w) (journal (snd run)) = [(SelectPool poolId, ok)])
  /\ exists earlier,
       logged (snd run)
       = earlier ++ [{| log_level := Warn; log_text := "Could not get pool info for poolId";
                        log_args := [JStr poolId] |}].
Proof.
  cbv zeta. intros Hnone.
  destruct (getPoolInfo_quiet this poolId w) as (_ & Hdb & Hcalls & Hnet & ok & Hj).
  destruct (getPoolInfo this poolId w) as [r w1] eqn:E. cbn [fst snd] in *. subst r.
  unfold processSwap, try_catch. rewrite (bind_returned _ _ _ _ _ E).
  unfold logger. cbn [fst snd db calls net journal logged record_log].
  rewrite Hdb, Hcalls, Hnet, Hj, since_app. repeat split; eauto.
Qed.

Lemma unknown_pool_is_skipped_witness :
  let run := processSwap Scenario.schema (Scenario.indexer true) Scenario.swap_event
               "0xnone" "0xBB" 1000000000000000000 (-2000000)
               (Scenario.world Scenario.never) in
  fst (getPoolInfo (Scenario.indexer true) "0xnone" (Scenario.world Scenario.never)) = Ok None
  /\ fst run = Ok tt
  /\ db (snd run) = db (Scenario.world Scenario.never).
Proof.
  cbv zeta. split; [reflexivity |].
  destruct (unknown_pool_is_skipped Scenario.schema (Scenario.indexer true)
              Scenario.swap_event "0xnone" "0xBB" 1000000000000000000 (-2000000)
              (Scenario.world Scenario.never) eq_refl) as (H1 & H2 & _).
  split; assumption.
Defined.

Ltac run_all :=
  repeat (simp; first [exec1 | rewrite checkLeaderboardChange_eq | split1]);
  simp; unfold logger, throw, ret; simp;
  repeat rewrite <- app_assoc; cbn [app]; rewrite ?since_app, ?since_same.

(** X10. When [updateDNAScore] throws, it has changed no row, made no call
    on the websocket module and not sent the ranking query, and the one
    line it has logged is the error it throws. *)
Theorem failed_recompute_is_silent (this : Indexer) (a : string) (w : World) (e : Exn) :
  let run := updateDNAScore this a w in
  fst run = Throw e ->
  db (snd run) = db w
  /\ calls (snd run) = calls w
  /\ net (snd run) = net w
  /\ existsb is_ranking_query (since (journal w) (journal (snd run))) = false
  /\ since (logged w) (logged (snd run)) = [score_update_line a e].
Proof.
  cbv zeta. unfold updateDNAScore, try_catch.
  destruct (websocketServer this); run_all.
  all: try discriminate.
  all: intros [= <-]; repeat split.
Qed.

Lemma failed_recompute_is_silent_witness :
  let run := updateDNAScore Cases.no_score_service "0xbb" (Scenario.world Scenario.never) in
  fst run = Throw (ServiceError "score")
  /\ calls (snd run) = []
  /\ since (logged (Scenario.world Scenario.never)) (logged (snd run))
     = [score_update_line "0xbb" (ServiceError "score")].
Proof.
  cbv zeta. split; [reflexivity |].
  destruct (failed_recompute_is_silent Cases.no_score_service "0xbb"
              (Scenario.world Scenario.never) (ServiceError "score") eq_refl)
    as (_ & H2 & _ & _ & H5).
  split; assumption.
Defined.

(** X11. For a user without a [user_stats] row, [updateDNAScore] writes
    nothing and broadcasts nothing. When it returns, it has sent its three
    SELECTs and logged one warning; when it throws, a SELECT was rejected
    and that error is the one line logged. *)
Theorem missing_stats_row_is_skipped (this : Indexer) (a : string) (w : World) :
  let run := updateDNAScore this a w in
  select_user_stats a (db w) = [] ->
  db (snd run) = db w
  /\ calls (snd run) = calls w
  /\ net (snd run) = net w
  /\ match fst run with
     | Ok _ =>
         since (journal w) (journal (snd run))
         = [(SelectActiveDays a, true); (SelectFirstAction a, true); (SelectUserStats a, true)]
         /\ since (logged w) (logged (snd run))
            = [{| log_level := Warn; log_text := "No stats found for"; log_args := [JStr a] |}]
     | Throw e =>
         since (logged w) (logged (snd run)) = [score_update_line a e]
     end.
Proof.
  cbv zeta. intros Hnone. unfold updateDNAScore, try_catch.
  repeat (simp; first [exec1 | rewrite Hnone
                      | match goal with
                        | |- context [if faults ?w ?n then _ else _] => destruct (faults w n)
                        end]).
  all: simp; unfold logger, throw, ret; simp;
    repeat rewrite <- app_assoc; cbn [app]; rewrite ?since_app, ?since_same.
  all: repeat split.
Qed.

Lemma missing_stats_row_is_skipped_witness :
  let run := updateDNAScore (Scenario.indexer true) "0xcc" (Scenario.world Scenario.never) in
  select_user_stats "0xcc" (db (Scenario.world Scenario.never)) = []
  /\ fst run = Ok tt
  /\ db (snd run) = db (Scenario.world Scenario.never)
  /\ calls (snd run) = [].
Proof.
  cbv zeta. split; [reflexivity |]. split; [reflexivity |].
  destruct (missing_stats_row_is_skipped (Scenario.indexer true) "0xcc"
              (Scenario.world Scenario.never) eq_refl) as (H1 & H2 & _).
  split; assumption.
Defined.

Lemma update_score_rows (a : string) (s : Z) (t : string) (now : Z) (d : Database) :
  (forall r, In r (user_stats (update_score a s t now d)) ->
             address r = a -> dna_score r = s /\ tier r = t)
  /\ (forall b, b <> a ->
        select_user_stats b (update_score a s t now d) = select_user_stats b d)
  /\ users (update_score a s t now d) = users d
  /\ user_actions (update_score a s t now d) = user_actions d
  /\ pools (update_score a s t now d) = pools d.
Proof.
  unfold update_score, set_user_stats, select_user_stats. cbn [user_stats users user_actions pools].
  split; [| split; [| repeat split]].
  - intros r Hin Ha. apply in_map_iff in Hin as (r0 & <- & _).
    destruct (String.eqb (address r0) a) eqn:E; cbn; [split; reflexivity |].
    apply String.eqb_neq in E. cbn in Ha. contradiction.
  - intros b Hb. induction (user_stats d) as [| r rows IH]; [reflexivity |].
    cbn [map filter]. rewrite IH.
    destruct (String.eqb (address r) a) eqn:E; [| reflexivity].
    apply String.eqb_eq in E. cbn [address].
    destruct (String.eqb (address r) b) eqn:E'; [| reflexivity].
    apply String.eqb_eq in E'. congruence.
Qed.

(** X12. A score UPDATE that the database accepts in [updateDNAScore]
    carries the score that the score service computes from the first stats
    row of the user, the active days and the days since the first action
    read from the database, and the tier of that score. *)
Theorem score_write_is_consistent
        (this : Indexer) (a : string) (w : World) (s : Z) (t : string) :
  let run := updateDNAScore this a w in
  let now := Broadcaster.clock (net w) in
  In (UpdateScore a s t, true) (since (journal w) (journal (snd run))) ->
  t = dnaScoreService_getTier this s
  /\ exists row rest,
       select_user_stats a (db w) = row :: rest
       /\ dnaScoreService_calculateScore this row
            (select_active_days a (db w))
            (match select_first_action a (db w) with
             | Some first => (now - first) / ms_per_day
             | None => 0
             end) = Ok s.
Proof.
  cbv zeta. unfold updateDNAScore, try_catch.
  destruct (websocketServer this);
    repeat (simp; first [ exec1 | rewrite checkLeaderboardChange_eq
                        | match goal with
                          | |- context [if faults ?w ?n then _ else _] => destruct (faults w n)
                          | |- context [match select_user_stats ?a ?d with _ => _ end] =>
                              destruct (select_user_stats a d) eqn:?
                          | |- context [match dnaScoreService_calculateScore ?i ?r ?x ?y with _ => _ end] =>
                              destruct (dnaScoreService_calculateScore i r x y) eqn:?
                          end ]).
  all: simp; unfold logger, throw, ret; simp;
    repeat rewrite <- app_assoc; cbn [app]; rewrite ?since_app, ?since_same.
  all: cbn [In]; intros H; repeat destruct H as [H | H]; try discriminate H; try contradiction.
  all: injection H as <- <-; repeat split; eauto.
Qed.

Lemma score_write_is_consistent_witness :
  let w := Scenario.world Scenario.never in
  let run := updateDNAScore (Scenario.indexer true) "0xbb" w in
  In (UpdateScore "0xbb" 50 "Beginner", true) (since (journal w) (journal (snd run)))
  /\ "Beginner" = dnaScoreService_getTier (Scenario.indexer true) 50.
Proof.
  cbv zeta.
  assert (H : In (UpdateScore "0xbb" 50 "Beginner", true)
                 (since (journal (Scenario.world Scenario.never))
                        (journal (snd (updateDNAScore (Scenario.indexer true) "0xbb"
                                         (Scenario.world Scenario.never)))))).
  { vm_compute. auto 10. }
  split; [exact H |].
  exact (proj1 (score_write_is_consistent (Scenario.indexer true) "0xbb"
                  (Scenario.world Scenario.never) 50 "Beginner" H)).
Defined.

(** X5. When the price feed throws for token0, or for token1 after
    answering for token0, [processSwap] throws that error after logging it:
    no transaction is opened, nothing is stored and nothing is broadcast.
    The prices are asked with the symbols of [getTokenSymbol]. *)
Theorem price_feed_failure_stops_swap
        (schema : Schema) (this : Indexer) (event : SwapEvent)
        (poolId sender : string) (amount0 amount1 : Z) (w : World)
        (info : PoolInfo) (e : Exn) :
  let run := processSwap schema this event poolId sender amount0 amount1 w in
  let price0 := priceFeedService_getPrice this (pi_token0 info)
                  (symbol_or_address this (pi_token0 info)) in
  let price1 := priceFeedService_getPrice this (pi_token1 info)
                  (symbol_or_address this (pi_token1 info)) in
  fst (getPoolInfo this poolId w) = Ok (Some info) ->
  price0 = Throw e \/ ((exists p, price0 = Ok p) /\ price1 = Throw e) ->
  fst run = Throw e
  /\ db (snd run) = db w
  /\ calls (snd run) = calls w
  /\ net (snd run) = net w
  /\ (exists ok, since (journal w) (journal (snd run)) = [(SelectPool poolId, ok)])
  /\ exists earlier,
       logged (snd run) = earlier ++ [swap_error_line (toLowerCase sender) e].
Proof.
  cbv zeta. intros Hinfo Hprice.
  destruct (getPoolInfo_quiet this poolId w) as (_ & Hdb & Hcalls & Hnet & ok & Hj).
  destruct (getPoolInfo this poolId w) as [r w1] eqn:E. cbn [fst snd] in *. subst r.
  unfold processSwap, try_catch. rewrite (bind_returned _ _ _ _ _ E).
  rewrite !bind_getTokenSymbol.
  destruct (getTokenSymbol_world this (pi_token1 info)
              (snd (getTokenSymbol this (pi_token0 info) w1))) as (D1 & J1 & C1 & N1 & _).
  destruct (getTokenSymbol_world this (pi_token0 info) w1) as (D0 & J0 & C0 & N0 & _).
  rewrite bind_lift.
  destruct Hprice as [-> | [[p ->] H1]].
  - unfold bind, logger, throw. cbn [fst snd db calls net journal logged record_log].
    rewrite D1, C1, N1, J1, D0, C0, N0, J0, Hdb, Hcalls, Hnet, Hj, since_app.
    repeat split; eauto.
  - rewrite bind_lift, H1.
    unfold bind, logger, throw. cbn [fst snd db calls net journal logged record_log].
    rewrite D1, C1, N1, J1, D0, C0, N0, J0, Hdb, Hcalls, Hnet, Hj, since_app.
    repeat split; eauto.
Qed.

Lemma price_feed_failure_stops_swap_witness :
  let run := processSwap Scenario.schema Cases.no_price_feed Scenario.swap_event
               "0xpool" "0xBB" 1000000000000000000 (-2000000)
               (Scenario.world Scenario.never) in
  fst (getPoolInfo Cases.no_price_feed "0xpool" (Scenario.world Scenario.never))
  = Ok (Some (info_of_row Scenario.pool))
  /\ fst run = Throw (ServiceError "feed")
  /\ db (snd run) = db (Scenario.world Scenario.never).
Proof.
  cbv zeta. split; [reflexivity |].
  destruct (price_feed_failure_stops_swap Scenario.schema Cases.no_price_feed
              Scenario.swap_event "0xpool" "0xBB" 1000000000000000000 (-2000000)
              (Scenario.world Scenario.never) (info_of_row Scenario.pool)
              (ServiceError "feed") eq_refl (or_introl eq_refl)) as (H1 & H2 & _).
  split; assumption.
Defined.

Lemma no_user_action_refl (w : World) : no_user_action w w.
Proof. exists [], []. now rewrite !app_nil_r. Qed.

Lemma no_user_action_trans (w1 w2 w3 : World) :
  no_user_action w1 w2 -> no_user_action w2 w3 -> no_user_action w1 w3.
Proof.
  intros (c1 & j1 & C1 & J1 & H1) (c2 & j2 & C2 & J2 & H2).
  exists (c1 ++ c2), (j1 ++ j2). rewrite C2, C1, J2, J1, !app_assoc, existsb_app, H1, H2.
  repeat split.
Qed.

Lemma no_user_action_stmt (s : Stmt) (ok : bool) (d : Database) (w : World) :
  s <> Rollback -> no_user_action w (record_stmt s ok (set_db d w)).
Proof. intros _. exists [], [(s, ok)]. cbn. now rewrite app_nil_r. Qed.

Lemma no_user_action_log (l : LogLine) (w : World) : no_user_action w (record_log l w).
Proof. exists [], []. cbn. now rewrite !app_nil_r. Qed.

Lemma outcome_of_quiet (a poolId : string) {A : Type} (m : M A) :
  preserves no_user_action m -> outcome a poolId m.
Proof.
  intros Hm w. destruct (Hm w) as (dc & dj & C & J & H).
  exists dc, dj. auto.
Qed.

Lemma outcome_bind (a poolId : string) {A B : Type} (m : M A) (k : A -> M B) :
  preserves no_user_action m -> (forall x, outcome a poolId (k x)) ->
  outcome a poolId (bind m k).
Proof.
  intros Hm Hk w. unfold bind. specialize (Hm w).
  destruct (m w) as [[y | e] w1]; cbn [fst snd] in *.
  - destruct Hm as (c1 & j1 & C1 & J1 & H1).
    destruct (Hk y w1) as (c2 & j2 & C2 & J2 & H2).
    exists (c1 ++ c2), (j1 ++ j2). rewrite C2, C1, J2, J1, !app_assoc.
    split; [reflexivity |]. split; [reflexivity |].
    destruct H2 as [H2 | (x & earlier & p & row & Hr & -> & He & Hin & Hcm & Hp)].
    + left. now rewrite existsb_app, H1, H2.
    + right. exists x, (c1 ++ earlier), p, row.
      split; [exact Hr |]. split; [now rewrite app_assoc |].
      split; [now rewrite existsb_app, H1, He |].
      split; [apply in_or_app; now right |].
      split; [apply in_or_app; now right | exact Hp].
  - destruct Hm as (c1 & j1 & C1 & J1 & H1). exists c1, j1. auto.
Qed.

Lemma outcome_rethrow (a poolId : string) {A : Type} (m : M A) (level : LogLevel)
      (text : string) (args : Exn -> list Json) :
  outcome a poolId m ->
  outcome a poolId (try_catch m (fun error => bind (logger level text (args error))
                                                   (fun _ => throw error))).
Proof.
  intros Hm w. unfold try_catch. specialize (Hm w).
  destruct (m w) as [[y | e] w1]; cbn [fst snd] in *; [exact Hm |].
  destruct Hm as (dc & dj & C & J & H). exists dc, dj. cbn. repeat split; auto.
Qed.

Lemma bind_try_catch {A B : Type} (m : M A) (handler : Exn -> M A) (k : A -> M B)
      (w : World) :
  bind (try_catch m handler) k w
  = match m w with
    | (Ok a, w1) => k a w1
    | (Throw e, w1) => bind (handler e) k w1
    end.
Proof. unfold bind, try_catch. destruct (m w) as [[a | e] w1]; reflexivity. Qed.

Lemma bind_throw {A B : Type} (e : Exn) (k : A -> M B) (w : World) :
  bind (throw e) k w = (Throw e, w).
Proof. reflexivity. Qed.

Lemma bind_broadcastUserAction {B : Type} (payload : UserAction) (k : unit -> M B)
      (w : World) :
  bind (websocketServer_broadcastUserAction payload) k w
  = k tt (record_call (CallUserAction payload)
            (snd (Broadcaster.broadcastUserAction payload (net w))) w).
Proof. reflexivity. Qed.

Lemma bind_withTransaction {A B : Type} (callback : M A) (k : A -> M B) (w : World) :
  bind (withTransaction callback) k w
  = match bind (query Begin (reading (fun _ => tt)))
            (fun _ => bind callback
                        (fun result => bind (query Commit (reading (fun _ => tt)))
                                            (fun _ => ret result))) w with
    | (Ok a, w1) => k a w1
    | (Throw e, w1) => (Throw e, record_stmt Rollback true (set_db (db w) w1))
    end.
Proof.
  unfold bind at 1. unfold withTransaction, try_catch.
  match goal with
  | |- context [match ?body w with _ => _ end] => destruct (body w) as [[a | e] w1]
  end; reflexivity.
Qed.

Lemma logger_run (level : LogLevel) (text : string) (args : list Json) (w : World) :
  logger level text args w
  = (Ok tt, record_log {| log_level := level; log_text := text; log_args := args |} w).
Proof. reflexivity. Qed.

Lemma ret_run {A : Type} (a : A) (w : World) : ret a w = (Ok a, w).
Proof. reflexivity. Qed.

Lemma throw_run {A : Type} (e : Exn) (w : World) : @throw A e w = (Throw e, w).
Proof. reflexivity. Qed.

Ltac quiet :=
  repeat first
    [ apply (preserves_bind no_user_action no_user_action_trans)
    | apply (preserves_getPoolInfo no_user_action no_user_action_refl no_user_action_trans
               no_user_action_stmt no_user_action_log)
    | apply (preserves_getTokenSymbol no_user_action no_user_action_refl
               no_user_action_trans no_user_action_log)
    | apply (preserves_logger no_user_action no_user_action_log)
    | apply (preserves_ret no_user_action no_user_action_refl)
    | apply (preserves_lift no_user_action no_user_action_refl)
    | match goal with
      | |- forall _, _ => intro
      | |- preserves _ (if ?b then _ else _) => destruct b
      end ].

Lemma processSwap_outcome (schema : Schema) (this : Indexer) (event : SwapEvent)
      (poolId sender : string) (amount0 amount1 : Z) :
  outcome (toLowerCase sender) poolId
    (processSwap schema this event poolId sender amount0 amount1).
Proof.
  unfold processSwap. apply outcome_rethrow.
  apply outcome_bind; [quiet |]. intros [info |]; [| apply outcome_of_quiet; quiet].
  do 5 (apply outcome_bind; [quiet | intro]).
  intros world. rewrite bind_withTransaction. unfold updateDNAScore.
  repeat (simp; first [ exec1 | rewrite bind_try_catch | rewrite bind_throw
                      | rewrite bind_broadcastUserAction
                      | rewrite logger_run | rewrite ret_run | rewrite throw_run
                      | rewrite checkLeaderboardChange_eq | split1
                      | match goal with
                        | |- context [if websocketServer ?t then _ else _] =>
                            destruct (websocketServer t)
                        end ]).
  all: simp; unfold logger, throw, ret; simp.
  all: unfold swap_outcome; simp; repeat rewrite <- app_assoc; cbn [app].
  all: do 2 eexists;
    (split; [first [reflexivity | symmetry; apply app_nil_r] |]);
    (split; [first [reflexivity | symmetry; apply app_nil_r] |]).
  all: first
    [ left; reflexivity
    | right; do 4 eexists; split; [reflexivity |];
      split; [first [ exact (eq_refl : [_] = [] ++ [_])
                    | exact (eq_refl : [_; _] = [_] ++ [_]) ] |];
      split; [reflexivity |];
      split; [cbn [In]; eauto 20 |];
      split; [cbn [In]; eauto 20 | repeat split] ].
Qed.



(** X6. Every INSERT of a user action that a run of [processSwap] sends
    is for a pool that [getPoolInfo] found and two prices that the feed
    answered, and its parameters are the lower-cased sender, the pool, the
    two amounts, the transaction hash and the block of the event, and the
    USD value computed in doubles from the price feed: the value in token0
    when its price is usable, else the value in token1, else null. The
    UPDATE of the user's stats in the same run is given the same value. The
    sender is an ASCII string, as the text of an address is. *)
Theorem stored_usd_follows_price_feed
        (schema : Schema) (this : Indexer) (event : SwapEvent)
        (poolId sender : string) (amount0 amount1 : Z) (w : World)
        (row : ActionRow) (ok : bool) :
  let run := processSwap schema this event poolId sender amount0 amount1 w in
  ascii_only sender = true ->
  In (InsertUserAction row, ok) (since (journal w) (journal (snd run))) ->
  exists info price0 price1,
    fst (getPoolInfo this poolId w) = Ok (Some info)
    /\ priceFeedService_getPrice this (pi_token0 info)
         (symbol_or_address this (pi_token0 info)) = Ok price0
    /\ priceFeedService_getPrice this (pi_token1 info)
         (symbol_or_address this (pi_token1 info)) = Ok price1
    /\ act_address row = toLowerCase sender
    /\ act_protocol_version row = "v4"
    /\ act_action_type row = "swap"
    /\ act_pool_id row = poolId
    /\ act_amount0 row = amount0
    /\ act_amount1 row = amount1
    /\ act_amount_usd row = priced amount0 amount1 price0 price1
    /\ act_tx_hash row = transactionHash event
    /\ act_block_number row = blockNumber event
    /\ forall b usd ok', In (UpdateUserStats b usd, ok')
                            (since (journal w) (journal (snd run))) ->
                         b = toLowerCase sender
                         /\ usd = priced amount0 amount1 price0 price1.
Proof.
  cbv zeta. intros _.
  destruct (getPoolInfo_quiet this poolId w) as ([found Hfound] & Hdb & Hcalls & Hnet & sel & Hj).
  destruct (getPoolInfo this poolId w) as [r w1] eqn:E. cbn [fst snd] in *. subst r.
  unfold processSwap, try_catch. rewrite (bind_returned _ _ _ _ _ E).
  destruct found as [info |].
  2:{ unfold logger. cbn [fst snd journal record_log]. rewrite Hj, since_app.
      intros [H | []]. discriminate H. }
  rewrite !bind_getTokenSymbol.
  destruct (getTokenSymbol_world this (pi_token1 info)
              (snd (getTokenSymbol this (pi_token0 info) w1))) as (_ & J1 & _ & N1 & _).
  destruct (getTokenSymbol_world this (pi_token0 info) w1) as (_ & J0 & _ & N0 & _).
  assert (J3 : journal (snd (getTokenSymbol this (pi_token1 info)
                               (snd (getTokenSymbol this (pi_token0 info) w1))))
               = journal w ++ [(SelectPool poolId, sel)]) by (rewrite J1, J0; exact Hj).
  assert (N3 : net (snd (getTokenSymbol this (pi_token1 info)
                           (snd (getTokenSymbol this (pi_token0 info) w1))))
               = net w) by (rewrite N1, N0; exact Hnet).
  clear J1 J0 N1 N0 Hj Hnet Hdb Hcalls E.
  revert J3 N3.
  generalize (snd (getTokenSymbol this (pi_token1 info)
                     (snd (getTokenSymbol this (pi_token0 info) w1)))).
  intros w3 J3 N3.
  rewrite bind_lift.
  destruct (priceFeedService_getPrice this (pi_token0 info)
              (symbol_or_address this (pi_token0 info))) as [price0 | e0] eqn:P0.
  2:{ unfold bind, logger, throw. cbn [fst snd journal record_log]. rewrite J3, since_app.
      intros [H | []]. discriminate H. }
  rewrite bind_lift.
  destruct (priceFeedService_getPrice this (pi_token1 info)
              (symbol_or_address this (pi_token1 info))) as [price1 | e1] eqn:P1.
  2:{ unfold bind, logger, throw. cbn [fst snd journal record_log]. rewrite J3, since_app.
      intros [H | []]. discriminate H. }
  intros Hin. exists info, price0, price1.
  split; [reflexivity |]. split; [exact P0 |]. split; [exact P1 |].
  clear P0 P1. revert Hin.
  match goal with
  | |- context [bind ?m ?k w3] =>
      assert (Husd : exists w4, bind m k w3 = k (priced amount0 amount1 price0 price1) w4
                                /\ journal w4 = journal w ++ [(SelectPool poolId, sel)]
                                /\ net w4 = net w)
  end.
  { unfold priced. destruct (truthy price0); [| destruct (truthy price1)];
      rewrite ?bind_bind, ?bind_logger, ?bind_ret; eexists; split; try reflexivity;
      split; assumption. }
  destruct Husd as (w4 & -> & J4 & N4). clear J3 N3 w3.
  generalize (priced amount0 amount1 price0 price1). intros amountUsd.
  rewrite bind_withTransaction; unfold updateDNAScore.
  repeat (simp; first [ exec1 | rewrite bind_try_catch | rewrite bind_throw
                      | rewrite bind_broadcastUserAction
                      | rewrite logger_run | rewrite ret_run | rewrite throw_run
                      | rewrite checkLeaderboardChange_eq | split1
                      | match goal with
                        | |- context [if websocketServer ?t then _ else _] =>
                            destruct (websocketServer t)
                        end ]).
  all: simp; unfold logger, throw, ret; simp.
  all: rewrite ?J4, ?N4; repeat rewrite <- app_assoc; cbn [app]; rewrite ?since_app.
  all: cbn [In]; intros H; repeat destruct H as [H | H]; try discriminate H; try contradiction.
  all: injection H as <-; do 9 (split; [reflexivity |]).
  all: intros b usd ok' H'; repeat destruct H' as [H' | H'];
    try discriminate H'; try contradiction.
  all: injection H' as <- <-; split; reflexivity.
Qed.

Lemma stored_usd_follows_price_feed_witness :
  let run := processSwap Scenario.schema Cases.priced_at_three Scenario.swap_event
               "0xpool" "0xBB" 100000000000000000 (-2000000)
               (Scenario.world Scenario.never) in
  ascii_only "0xBB" = true
  /\ In (InsertUserAction Cases.tenth_swap, true)
        (since (journal (Scenario.world Scenario.never)) (journal (snd run)))
  /\ act_amount_usd Cases.tenth_swap
     = priced 100000000000000000 (-2000000)
         (Some (Number_of 3)) (Some (Number_of 3)).
Proof.
  cbv zeta.
  assert (H : In (InsertUserAction Cases.tenth_swap, true)
                 (since (journal (Scenario.world Scenario.never))
                        (journal (snd (processSwap Scenario.schema Cases.priced_at_three
                                         Scenario.swap_event
                                         "0xpool" "0xBB" 100000000000000000 (-2000000)
                                         (Scenario.world Scenario.never)))))).
  { vm_compute. auto 10. }
  split; [reflexivity |]. split; [exact H |].
  destruct (stored_usd_follows_price_feed Scenario.schema Cases.priced_at_three
              Scenario.swap_event "0xpool" "0xBB" 100000000000000000 (-2000000)
              (Scenario.world Scenario.never) Cases.tenth_swap true eq_refl H)
    as (info & price0 & price1 & _ & [= <-] & [= <-] & _ & _ & _ & _ & _ & _ & Husd & _).
  exact Husd.
Defined.

Section Keeps.

Variable P : Database -> Prop.

Lemma keeps_ret {A : Type} (a : A) : keeps P (ret a).
Proof. intros w H. exact H. Qed.

Lemma keeps_throw {A : Type} (e : Exn) : keeps P (@throw A e).
Proof. intros w H. exact H. Qed.

Lemma keeps_lift {A : Type} (r : Result A) : keeps P (lift r).
Proof. intros w H. exact H. Qed.

Lemma keeps_Date_now : keeps P Date_now.
Proof. intros w H. exact H. Qed.

Lemma keeps_logger (level : LogLevel) (text : string) (args : list Json) :
  keeps P (logger level text args).
Proof. intros w H. exact H. Qed.

Lemma keeps_broadcastUserUpdate (payload : UserUpdate) :
  keeps P (websocketServer_broadcastUserUpdate payload).
Proof. intros w H. exact H. Qed.

Lemma keeps_broadcastUserAction (payload : UserAction) :
  keeps P (websocketServer_broadcastUserAction payload).
Proof. intros w H. exact H. Qed.

Lemma keeps_broadcastLeaderboardUpdate (type : string) (data : Json) :
  keeps P (websocketServer_broadcastLeaderboardUpdate type data).
Proof. intros w H. exact H. Qed.

Lemma keeps_reading {A : Type} (s : Stmt) (f : Database -> A) :
  keeps P (query s (reading f)).
Proof.
  intros w H. unfold query, reading.
  destruct (faults w (List.length (journal w))); exact H.
Qed.

Lemma keeps_writing (s : Stmt) (f : Database -> Database) :
  (forall d, P d -> P (f d)) -> keeps P (query s (writing f)).
Proof.
  intros Hf w H. unfold query, writing.
  destruct (faults w (List.length (journal w))); cbn; auto.
Qed.

Lemma keeps_bind {A B : Type} (m : M A) (k : A -> M B) :
  keeps P m -> (forall a, keeps P (k a)) -> keeps P (bind m k).
Proof.
  intros Hm Hk w H. unfold bind. specialize (Hm w H).
  destruct (m w) as [[a | e] w1]; cbn [snd] in *; [now apply Hk | exact Hm].
Qed.

Lemma keeps_try_catch {A : Type} (m : M A) (handler : Exn -> M A) :
  keeps P m -> (forall e, keeps P (handler e)) -> keeps P (try_catch m handler).
Proof.
  intros Hm Hh w H. unfold try_catch. specialize (Hm w H).
  destruct (m w) as [[a | e] w1]; cbn [snd] in *; [exact Hm | now apply Hh].
Qed.

(** Committed or rolled back, a transaction keeps what its callback keeps. *)
Lemma keeps_withTransaction {A : Type} (callback : M A) :
  keeps P callback -> keeps P (withTransaction callback).
Proof.
  intros Hcb w H. unfold withTransaction, try_catch.
  match goal with
  | |- context [match ?body w with _ => _ end] =>
      assert (Hbody : keeps P body)
        by (apply keeps_bind; [apply keeps_reading |]; intros _;
            apply keeps_bind; [exact Hcb |]; intros result;
            apply keeps_bind; [apply keeps_reading |]; intros _; apply keeps_ret);
      specialize (Hbody w H); destruct (body w) as [[x | e] w1]
  end; cbn [snd db record_stmt set_db] in *; assumption.
Qed.

Ltac keeps_step :=
  match goal with
  | |- keeps _ (bind _ _) => apply keeps_bind
  | |- keeps _ (try_catch _ _) => apply keeps_try_catch
  | |- keeps _ (withTransaction _) => apply keeps_withTransaction
  | |- keeps _ (query _ (reading _)) => apply keeps_reading
  | |- keeps _ (ret _) => apply keeps_ret
  | |- keeps _ (throw _) => apply keeps_throw
  | |- keeps _ (lift _) => apply keeps_lift
  | |- keeps _ Date_now => apply keeps_Date_now
  | |- keeps _ (logger _ _ _) => apply keeps_logger
  | |- keeps _ (websocketServer_broadcastUserUpdate _) => apply keeps_broadcastUserUpdate
  | |- keeps _ (websocketServer_broadcastUserAction _) => apply keeps_broadcastUserAction
  | |- keeps _ (websocketServer_broadcastLeaderboardUpdate _ _) =>
      apply keeps_broadcastLeaderboardUpdate
  | |- keeps _ (match ?x with _ => _ end) => destruct x
  | |- forall _, _ => intro
  end.

Variable schema : Schema.
Variable this : Indexer.
Variable sender : string.

Hypothesis P_insert_user : forall d, P d -> P (insert_user (toLowerCase sender) d).
Hypothesis P_insert_user_stats :
  forall d, P d -> P (insert_user_stats schema (toLowerCase sender) d).
Hypothesis P_insert_user_action :
  forall row d, act_address row = toLowerCase sender ->
                P d -> P (insert_user_action schema row d).
Hypothesis P_update_user_stats :
  forall usd now d, P d -> P (update_user_stats schema (toLowerCase sender) usd now d).
Hypothesis P_update_score :
  forall s t now d, P d -> P (update_score (toLowerCase sender) s t now d).

Lemma keeps_processSwap (event : SwapEvent) (poolId : string) (amount0 amount1 : Z) :
  keeps P (processSwap schema this event poolId sender amount0 amount1).
Proof.
  unfold processSwap, updateDNAScore, checkLeaderboardChange, getPoolInfo, getTokenSymbol.
  repeat first
    [ keeps_step
    | apply keeps_writing; intros;
      first [ now apply P_insert_user | now apply P_insert_user_stats
            | now apply P_insert_user_action | now apply P_update_user_stats
            | now apply P_update_score ] ].
Qed.

End Keeps.

Lemma not_in_users (a : string) (l : list string) :
  existsb (String.eqb a) l = false -> ~ In a l.
Proof.
  intros H Hin. assert (E : existsb (String.eqb a) l = true).
  { apply existsb_exists. exists a. split; [exact Hin | apply String.eqb_refl]. }
  congruence.
Qed.

Lemma NoDup_snoc {A : Type} (l : list A) (x : A) : NoDup l -> ~ In x l -> NoDup (l ++ [x]).
Proof.
  intros Hl Hx. apply NoDup_app; [exact Hl | repeat constructor; intros [] |].
  intros y Hy [<- | []]. contradiction.
Qed.

Lemma map_address_update (f : StatsRow -> StatsRow) (rows : list StatsRow) :
  (forall r, address (f r) = address r) -> map address (map f rows) = map address rows.
Proof.
  intros Hf. rewrite map_map. apply map_ext. exact Hf.
Qed.

Lemma unique_keys_insert_user (a : string) (d : Database) :
  unique_keys d -> unique_keys (insert_user a d).
Proof.
  intros [Hu Hs]. unfold insert_user.
  destruct (existsb (String.eqb a) (users d)) eqn:E; [now split |].
  split; [| exact Hs]. cbn. apply NoDup_snoc; [exact Hu | now apply not_in_users].
Qed.

Lemma unique_keys_insert_user_stats (schema : Schema) (a : string) (d : Database) :
  default_row_is_keyed schema -> unique_keys d -> unique_keys (insert_user_stats schema a d).
Proof.
  intros Hkey [Hu Hs]. unfold insert_user_stats.
  destruct (existsb (fun r => String.eqb (address r) a) (user_stats d)) eqn:E; [now split |].
  split; [exact Hu |]. cbn. rewrite map_app. cbn [map]. rewrite Hkey.
  apply NoDup_snoc; [exact Hs |].
  intros Hin. apply in_map_iff in Hin as (r & Hr & Hin).
  assert (E' : existsb (fun r => String.eqb (address r) a) (user_stats d) = true).
  { apply existsb_exists. exists r. split; [exact Hin | now apply String.eqb_eq]. }
  congruence.
Qed.

Lemma unique_keys_insert_user_action (schema : Schema) (row : ActionRow) (d : Database) :
  unique_keys d -> unique_keys (insert_user_action schema row d).
Proof.
  intros H. unfold insert_user_action.
  destruct (action_conflict schema row (user_actions d)); exact H.
Qed.

Lemma unique_keys_update_user_stats (schema : Schema) (a : string) (usd : option Number)
      (now : Z) (d : Database) :
  unique_keys d -> unique_keys (update_user_stats schema a usd now d).
Proof.
  intros [Hu Hs]. split; [exact Hu |]. cbn.
  rewrite map_address_update; [exact Hs |].
  intros r. now destruct (String.eqb (address r) a).
Qed.

Lemma unique_keys_update_score (a : string) (s : Z) (t : string) (now : Z) (d : Database) :
  unique_keys d -> unique_keys (update_score a s t now d).
Proof.
  intros [Hu Hs]. split; [exact Hu |]. cbn.
  rewrite map_address_update; [exact Hs |].
  intros r. now destruct (String.eqb (address r) a).
Qed.

(** X8. [processSwap] keeps the primary keys: when no address has two
    rows in [users] or in [user_stats] before a run, none has after it,
    whether the run returns or throws. *)
Theorem swap_keeps_unique_keys
        (schema : Schema) (this : Indexer) (event : SwapEvent)
        (poolId sender : string) (amount0 amount1 : Z) (w : World) :
  default_row_is_keyed schema ->
  unique_keys (db w) ->
  unique_keys (db (snd (processSwap schema this event poolId sender amount0 amount1 w))).
Proof.
  intros Hkey. apply keeps_processSwap.
  - apply unique_keys_insert_user.
  - intros d. now apply unique_keys_insert_user_stats.
  - intros row d _. apply unique_keys_insert_user_action.
  - apply unique_keys_update_user_stats.
  - apply unique_keys_update_score.
Qed.

Lemma swap_keeps_unique_keys_witness :
  default_row_is_keyed Scenario.schema
  /\ unique_keys (db (Scenario.world Scenario.never))
  /\ unique_keys (db (snd (processSwap Scenario.schema (Scenario.indexer true) Scenario.swap_event
               "0xpool" "0xBB" 1000000000000000000 (-2000000)
               (Scenario.world Scenario.never)))).
Proof.
  assert (Hkey : default_row_is_keyed Scenario.schema) by (intros a; reflexivity).
  assert (Hdb : unique_keys (db (Scenario.world Scenario.never))).
  { split; cbn; repeat constructor; cbn; intuition discriminate. }
  split; [exact Hkey |]. split; [exact Hdb |].
  exact (swap_keeps_unique_keys Scenario.schema (Scenario.indexer true)
           Scenario.swap_event "0xpool" "0xBB" 1000000000000000000 (-2000000)
           (Scenario.world Scenario.never) Hkey Hdb).
Defined.

Lemma filter_map_other (b a : string) (f : StatsRow -> StatsRow) (rows : list StatsRow) :
  b <> a -> (forall r, address (f r) = address r) ->
  filter (fun r => String.eqb (address r) b)
         (map (fun r => if String.eqb (address r) a then f r else r) rows)
  = filter (fun r => String.eqb (address r) b) rows.
Proof.
  intros Hb Hf. induction rows as [| r rows IH]; [reflexivity |].
  cbn [map filter]. rewrite IH.
  destruct (String.eqb (address r) a) eqn:E; [| reflexivity].
  apply String.eqb_eq in E. rewrite Hf.
  destruct (String.eqb (address r) b) eqn:E'; [| reflexivity].
  apply String.eqb_eq in E'. congruence.
Qed.

(** X9. [processSwap] writes to the rows of the sender only: the stats
    rows and the actions of every other address, and the pools, are after
    the run what they were before it. *)
Theorem swap_leaves_other_users_alone
        (schema : Schema) (this : Indexer) (event : SwapEvent)
        (poolId sender : string) (amount0 amount1 : Z) (w : World) (b : string) :
  default_row_is_keyed schema ->
  b <> toLowerCase sender ->
  same_for b (db w) (db (snd (processSwap schema this event poolId sender amount0 amount1 w))).
Proof.
  intros Hkey Hb.
  apply (keeps_processSwap (same_for b (db w))); [ | | | | | repeat split ].
  - intros d H. unfold insert_user. destruct (existsb _ _); exact H.
  - intros d (H1 & H2 & H3). unfold insert_user_stats.
    destruct (existsb _ _); [now repeat split |].
    unfold same_for, select_user_stats, actions_of in *. cbn.
    rewrite filter_app. cbn [filter]. rewrite Hkey.
    destruct (String.eqb (toLowerCase sender) b) eqn:E.
    + apply String.eqb_eq in E. congruence.
    + rewrite app_nil_r. now repeat split.
  - intros row d Hrow (H1 & H2 & H3). unfold insert_user_action.
    destruct (action_conflict _ _ _); [now repeat split |].
    unfold same_for, select_user_stats, actions_of in *. cbn.
    rewrite filter_app. cbn [filter]. rewrite Hrow.
    destruct (String.eqb (toLowerCase sender) b) eqn:E.
    + apply String.eqb_eq in E. congruence.
    + rewrite app_nil_r. now repeat split.
  - intros usd now d (H1 & H2 & H3).
    unfold same_for, select_user_stats, actions_of, update_user_stats in *. cbn.
    rewrite filter_map_other; [now repeat split | exact Hb | reflexivity].
  - intros s t now d (H1 & H2 & H3).
    unfold same_for, select_user_stats, actions_of, update_score in *. cbn.
    rewrite filter_map_other; [now repeat split | exact Hb | reflexivity].
Qed.

Lemma swap_leaves_other_users_alone_witness :
  "0xaa" <> toLowerCase "0xBB"
  /\ same_for "0xaa" (db (Scenario.world Scenario.never))
       (db (snd (processSwap Scenario.schema (Scenario.indexer true) Scenario.swap_event
               "0xpool" "0xBB" 1000000000000000000 (-2000000)
               (Scenario.world Scenario.never)))).
Proof.
  assert (Hb : "0xaa" <> toLowerCase "0xBB") by (vm_compute; discriminate).
  split; [exact Hb |].
  exact (swap_leaves_other_users_alone Scenario.schema (Scenario.indexer true)
           Scenario.swap_event "0xpool" "0xBB" 1000000000000000000 (-2000000)
           (Scenario.world Scenario.never) "0xaa" (fun a => eq_refl) Hb).
Defined.

(** *** The ranking query and the inputs of the score *)

Lemma find_rank_row_number (a : string) (l : list StatsRow) :
  forall k,
    match find_rank a (row_number k l) with
    | Some n => existsb (fun r => String.eqb (address r) a) l = true
                /\ k <= n < k + Z.of_nat (List.length l)
    | None => existsb (fun r => String.eqb (address r) a) l = false
    end.
Proof.
  induction l as [| r l IH]; intros k; [reflexivity |].
  unfold find_rank in *. cbn [row_number find rr_address existsb List.length].
  destruct (String.eqb (address r) a); cbn [option_map rank orb].
  - split; [reflexivity | lia].
  - specialize (IH (k + 1)).
    destruct (find (fun r0 => String.eqb (rr_address r0) a) (row_number (k + 1) l));
      cbn [option_map] in *; [| exact IH].
    destruct IH as [IH1 IH2]. split; [exact IH1 | lia].
Qed.

Lemma existsb_permutation {A : Type} (f : A -> bool) (l l' : list A) :
  Permutation l l' -> existsb f l = existsb f l'.
Proof.
  intros Hp. destruct (existsb f l) eqn:E, (existsb f l') eqn:E'; try reflexivity.
  - apply existsb_exists in E as (x & Hx & Hf).
    assert (existsb f l' = true) by (apply existsb_exists; exists x; split;
      [eapply Permutation_in; eassumption | exact Hf]). congruence.
  - apply existsb_exists in E' as (x & Hx & Hf).
    assert (existsb f l = true) by (apply existsb_exists; exists x; split;
      [eapply Permutation_in; [apply Permutation_sym |]; eassumption | exact Hf]).
    congruence.
Qed.

Lemma existsb_filter {A : Type} (f g : A -> bool) (l : list A) :
  existsb f (filter g l) = existsb (fun x => f x && g x) l.
Proof.
  induction l as [| x l IH]; [reflexivity |].
  cbn [filter existsb]. destruct (g x); cbn [existsb]; rewrite IH.
  - now rewrite andb_true_r.
  - now rewrite andb_false_r.
Qed.

(** X14. The ranking query ranks an address exactly when one of its stats
    rows has a positive score, and the rank found for it lies between 1 and
    the number of rows with a positive score. *)
Theorem ranked_iff_positive_score (a : string) (d : Database) :
  let ranked := List.length (positive_scores (user_stats d)) in
  match find_rank a (select_ranks d) with
  | Some n => existsb (has_positive_score a) (user_stats d) = true
              /\ 1 <= n <= Z.of_nat ranked
  | None => existsb (has_positive_score a) (user_stats d) = false
  end.
Proof.
  cbv zeta. unfold select_ranks.
  destruct (order_by_dna_score_desc_ordered (positive_scores (user_stats d))) as [Hperm _].
  pose proof (find_rank_row_number a
                (order_by_dna_score_desc (positive_scores (user_stats d))) 1) as H.
  assert (E : existsb (fun r => String.eqb (address r) a)
                (order_by_dna_score_desc (positive_scores (user_stats d)))
              = existsb (has_positive_score a) (user_stats d)).
  { transitivity (existsb (fun r => String.eqb (address r) a) (positive_scores (user_stats d))).
    - first [ apply existsb_permutation; exact Hperm
            | apply existsb_permutation; apply Permutation_sym; exact Hperm ].
    - unfold positive_scores. apply existsb_filter. }
  assert (L : List.length (order_by_dna_score_desc (positive_scores (user_stats d)))
              = List.length (positive_scores (user_stats d))).
  { first [ apply Permutation_length; exact Hperm
          | symmetry; apply Permutation_length; exact Hperm ]. }
  rewrite E, L in H.
  destruct (find_rank a _); [| exact H].
  destruct H as [H1 H2]. split; [exact H1 | lia].
Qed.

Lemma fold_min_le (ts : list Z) (t : Z) :
  fold_left Z.min ts t <= t
  /\ (forall x, In x ts -> fold_left Z.min ts t <= x)
  /\ In (fold_left Z.min ts t) (t :: ts).
Proof.
  revert t. induction ts as [| y ts IH]; intros t.
  - cbn. repeat split; [lia | contradiction | now left].
  - cbn [fold_left]. destruct (IH (Z.min t y)) as (H1 & H2 & H3). repeat split.
    + lia.
    + intros x [<- | Hx]; [lia | now apply H2].
    + destruct H3 as [H3 | H3]; [| right; now right].
      rewrite <- H3. destruct (Z.min_spec t y) as [[_ ->] | [_ ->]]; [now left | right; now left].
Qed.

(** X13. What the recompute reads for the score: the active days are at
    most the number of actions of the user; a user with actions has at
    least one active day and a first action that is the earliest of the
    timestamps; a user without actions has no first action and no active
    day. *)
Theorem recompute_reads_real_activity (a : string) (d : Database) :
  let stamps := map act_timestamp (actions_of a d) in
  0 <= select_active_days a d <= Z.of_nat (List.length stamps)
  /\ match select_first_action a d with
     | None => stamps = [] /\ select_active_days a d = 0
     | Some first =>
         In first stamps
         /\ Forall (fun t => first <= t) stamps
         /\ 1 <= select_active_days a d
     end.
Proof.
  cbv zeta. unfold select_active_days, select_first_action.
  set (acts := actions_of a d).
  pose proof (NoDup_incl_length (NoDup_nodup Z.eq_dec (map (fun r => DATE (act_timestamp r)) acts))
                (fun x Hx => proj1 (nodup_In Z.eq_dec _ x) Hx)) as Hle.
  rewrite length_map in Hle. rewrite length_map.
  split; [lia |].
  destruct acts as [| r acts']; cbn [map]; [split; reflexivity |].
  destruct (fold_min_le (map act_timestamp acts') (act_timestamp r)) as (H1 & H2 & H3).
  split; [exact H3 |]. split.
  - constructor; [exact H1 |]. apply Forall_forall. exact H2.
  - assert (Hpos : forall l : list Z, l <> [] -> (1 <= List.length (nodup Z.eq_dec l))%nat).
    { intros [| x l] Hl; [congruence |].
      assert (Hin : In x (nodup Z.eq_dec (x :: l))) by (apply nodup_In; now left).
      destruct (nodup Z.eq_dec (x :: l)); [contradiction | cbn [List.length]; lia]. }
    specialize (Hpos (DATE (act_timestamp r) :: map (fun r => DATE (act_timestamp r)) acts')
                  ltac:(discriminate)).
    lia.
Qed.

(** ** Further properties of the broadcasters *)

Lemma delivered_to_map (message : Json) (id : nat) (cs : list WebSocket) :
  delivered_to id (map (attempt message) cs)
  = map (fun _ => message)
        (filter (fun c => Nat.eqb (ws_id c) id && send_ok message c) cs).
Proof.
  unfold delivered_to. induction cs as [| c cs IH]; [reflexivity |].
  cbn [map filter attempt att_to att_ok].
  destruct (Nat.eqb (ws_id c) id && send_ok message c); cbn [map att_payload]; now rewrite IH.
Qed.

Lemma filter_filter_and {A : Type} (f g : A -> bool) (l : list A) :
  filter (fun x => f x && g x) l = filter g (filter f l).
Proof.
  induction l as [| x l IH]; [reflexivity |].
  cbn. destruct (f x); cbn; [destruct (g x) |]; now rewrite IH.
Qed.

Lemma attempts_to_app (id : nat) (l1 l2 : list Attempt) :
  attempts_to id (l1 ++ l2) = attempts_to id l1 ++ attempts_to id l2.
Proof. unfold attempts_to. now rewrite filter_app, map_app. Qed.

Lemma delivered_to_app (id : nat) (l1 l2 : list Attempt) :
  delivered_to id (l1 ++ l2) = delivered_to id l1 ++ delivered_to id l2.
Proof. unfold delivered_to. now rewrite filter_app, map_app. Qed.

Lemma broadcast_all_wire (messages : list Json) (st : Broadcaster.State) :
  connected (broadcast_all messages st) = connected st
  /\ Broadcaster.wire (broadcast_all messages st)
     = Broadcaster.wire st
       ++ flat_map (fun m => map (attempt m) (filter is_open (connected st))) messages.
Proof.
  revert st. induction messages as [| m ms IH]; intros st.
  - cbn. now rewrite app_nil_r.
  - cbn [broadcast_all fold_left flat_map].
    destruct (IH (snd (Broadcaster.broadcastToAll m st))) as [Hc Hw].
    fold (broadcast_all ms (snd (Broadcaster.broadcastToAll m st))).
    assert (Hsame : connected (snd (Broadcaster.broadcastToAll m st)) = connected st).
    { unfold connected. now rewrite broadcastToAll_keeps_server. }
    rewrite Hc, Hw, Hsame. split; [reflexivity |].
    rewrite broadcastToAll_eq. cbn [snd Broadcaster.wire]. now rewrite app_assoc.
Qed.

(** X15. Broadcasts made one after the other reach a registered client in
    that order: an open client is attempted once for each message and
    receives those whose send does not throw; a client that is not open is
    attempted for none. *)
Theorem client_receives_in_send_order
        (messages : list Json) (st : Broadcaster.State) (c : WebSocket) :
  let sent := since (Broadcaster.wire st) (Broadcaster.wire (broadcast_all messages st)) in
  NoDup (map ws_id (connected st)) ->
  In c (connected st) ->
  attempts_to (ws_id c) sent = (if is_open c then messages else [])
  /\ delivered_to (ws_id c) sent
     = (if is_open c then filter (fun m => send_ok m c) messages else []).
Proof.
  cbv zeta. intros Hnd Hin.
  destruct (broadcast_all_wire messages st) as [_ ->]. rewrite since_app.
  induction messages as [| m ms [IH1 IH2]].
  - cbn. now destruct (is_open c).
  - cbn [flat_map]. rewrite attempts_to_app, delivered_to_app, IH1, IH2.
    rewrite attempts_to_map, delivered_to_map, filter_filter_and,
      (filter_own_id _ _ Hnd Hin).
    destruct (is_open c); cbn [filter map app]; [| split; reflexivity].
    destruct (send_ok m c); split; reflexivity.
Qed.

Lemma client_receives_in_send_order_witness :
  let messages := [Scenario.ping; JNull] in
  let st := broadcast_all messages Scenario.mixed_clients in
  attempts_to 3 (Broadcaster.wire st) = messages
  /\ delivered_to 3 (Broadcaster.wire st) = []
  /\ delivered_to 1 (Broadcaster.wire st) = messages.
Proof.
  cbv zeta.
  assert (Hnd : NoDup (map ws_id (connected Scenario.mixed_clients))).
  { cbn. repeat constructor; cbn; intuition discriminate. }
  destruct (client_receives_in_send_order [Scenario.ping; JNull] Scenario.mixed_clients
              (Scenario.broken 3) Hnd (or_intror (or_intror (or_introl eq_refl))))
    as [H1 H2].
  destruct (client_receives_in_send_order [Scenario.ping; JNull] Scenario.mixed_clients
              (Scenario.healthy 1) Hnd (or_introl eq_refl)) as [_ H3].
  split; [exact H1 |]. split; [exact H2 | exact H3].
Defined.

Lemma fixed_visit_logged (what : string) (message : Json)
      (cs : list WebsocketFixed.ClientEntry) (acc : WebsocketFixed.Acc) :
  WebsocketFixed.acc_logged (fold_left (WebsocketFixed.visit what message) cs acc)
  = WebsocketFixed.acc_logged acc ++ fixed_error_lines what message cs.
Proof.
  revert acc. induction cs as [| c cs IH]; intros acc.
  - cbn. now rewrite app_nil_r.
  - cbn [fold_left fixed_error_lines flat_map]. rewrite IH.
    fold (fixed_error_lines what message cs).
    unfold WebsocketFixed.visit, WebSocket_OPEN, is_open.
    destruct (readyState (WebsocketFixed.ws c) =? 1); [| reflexivity].
    destruct (send (WebsocketFixed.ws c) message) as [[] | e];
      cbn [WebsocketFixed.acc_logged app]; [reflexivity |].
    rewrite <- app_assoc. reflexivity.
Qed.

Lemma fixed_error_lines_count (what : string) (message : Json)
      (cs : list WebsocketFixed.ClientEntry) :
  List.length (fixed_error_lines what message cs)
  = List.length (filter (send_fails message) (filter is_open (map WebsocketFixed.ws cs)))
  /\ Forall (fun l => log_level l = Error) (fixed_error_lines what message cs).
Proof.
  induction cs as [| c cs [IH1 IH2]]; [split; [reflexivity | constructor] |].
  cbn [fixed_error_lines flat_map map filter].
  fold (fixed_error_lines what message cs).
  destruct (is_open (WebsocketFixed.ws c)); [| now split].
  cbn [filter]. unfold send_fails at 1, send_ok at 1.
  destruct (send (WebsocketFixed.ws c) message) as [[] | e]; cbn [negb app List.length].
  - now split.
  - split; [now rewrite IH1 | now constructor].
Qed.

(** X16. [broadcastLeaderboardUpdate] of the FIXED file logs one error
    line for each send that throws, [errorCount] of them, and after them the
    info line of the broadcast only when at least one client was sent the
    message. *)
Theorem fixed_broadcast_logs_each_failure (type : string) (data : Json)
        (fx : WebsocketFixed.State) :
  let result := WebsocketFixed.broadcastLeaderboardUpdate type data fx in
  let n := fst result in
  exists errors,
    since (WebsocketFixed.logged fx) (WebsocketFixed.logged (snd result))
    = errors
      ++ (if 0 <? sentCount n
          then [{| log_level := Info; log_text := "Broadcast leaderboard update";
                   log_args := [JStr type; JNum (sentCount n)]
                               ++ (if 0 <? errorCount n then [JNum (errorCount n)] else []) |}]
          else [])
    /\ Z.of_nat (List.length errors) = errorCount n
    /\ Forall (fun l => log_level l = Error) errors.
Proof.
  cbv zeta.
  destruct (fixed_broadcastLeaderboardUpdate_eq type data fx) as (Hn & _ & _).
  set (message := WebsocketFixed.leaderboard_update type data (WebsocketFixed.clock fx)) in *.
  exists (fixed_error_lines "leaderboard update" message (WebsocketFixed.clients fx)).
  destruct (fixed_error_lines_count "leaderboard update" message (WebsocketFixed.clients fx))
    as [Hlen Hall].
  split; [| split; [| exact Hall]].
  - unfold WebsocketFixed.broadcastLeaderboardUpdate, WebsocketFixed.for_each_client.
    cbn [fst snd WebsocketFixed.logged]. fold message.
    rewrite fixed_visit_logged. cbn [WebsocketFixed.acc_logged].
    match goal with
    | |- context [WebsocketFixed.acc_counts ?f] => set (n := WebsocketFixed.acc_counts f)
    end.
    destruct (0 <? sentCount n); [rewrite <- app_assoc |];
      rewrite since_app, ?app_nil_r; reflexivity.
  - rewrite Hn, Hlen. reflexivity.
Qed.

Lemma fixed_broadcastNewLeader_wire (leader : Leader) (st : WebsocketFixed.State) :
  since (WebsocketFixed.wire st)
        (WebsocketFixed.wire (WebsocketFixed.broadcastNewLeader leader st))
  = map (attempt (WebsocketFixed.new_leader leader (WebsocketFixed.clock st)))
        (filter is_open (map WebsocketFixed.ws (WebsocketFixed.clients st))).
Proof.
  unfold WebsocketFixed.broadcastNewLeader, WebsocketFixed.for_each_client.
  cbn [WebsocketFixed.wire].
  match goal with
  | |- context [fold_left (WebsocketFixed.visit ?what ?m) ?cs ?acc] =>
      destruct (fixed_visit_all m what cs acc) as [_ ->]
  end.
  apply since_app.
Qed.

(** X17. The TypeScript module and the FIXED file agree: over the same
    sockets and the same clock they return the same counts for a leaderboard
    update and put the same sends on the wire for a leaderboard update, for
    ranking changes and for a new leader. *)
Theorem both_broadcasters_send_the_same
        (st : Broadcaster.State) (fx : WebsocketFixed.State) :
  connected st = map WebsocketFixed.ws (WebsocketFixed.clients fx) ->
  Broadcaster.clock st = WebsocketFixed.clock fx ->
  (forall type data,
      fst (Broadcaster.broadcastLeaderboardUpdate type data st)
      = fst (WebsocketFixed.broadcastLeaderboardUpdate type data fx)
      /\ since (Broadcaster.wire st)
               (Broadcaster.wire (snd (Broadcaster.broadcastLeaderboardUpdate type data st)))
         = since (WebsocketFixed.wire fx)
                 (WebsocketFixed.wire (snd (WebsocketFixed.broadcastLeaderboardUpdate type data fx))))
  /\ (forall changes,
        since (Broadcaster.wire st)
              (Broadcaster.wire (snd (Broadcaster.broadcastRankingChanges changes st)))
        = since (WebsocketFixed.wire fx)
                (WebsocketFixed.wire (WebsocketFixed.broadcastRankingChanges changes fx)))
  /\ (forall leader,
        since (Broadcaster.wire st)
              (Broadcaster.wire (snd (Broadcaster.broadcastNewLeader leader st)))
        = since (WebsocketFixed.wire fx)
                (WebsocketFixed.wire (WebsocketFixed.broadcastNewLeader leader fx))).
Proof.
  intros Hclients Hclock. split; [| split].
  - intros type data.
    destruct (fixed_broadcastLeaderboardUpdate_eq type data fx) as (-> & -> & _).
    unfold Broadcaster.broadcastLeaderboardUpdate.
    rewrite broadcastToAll_eq. cbn [fst snd Broadcaster.wire].
    rewrite since_app, Hclients, Hclock. split; reflexivity.
  - intros changes. rewrite fixed_broadcastRankingChanges_wire.
    unfold Broadcaster.broadcastRankingChanges.
    rewrite broadcastToAll_wire, Hclients, Hclock. reflexivity.
  - intros leader. rewrite fixed_broadcastNewLeader_wire.
    unfold Broadcaster.broadcastNewLeader.
    rewrite broadcastToAll_wire, Hclients, Hclock. reflexivity.
Qed.

Lemma both_broadcasters_send_the_same_witness :
  fst (Broadcaster.broadcastLeaderboardUpdate "full" JNull Scenario.three_clients)
  = fst (WebsocketFixed.broadcastLeaderboardUpdate "full" JNull Scenario.three_entries)
  /\ Broadcaster.wire (snd (Broadcaster.broadcastRankingChanges [] Scenario.three_clients))
     = WebsocketFixed.wire (WebsocketFixed.broadcastRankingChanges [] Scenario.three_entries).
Proof.
  destruct (both_broadcasters_send_the_same Scenario.three_clients Scenario.three_entries
              eq_refl eq_refl) as (H1 & H2 & _).
  split; [exact (proj1 (H1 "full" JNull)) | exact (H2 [])].
Defined.

(** ** Properties of the leaderboard page *)

Section PageProperties.

Import LeaderboardPage.

Lemma handle_on_page_boundary (p : Page) (a : Action) :
  on_page_boundary p -> on_page_boundary (handle p a).
Proof.
  intros (Hl & k & Hk & Ho).
  destruct a as [| | v | v | v | v]; cbn [handle].
  - split; [exact Hl |]. exists (k + 1). cbn. split; [lia | nia].
  - split; [exact Hl |]. cbn.
    destruct (Z.eq_dec k 0) as [-> | Hne].
    + exists 0. split; [lia |]. rewrite Ho. lia.
    + exists (k - 1). split; [lia |]. rewrite Ho. nia.
  - split; [exact Hl |]. exists 0. cbn. lia.
  - split; [exact Hl |]. exists 0. cbn. lia.
  - split; [exact Hl |]. exists 0. cbn. lia.
  - split; [cbn; destruct v; reflexivity |]. exists 0. cbn. lia.
Qed.

Lemma session_on_page_boundary (actions : list Action) :
  on_page_boundary (session actions).
Proof.
  unfold session.
  assert (H : on_page_boundary initial).
  { split; [reflexivity |]. exists 0. split; [lia | reflexivity]. }
  revert H. generalize initial. induction actions as [| a actions IH]; intros p H.
  - exact H.
  - cbn [fold_left]. apply IH. now apply handle_on_page_boundary.
Qed.

(** X18. Whatever the user does with the controls of the page, starting
    from its initial state, the limit stays positive and the offset a
    non-negative multiple of it: the page shown is at least 1 and the offset
    is the limit times the number of pages before it. *)
Theorem page_offset_stays_aligned (actions : list Action) :
  let p := session actions in
  0 < limit p
  /\ 0 <= offset p
  /\ offset p mod limit p = 0
  /\ 1 <= currentPage p
  /\ offset p = (currentPage p - 1) * limit p.
Proof.
  cbv zeta. destruct (session_on_page_boundary actions) as (Hl & k & Hk & Ho).
  unfold currentPage. rewrite Ho, Z.div_mul, Z.mod_mul by lia.
  repeat split; first [lia | nia].
Qed.

(** X19. On every state the controls can reach, going to the next page and
    back gives the same state, the next page is one more, the previous page
    is one less and never below 1, and choosing a metric, a tier, a
    timeframe or a limit shows page 1. *)
Theorem page_navigation_round_trip (actions : list Action) (value : string)
        (option_ : LimitOption) :
  let p := session actions in
  goToPrevPage (goToNextPage p) = p
  /\ currentPage (goToNextPage p) = currentPage p + 1
  /\ currentPage (goToPrevPage p) = Z.max 1 (currentPage p - 1)
  /\ currentPage (onMetricChange value p) = 1
  /\ currentPage (onTierChange value p) = 1
  /\ currentPage (onTimeframeChange value p) = 1
  /\ currentPage (onLimitChange option_ p) = 1.
Proof.
  cbv zeta. destruct (session_on_page_boundary actions) as (Hl & k & Hk & Ho).
  destruct (session actions) as [m t f l o c u r co]. cbn in Hl, Ho.
  unfold goToPrevPage, goToNextPage, currentPage, onMetricChange, onTierChange,
    onTimeframeChange, onLimitChange, setOffset, setMetric, setTier, setTimeframe, setLimit.
  cbn [offset limit metric tier timeframe wsConnected lastUpdate refetches console].
  subst o. repeat split.
  - f_equal. lia.
  - replace (k * l + l) with ((k + 1) * l) by lia. rewrite !Z.div_mul by lia. lia.
  - destruct (Z.eq_dec k 0) as [-> | Hne].
    + rewrite Z.max_l by lia. cbn. rewrite ?Z.div_0_l by lia. lia.
    + rewrite Z.max_r by nia. replace (k * l - l) with ((k - 1) * l) by lia.
      rewrite !Z.div_mul by lia. lia.
Qed.

(** X20. The page refetches once and stamps [lastUpdate] on each
    leaderboard_update, ranking_changes and new_leader message of the
    broadcaster; on a user_update and on a user_action it does neither. *)
Theorem page_refetches_on_leaderboard_messages
        (now ts : Z) (p : Page) (type : string) (data : Json)
        (changes : list RankingChange) (leader : Leader)
        (update : UserUpdate) (action : UserAction) :
  let refreshed q := refetches q = S (refetches p) /\ lastUpdate q = Some now in
  let untouched q := refetches q = refetches p /\ lastUpdate q = lastUpdate p in
  refreshed (onMessage now (Broadcaster.leaderboard_update type data ts) p)
  /\ refreshed (onMessage now (Broadcaster.ranking_changes changes ts) p)
  /\ refreshed (onMessage now (Broadcaster.new_leader leader ts) p)
  /\ untouched (onMessage now (Broadcaster.user_update update) p)
  /\ untouched (onMessage now (Broadcaster.user_action action) p).
Proof.
  cbv zeta. repeat split; try reflexivity.
  all: unfold Broadcaster.user_action, opt_field;
    destruct (ua_poolId action), (ua_amountUsd action); reflexivity.
Qed.

(** X21. The page reads the changes and the leader under [message.data],
    where the broadcaster does not put them: for every ranking_changes
    message of the broadcaster it logs 0 users, the length of the array only
    when it is nested under [data], and for every new_leader message of the
    broadcaster it logs undefined as the address. *)
Theorem page_reads_changes_under_data
        (now ts : Z) (p : Page) (changes : list RankingChange) (leader : Leader)
        (items : list Json) :
  let sent := Broadcaster.ranking_changes changes ts in
  let nested := JObj [("type", JStr "ranking_changes"); ("data", JObj [("changes", JArr items)])] in
  since (console p) (console (onMessage now sent p))
  = [ {| line_text := "WebSocket message received:"; line_args := [Some sent] |};
      {| line_text := "Ranking changes:";
         line_args := [Some (JNum 0); Some (JStr "users")] |} ]
  /\ since (console p) (console (onMessage now nested p))
     = [ {| line_text := "WebSocket message received:"; line_args := [Some nested] |};
         {| line_text := "Ranking changes:";
            line_args := [Some (JNum (Z.of_nat (List.length items))); Some (JStr "users")] |} ]
  /\ since (console p) (console (onMessage now (Broadcaster.new_leader leader ts) p))
     = [ {| line_text := "WebSocket message received:";
            line_args := [Some (Broadcaster.new_leader leader ts)] |};
         {| line_text := "New leader:"; line_args := [None] |} ].
Proof.
  cbv zeta. repeat split.
  all: unfold onMessage; cbn; rewrite <- app_assoc; cbn [app]; now rewrite since_app.
Qed.

End PageProperties.

(** ** Properties of the migration script *)

Section MigrateProperties.

Import Migrate.

Lemma failed_run (sys : System) (error : JsError) (sent : list Query)
      (out : list (string * list string)) (ended : nat) :
  exit_code (failed sys error sent out ended) = 1
  /\ queries (failed sys error sent out ended) = sent
  /\ pool_ends (failed sys error sent out ended) = S ended.
Proof. unfold failed. destruct (pool_end sys ended); repeat split. Qed.

Lemma env_check (env : Env) :
  negb (given (DATABASE_URL env))
  && (negb (given (DB_HOST env)) || negb (given (DB_NAME env)) || given (DB_USER env))
  = negb (env_accepted env).
Proof.
  unfold env_accepted.
  destruct (given (DATABASE_URL env)), (given (DB_HOST env)),
    (given (DB_NAME env)), (given (DB_USER env)); reflexivity.
Qed.

Lemma reached_when_accepted (env : Env) (sys : System) :
  env_accepted env = true ->
  exists rest, queries (migrate env sys) = SelectNow :: rest
               /\ (1 <= pool_ends (migrate env sys) <= 2)%nat.
Proof.
  intros Hacc. unfold migrate. rewrite env_check, Hacc. cbn [negb].
  repeat match goal with
    | |- context [if ?b then _ else _] => destruct b
    | |- context [match ?x with _ => _ end] => destruct x
    end;
    try match goal with
      | |- context [failed ?s ?e ?q ?o ?n] =>
          destruct (failed_run s e q o n) as (_ & -> & ->)
      end; eexists; split; try reflexivity; cbn; lia.
Qed.

(** X22. The migration script reaches the database exactly when
    [DATABASE_URL] is set, or [DB_HOST] and [DB_NAME] are set and [DB_USER]
    is not. Otherwise it exits with code 1 having sent no query and not
    closed the pool; so it does, without URL, whenever [DB_USER] is set. *)
Theorem migrate_env_check (env : Env) (sys : System) :
  let run := migrate env sys in
  reached_database run = env_accepted env
  /\ (env_accepted env = false ->
        exit_code run = 1 /\ queries run = [] /\ pool_ends run = 0%nat)
  /\ (given (DATABASE_URL env) = false -> given (DB_USER env) = true ->
        exit_code run = 1 /\ queries run = []).
Proof.
  cbv zeta.
  assert (Hclosed : env_accepted env = false ->
                    exit_code (migrate env sys) = 1 /\ queries (migrate env sys) = []
                    /\ pool_ends (migrate env sys) = 0%nat).
  { intros Hacc. unfold migrate. rewrite env_check, Hacc. repeat split. }
  split; [| split; [exact Hclosed |]].
  - destruct (env_accepted env) eqn:Hacc.
    + destruct (reached_when_accepted env sys Hacc) as (rest & Hq & _).
      unfold reached_database. now rewrite Hq.
    + destruct (Hclosed eq_refl) as (_ & Hq & _). unfold reached_database. now rewrite Hq.
  - intros Hurl Huser.
    assert (Hacc : env_accepted env = false).
    { unfold env_accepted. rewrite Hurl, Huser. cbn. now rewrite andb_false_r. }
    destruct (Hclosed Hacc) as (He & Hq & _). now split.
Qed.

Lemma migrate_env_check_witness :
  env_accepted Cases.with_user = false
  /\ Migrate.exit_code (Migrate.migrate Cases.with_user Cases.working) = 1
  /\ Migrate.queries (Migrate.migrate Cases.with_user Cases.working) = [].
Proof.
  split; [reflexivity |].
  exact (proj2 (proj2 (migrate_env_check Cases.with_user Cases.working)) eq_refl eq_refl).
Defined.

(** X23. The migration script exits with code 0 or 1, and with 0 exactly
    when the environment is accepted and every step succeeds: then it has
    sent [SELECT NOW()], the text of the migration file and the listing of
    the tables, and closed the pool once. The queries it has sent are on
    every run a prefix of these three. *)
Theorem migrate_exit_code (env : Env) (sys : System) :
  let run := migrate env sys in
  (exit_code run = 0 \/ exit_code run = 1)
  /\ (exit_code run = 0 ->
        env_accepted env = true
        /\ exists sql tables,
             all_succeeded sys sql tables
             /\ queries run = [SelectNow; Migration sql; ListTables]
             /\ pool_ends run = 1%nat)
  /\ (forall sql tables,
        env_accepted env = true -> all_succeeded sys sql tables ->
        exit_code run = 0)
  /\ exists sql,
       In (queries run)
          [[]; [SelectNow]; [SelectNow; Migration sql];
           [SelectNow; Migration sql; ListTables]].
Proof.
  cbv zeta. unfold all_succeeded, migrate. rewrite env_check.
  destruct (env_accepted env); cbn [negb].
  2: { repeat split; try discriminate; auto. exists "". cbn. auto. }
  destruct (select_now sys) as [[] | e0].
  2: { destruct (failed_run sys e0 [SelectNow] [] 0) as (-> & -> & _).
       repeat split; try discriminate; auto.
       - intros sql tables _ (H & _). discriminate.
       - exists "". cbn. auto. }
  destruct (existsSync sys).
  2: { cbn [negb].
       match goal with
       | |- context [failed ?s ?e ?q ?o ?n] =>
           destruct (failed_run s e q o n) as (-> & -> & _)
       end.
       repeat split; try discriminate; auto.
       - intros sql tables _ (_ & H & _). discriminate.
       - exists "". cbn. auto. }
  cbn [negb].
  destruct (readFileSync sys) as [sql | e1].
  2: { match goal with
       | |- context [failed ?s ?e ?q ?o ?n] =>
           destruct (failed_run s e q o n) as (-> & -> & _)
       end.
       repeat split; try discriminate; auto.
       - intros sql tables _ (_ & _ & H & _). discriminate.
       - exists "". cbn. auto. }
  destruct (run_sql sys sql) as [[] | e2] eqn:Hsql.
  2: { match goal with
       | |- context [failed ?s ?e ?q ?o ?n] =>
           destruct (failed_run s e q o n) as (-> & -> & _)
       end.
       repeat split; try discriminate; auto.
       - intros sql' tables _ (_ & _ & [= <-] & H & _). congruence.
       - exists sql. cbn. auto. }
  destruct (list_tables sys) as [tables | e3].
  2: { match goal with
       | |- context [failed ?s ?e ?q ?o ?n] =>
           destruct (failed_run s e q o n) as (-> & -> & _)
       end.
       repeat split; try discriminate; auto.
       - intros sql' tables _ (_ & _ & _ & _ & H & _). discriminate.
       - exists sql. cbn. auto. }
  destruct (pool_end sys 0) as [[] | e4] eqn:Hend.
  2: { match goal with
       | |- context [failed ?s ?e ?q ?o ?n] =>
           destruct (failed_run s e q o n) as (-> & -> & _)
       end.
       repeat split; try discriminate; auto.
       - intros sql' tables' _ (_ & _ & _ & _ & _ & H). discriminate.
       - exists sql. cbn. auto. }
  cbn. split; [now left |].
  split; [intros _; split; [reflexivity |]; exists sql, tables; repeat split; auto |].
  split; [reflexivity |]. exists sql. auto.
Qed.

Lemma migrate_exit_code_witness :
  env_accepted Cases.with_url = true
  /\ all_succeeded Cases.working "CREATE TABLE users ();" ["users"]
  /\ Migrate.exit_code (Migrate.migrate Cases.with_url Cases.working) = 0.
Proof.
  assert (H : all_succeeded Cases.working "CREATE TABLE users ();" ["users"])
    by (repeat split).
  split; [reflexivity |]. split; [exact H |].
  exact (proj1 (proj2 (proj2 (migrate_exit_code Cases.with_url Cases.working)))
           "CREATE TABLE users ();" ["users"] eq_refl H).
Defined.

End MigrateProperties.
